(** * pymodbus3: framers, decoder factory and transaction managers

    A shallow embedding of the parts of [pymodbus3] that carry the wire
    formats (transaction.py), the bit-read PDUs (bit_read_message.py), the
    client decoder (factory.py) and the asynchronous endpoints
    (client/async.py, server/async.py), followed by the properties proved
    about them.

    Conventions.  Python [bytes] are lists of integers in [0, 256); Python
    integers are [Z]; a call that may raise returns a [result]; an object
    that a method mutates is threaded explicitly (the method returns the new
    object next to its return value). *)

From Stdlib Require Import ZArith List Bool Lia.
From stdpp Require Import base option list gmap.
Import ListNotations.
Local Open Scope Z_scope.

(** ** Python primitives used by the sources *)

Module Py.

(** The exceptions that the modelled code can raise or let through. *)
Inductive exn : Type :=
| IndexError
| TypeError
| ValueError
| AttributeError
| KeyError
| StructError          (* struct.error *)
| BinasciiError        (* binascii.Error *)
| ModbusException      (* pymodbus3.exceptions.ModbusException *)
| OtherError.          (* any other exception raised by a collaborator *)

Inductive result (A : Type) : Type :=
| Ok (a : A)
| Raise (e : exn).
Arguments Ok {A} a.
Arguments Raise {A} e.

Definition bind {A B : Type} (r : result A) (k : A -> result B) : result B :=
  match r with
  | Ok a => k a
  | Raise e => Raise e
  end.

Definition bytes := list Z.

Definition len (b : bytes) : Z := Z.of_nat (length b).

(** [b[i:j]] with Python's treatment of negative and out-of-range bounds. *)
Definition clamp (n k : Z) : Z :=
  if k <? 0 then Z.max 0 (k + n) else Z.min k n.

Definition slice (b : bytes) (i j : Z) : bytes :=
  let lo := clamp (len b) i in
  let hi := clamp (len b) j in
  firstn (Z.to_nat (hi - lo)) (skipn (Z.to_nat lo) b).

(** [b[i:]] *)
Definition slice_from (b : bytes) (i : Z) : bytes :=
  skipn (Z.to_nat (clamp (len b) i)) b.

(** [b[i]] *)
Definition getitem (b : bytes) (i : Z) : result Z :=
  let k := if i <? 0 then i + len b else i in
  if (k <? 0) || (len b <=? k) then Raise IndexError
  else match nth_error b (Z.to_nat k) with
       | Some x => Ok x
       | None => Raise IndexError
       end.

Fixpoint startswith (sub b : bytes) : bool :=
  match sub, b with
  | [], _ => true
  | _ :: _, [] => false
  | x :: sub', y :: b' => (x =? y) && startswith sub' b'
  end.

Fixpoint find_from (sub b : bytes) (i : Z) : Z :=
  if startswith sub b then i
  else match b with
       | [] => -1
       | _ :: b' => find_from sub b' (i + 1)
       end.

(** [b.find(sub)]: lowest index of [sub] in [b], or -1. *)
Definition find (b sub : bytes) : Z := find_from sub b 0.

(** [d in l] for a list of integers. *)
Definition contains (l : list Z) (d : Z) : bool := existsb (Z.eqb d) l.

(** *** struct.pack / struct.unpack for the formats in use *)

Definition pack_B (v : Z) : result bytes :=
  if (0 <=? v) && (v <=? 0xFF) then Ok [v] else Raise StructError.

Definition pack_H (v : Z) : result bytes :=
  if (0 <=? v) && (v <=? 0xFFFF)
  then Ok [Z.shiftr v 8; Z.land v 0xFF]
  else Raise StructError.

Definition unpack_B (b : bytes) : result Z :=
  match b with
  | [x] => Ok x
  | _ => Raise StructError
  end.

Definition unpack_H (b : bytes) : result Z :=
  match b with
  | [hi; lo] => Ok (Z.shiftl hi 8 + lo)
  | _ => Raise StructError
  end.

(** [struct.unpack('>HHHB', b)] *)
Definition unpack_HHHB (b : bytes) : result (Z * Z * Z * Z) :=
  match b with
  | [t1; t0; p1; p0; l1; l0; u] =>
      Ok (Z.shiftl t1 8 + t0, Z.shiftl p1 8 + p0, Z.shiftl l1 8 + l0, u)
  | _ => Raise StructError
  end.

(** *** Hexadecimal text *)

Definition hex_value (c : Z) : option Z :=
  if (48 <=? c) && (c <=? 57) then Some (c - 48)
  else if (65 <=? c) && (c <=? 70) then Some (c - 55)
  else if (97 <=? c) && (c <=? 102) then Some (c - 87)
  else None.

(** White space as [int] skips it around the number: space, tab, line
    feed, vertical tab, form feed, carriage return. *)
Definition is_space (c : Z) : bool := (c =? 32) || ((9 <=? c) && (c <=? 13)).

Fixpoint lstrip (b : bytes) : bytes :=
  match b with
  | [] => []
  | c :: b' => if is_space c then lstrip b' else b
  end.

(** The run of hexadecimal digits that [int] reads, single underscores
    allowed between digits: the value, the number of digits and what
    follows; [None] for a doubled or trailing underscore. *)
Fixpoint int16_digits (b : bytes) (underscore : bool) (count : nat) (acc : Z)
  : option (Z * nat * bytes) :=
  match b with
  | [] => if underscore then None else Some (acc, count, [])
  | c :: b' =>
      if c =? 95 then
        if underscore then None else int16_digits b' true count acc
      else
        match hex_value c with
        | Some v => int16_digits b' false (S count) (16 * acc + v)
        | None => if underscore then None else Some (acc, count, b)
        end
  end.

(** [int(b, 16)]: optional white space, an optional sign, an optional
    [0x] or [0X] prefix (one underscore may follow it), at least one
    hexadecimal digit with single underscores between digits, optional
    white space; anything else raises [ValueError]. *)
Definition int16 (b : bytes) : result Z :=
  let b := lstrip b in
  let signed :=
    match b with
    | c :: b' => if c =? 43 then (1, b') else if c =? 45 then (-1, b') else (1, b)
    | [] => (1, b)
    end in
  let b := snd signed in
  let b :=
    match b with
    | z :: x :: b' =>
        if (z =? 48) && ((x =? 120) || (x =? 88)) then
          match b' with
          | u :: b'' => if u =? 95 then b'' else b'
          | [] => b'
          end
        else b
    | _ => b
    end in
  let leading_underscore :=
    match b with
    | c :: _ => c =? 95
    | [] => false
    end in
  if leading_underscore then Raise ValueError
  else
    match int16_digits b false 0 0 with
    | None => Raise ValueError
    | Some (value, count, rest) =>
        match count, lstrip rest with
        | S _, [] => Ok (fst signed * value)
        | _, _ => Raise ValueError
        end
    end.

(** [binascii.a2b_hex(b)] *)
Fixpoint a2b_hex (b : bytes) : result bytes :=
  match b with
  | [] => Ok []
  | [_] => Raise BinasciiError
  | h :: l :: b' =>
      match hex_value h, hex_value l with
      | Some x, Some y => bind (a2b_hex b') (fun r => Ok (16 * x + y :: r))
      | _, _ => Raise BinasciiError
      end
  end.

(** What [iter(obj)] accepts as the value returned by [obj.__iter__()]:
    a list iterator has [__next__]; a dictionary keys view is iterable
    but is not itself an iterator. *)
(** The Python values that the framers store under [header['uid']] and
    [header['lrc']] and copy into [unit_id]: an integer, a tuple of
    integers (what [struct.unpack] returns) or a text. *)
Inductive value : Type :=
| Int (z : Z)
| Tuple (items : list Z)
| Text (s : bytes).

(** A [B] field of [struct.pack] given an arbitrary value. *)
Definition pack_B_value (v : value) : result bytes :=
  match v with
  | Int z => pack_B z
  | _ => Raise StructError
  end.

Inductive iter_value (A : Type) : Type :=
| ListIterator (items : list A)
| DictKeysView (keys : list Z).
Arguments ListIterator {A} items.
Arguments DictKeysView {A} keys.

(** [list(obj)] for an instance whose class defines [__iter__]: the
    value that [__iter__] returned must be an iterator, otherwise
    [iter()] raises [TypeError]. *)
Definition list_of_dunder_iter {A : Type} (v : iter_value A) : result (list A) :=
  match v with
  | ListIterator items => Ok items
  | DictKeysView _ => Raise TypeError
  end.

(** *** List indexing and assignment *)

(** The position that [l[i]] denotes, with Python's negative indices;
    [IndexError] outside the list. *)
Definition list_index {A : Type} (l : list A) (i : Z) : result nat :=
  let n := Z.of_nat (length l) in
  let k := if i <? 0 then i + n else i in
  if (k <? 0) || (n <=? k) then Raise IndexError else Ok (Z.to_nat k).

(** [l[i]] *)
Definition list_getitem {A : Type} (l : list A) (i : Z) : result A :=
  bind (list_index l i) (fun k =>
    match nth_error l k with
    | Some x => Ok x
    | None => Raise IndexError
    end).

(** [l[i] = x] *)
Definition list_setitem {A : Type} (l : list A) (i : Z) (x : A) : result (list A) :=
  bind (list_index l i) (fun k => Ok (<[k := x]> l)).

(** *** Hexadecimal output *)

Definition hex_digit (v : Z) : Z := if v <? 10 then 48 + v else 87 + v.

(** ['%02x' % v] for [v] in [0, 256): two lowercase digits.  Every value
    formatted by the sources has passed [struct.pack('>B', ...)] or is a
    checksum masked with 0xff. *)
Definition format_02x (v : Z) : bytes := [hex_digit (v / 16); hex_digit (v mod 16)].

(** [binascii.b2a_hex(b)] *)
Definition b2a_hex (b : bytes) : bytes := flat_map format_02x b.

(** [b.upper()] *)
Definition upper (b : bytes) : bytes :=
  map (fun c => if (97 <=? c) && (c <=? 122) then c - 32 else c) b.

End Py.

Import Py.

Notation "'let!' x ':=' r 'in' k" := (Py.bind r (fun x => k))
  (at level 10, x pattern, r at level 200, k at level 200).

(** ** utilities.py: integrity codes *)

Module Utilities.

Definition crc_shift (crc : Z) : Z :=
  if Z.testbit crc 0
  then Z.lxor (Z.shiftr crc 1) 0xA001
  else Z.shiftr crc 1.

Definition crc_byte (crc a : Z) : Z :=
  Nat.iter 8 crc_shift (Z.lxor crc a).

(** Modelled from the spec: utilities.compute_crc is not among the
    sources.  CRC-16 with initial value 0xFFFF and reflected polynomial
    0xA001, each byte XORed in and followed by eight right shifts; the
    returned u16 has its two bytes swapped so that packing it with
    [>H] puts the low CRC byte first on the wire. *)
Definition compute_crc (data : bytes) : Z :=
  let crc := fold_left crc_byte data 0xFFFF in
  Z.lor (Z.land (Z.shiftl crc 8) 0xFF00) (Z.land (Z.shiftr crc 8) 0x00FF).

(** Modelled from the spec: utilities.check_crc, [check(data, expected)]. *)
Definition check_crc (data : bytes) (check : Z) : bool :=
  compute_crc data =? check.

(** Modelled from the spec: utilities.compute_lrc, the sum of the bytes
    modulo 256, negated in two's complement, low byte. *)
Definition compute_lrc (data : bytes) : Z :=
  let lrc := Z.land (fold_left Z.add data 0) 0xFF in
  Z.land (Z.lxor lrc 0xFF + 1) 0xFF.

(** Modelled from the spec: utilities.check_lrc. *)
Definition check_lrc (data : bytes) (check : Z) : bool :=
  compute_lrc data =? check.

End Utilities.

Import Utilities.

(** ** pdu.py: the PDU base classes *)

Module Pdu.

(** Modelled from the spec: pdu.py is not among the sources.  The header
    fields common to every PDU (data model, "PDU (base)"). *)
Record ModbusPDU : Type := {
  transaction_id : Z;
  protocol_id : Z;
  unit_id : value;
}.

Definition default_pdu : ModbusPDU :=
  {| transaction_id := 0; protocol_id := 0; unit_id := Int 0 |}.

Definition set_transaction_id (t : Z) (p : ModbusPDU) : ModbusPDU :=
  {| transaction_id := t; protocol_id := protocol_id p; unit_id := unit_id p |}.

Definition set_protocol_id (t : Z) (p : ModbusPDU) : ModbusPDU :=
  {| transaction_id := transaction_id p; protocol_id := t; unit_id := unit_id p |}.

Definition set_unit_id (u : value) (p : ModbusPDU) : ModbusPDU :=
  {| transaction_id := transaction_id p; protocol_id := protocol_id p; unit_id := u |}.

(** A message as the framers and the server see it: the header fields,
    the function code, [should_respond] and the result of [encode()]. *)
Record Message : Type := {
  pdu : ModbusPDU;
  function_code : Z;
  should_respond : bool;
  encode : result bytes;
}.

Definition with_pdu (p : ModbusPDU) (m : Message) : Message :=
  {| pdu := p; function_code := function_code m;
     should_respond := should_respond m; encode := encode m |}.

(** Modelled from the spec: the codes of [ModbusExceptions]. *)
Module ModbusExceptions.
Definition IllegalFunction : Z := 1.
Definition IllegalAddress : Z := 2.
Definition IllegalValue : Z := 3.
Definition SlaveFailure : Z := 4.
Definition Acknowledge : Z := 5.
Definition SlaveBusy : Z := 6.
Definition MemoryParityError : Z := 8.
Definition GatewayPathUnavailable : Z := 10.
Definition GatewayNoResponse : Z := 11.
End ModbusExceptions.

(** Modelled from the spec: [ExceptionResponse], whose function code is
    the original one with 0x80 set and whose payload is the single byte
    [exception_code]. *)
Record ExceptionResponse : Type := {
  er_pdu : ModbusPDU;
  original_code : Z;
  er_function_code : Z;
  exception_code : Z;
}.

Definition ExceptionOffset : Z := 0x80.

Definition new_ExceptionResponse (function_code exception_code : Z) : ExceptionResponse :=
  {| er_pdu := default_pdu;
     original_code := function_code;
     er_function_code := Z.lor function_code ExceptionOffset;
     exception_code := exception_code |}.

Definition ExceptionResponse_encode (r : ExceptionResponse) : result bytes :=
  pack_B (exception_code r).

Definition ExceptionResponse_decode (r : ExceptionResponse) (data : bytes)
  : result ExceptionResponse :=
  let! c := getitem data 0 in
  Ok {| er_pdu := er_pdu r; original_code := original_code r;
        er_function_code := er_function_code r; exception_code := c |}.

Definition ExceptionResponse_message (r : ExceptionResponse) : Message :=
  {| pdu := er_pdu r; function_code := er_function_code r;
     should_respond := true; encode := ExceptionResponse_encode r |}.

(** Modelled from the spec: [ModbusRequest.do_exception(code)] yields an
    [ExceptionResponse] for the request's function code. *)
Definition do_exception (function_code exception : Z) : ExceptionResponse :=
  new_ExceptionResponse function_code exception.

(** Modelled from the spec: [calculate_rtu_frame_size(buffer)] with its two
    policies, the class constant [_rtu_frame_size] or the byte count found
    at [_rtu_byte_count_pos], giving [buffer[pos] + pos + 3]; a class with
    neither raises [NotImplementedError]. *)
Inductive rtu_size_rule : Type :=
| FixedSize (size : Z)
| ByteCountPos (pos : Z)
| NoSizeRule.

Definition calculate_rtu_frame_size (rule : rtu_size_rule) (buffer : bytes) : result Z :=
  match rule with
  | FixedSize size => Ok size
  | ByteCountPos pos => let! count := getitem buffer pos in Ok (count + pos + 3)
  | NoSizeRule => Raise OtherError
  end.

End Pdu.

Import Pdu.

(** ** bit_read_message.py *)

Module BitReadMessage.

Record ReadBitsRequestBase : Type := {
  rq_pdu : ModbusPDU;
  address : Z;
  count : Z;
}.

(** [struct.pack('>HH', self.address, self.count)] *)
Definition ReadBitsRequestBase_encode (r : ReadBitsRequestBase) : result bytes :=
  let! a := pack_H (address r) in
  let! c := pack_H (count r) in
  Ok (a ++ c).

(** [self.address, self.count = struct.unpack('>HH', data)] *)
Definition ReadBitsRequestBase_decode (r : ReadBitsRequestBase) (data : bytes)
  : result ReadBitsRequestBase :=
  match data with
  | [a1; a0; c1; c0] =>
      Ok {| rq_pdu := rq_pdu r;
            address := Z.shiftl a1 8 + a0;
            count := Z.shiftl c1 8 + c0 |}
  | _ => Raise StructError
  end.

Record ReadBitsResponseBase : Type := {
  rs_pdu : ModbusPDU;
  bits : list bool;
}.

(** The datastore handed to [execute]; each method may raise. *)
Record Context : Type := {
  validate : Z -> Z -> Z -> result bool;
  get_values : Z -> Z -> Z -> result (list bool);
}.

(** The calls that [execute] makes on the datastore, in order. *)
Inductive call : Type :=
| Validate (fx address count : Z)
| GetValues (fx address count : Z).

Inductive response : Type :=
| Bits (r : ReadBitsResponseBase)
| Exception (r : ExceptionResponse).

Module ReadCoilsRequest.

Definition function_code : Z := 1.

Definition message (r : ReadBitsRequestBase) : Message :=
  {| pdu := rq_pdu r; Pdu.function_code := function_code;
     should_respond := true; encode := ReadBitsRequestBase_encode r |}.

(** [execute(context)], returning the outcome together with the
    datastore calls it made. *)
Definition execute (r : ReadBitsRequestBase) (context : Context)
  : result response * list call :=
  if negb ((1 <=? count r) && (count r <=? 0x7d0)) then
    (Ok (Exception (do_exception function_code ModbusExceptions.IllegalValue)), [])
  else
    let log1 := [Validate function_code (address r) (count r)] in
    match validate context function_code (address r) (count r) with
    | Raise e => (Raise e, log1)
    | Ok false =>
        (Ok (Exception (do_exception function_code ModbusExceptions.IllegalAddress)), log1)
    | Ok true =>
        let log2 := log1 ++ [GetValues function_code (address r) (count r)] in
        match get_values context function_code (address r) (count r) with
        | Raise e => (Raise e, log2)
        | Ok values => (Ok (Bits {| rs_pdu := default_pdu; bits := values |}), log2)
        end
    end.

End ReadCoilsRequest.

(** [ReadBitsRequestBase._rtu_frame_size] and
    [ReadBitsResponseBase._rtu_byte_count_pos]. *)
Definition _rtu_frame_size : Z := 8.
Definition _rtu_byte_count_pos : Z := 2.

(** [self.bits[address] = (value != 0)] *)
Definition set_bit (r : ReadBitsResponseBase) (address value : Z)
  : result ReadBitsResponseBase :=
  let! bits' := list_setitem (bits r) address (negb (value =? 0)) in
  Ok {| rs_pdu := rs_pdu r; bits := bits' |}.

Definition reset_bit (r : ReadBitsResponseBase) (address : Z)
  : result ReadBitsResponseBase :=
  set_bit r address 0.

Definition get_bit (r : ReadBitsResponseBase) (address : Z) : result bool :=
  list_getitem (bits r) address.

Module ReadDiscreteInputsRequest.

Definition function_code : Z := 2.

Definition message (r : ReadBitsRequestBase) : Message :=
  {| pdu := rq_pdu r; Pdu.function_code := function_code;
     should_respond := true; encode := ReadBitsRequestBase_encode r |}.

Definition execute (r : ReadBitsRequestBase) (context : Context)
  : result response * list call :=
  if negb ((1 <=? count r) && (count r <=? 0x7d0)) then
    (Ok (Exception (do_exception function_code ModbusExceptions.IllegalValue)), [])
  else
    let log1 := [Validate function_code (address r) (count r)] in
    match validate context function_code (address r) (count r) with
    | Raise e => (Raise e, log1)
    | Ok false =>
        (Ok (Exception (do_exception function_code ModbusExceptions.IllegalAddress)), log1)
    | Ok true =>
        let log2 := log1 ++ [GetValues function_code (address r) (count r)] in
        match get_values context function_code (address r) (count r) with
        | Raise e => (Raise e, log2)
        | Ok values => (Ok (Bits {| rs_pdu := default_pdu; bits := values |}), log2)
        end
    end.

End ReadDiscreteInputsRequest.

End BitReadMessage.

(** ** factory.py: the client decoder *)

Module Factory.

(** Modelled from the spec: the function codes of the classes listed in
    [ClientDecoder.__function_table], in the order of the table (the
    classes other than the bit-read ones are not among the sources). *)
Definition function_table : list Z :=
  [3; 2; 4; 1; 15; 16; 6; 5; 23; 8; 7; 11; 12; 17; 20; 21; 22; 24; 43].

(** A response object under construction: an instance of the class
    registered for a function code, or an [ExceptionResponse]. *)
Inductive response (B : Type) : Type :=
| Registered (function_code : Z) (body : B)
| Exceptional (r : ExceptionResponse).
Arguments Registered {B} function_code body.
Arguments Exceptional {B} r.

Section ClientDecoder.

(** The registered response classes, taken as parameters: the freshly
    constructed instance [cls()], its [decode], and the class change
    that the sub-function table prescribes. *)
Context {B : Type}.
Variable construct : Z -> B.
Variable decode_body : Z -> B -> bytes -> result B.
Variable rewrap : Z -> B -> B.

(** [self.__lookup.get(function_code, lambda: None)()] *)
Definition lookup (function_code : Z) : option (response B) :=
  if contains function_table function_code
  then Some (Registered function_code (construct function_code))
  else None.

(** [response.decode(data)] *)
Definition response_decode (r : response B) (data : bytes) : result (response B) :=
  match r with
  | Registered fc b =>
      let! b' := decode_body fc b data in Ok (Registered fc b')
  | Exceptional e =>
      let! e' := ExceptionResponse_decode e data in Ok (Exceptional e')
  end.

(** The [sub_function_code] step: an [ExceptionResponse] has no such
    attribute and is returned as it is. *)
Definition subtype (r : response B) : response B :=
  match r with
  | Registered fc b => Registered fc (rewrap fc b)
  | Exceptional e => Exceptional e
  end.

Definition _helper (data : bytes) : result (response B) :=
  let! function_code := getitem data 0 in
  let response0 := lookup function_code in
  let response1 :=
    if function_code >? 0x80 then
      let code := Z.land function_code 0x7f in
      Some (Exceptional (new_ExceptionResponse code ModbusExceptions.IllegalFunction))
    else response0 in
  match response1 with
  | None => Raise ModbusException
  | Some response =>
      let! decoded := response_decode response (slice_from data 1) in
      Ok (subtype decoded)
  end.

(** [decode(message)]: a [ModbusException] is logged and becomes [None]. *)
Definition decode (message : bytes) : result (option (response B)) :=
  match _helper message with
  | Ok r => Ok (Some r)
  | Raise ModbusException => Ok None
  | Raise e => Raise e
  end.

End ClientDecoder.

(** *** The server decoder *)

(** A request object under construction: an instance of the class
    registered for a function code, or an [IllegalFunctionRequest]. *)
Inductive request (B : Type) : Type :=
| RegisteredRequest (function_code : Z) (body : B)
| IllegalFunctionRequest (function_code : Z).
Arguments RegisteredRequest {B} function_code body.
Arguments IllegalFunctionRequest {B} function_code.

(** Modelled from the spec: the function codes of the classes listed in
    [ServerDecoder.__function_table], in the order of the table. *)
Definition server_function_table : list Z :=
  [3; 2; 4; 1; 15; 16; 6; 5; 23; 8; 7; 11; 12; 17; 20; 21; 22; 24; 43].

Section ServerDecoder.

(** The registered request classes, taken as parameters as for the
    client decoder. *)
Context {B : Type}.
Variable construct : Z -> B.
Variable decode_body : Z -> B -> bytes -> result B.
Variable rewrap : Z -> B -> B.

Definition server_lookup (function_code : Z) : option (request B) :=
  if contains server_function_table function_code
  then Some (RegisteredRequest function_code (construct function_code))
  else None.

(** [request.decode(data)].  Modelled from the spec:
    [IllegalFunctionRequest.decode] of pdu.py accepts any payload and
    keeps nothing of it (the test suite decodes the text 12345 with it). *)
Definition request_decode (r : request B) (data : bytes) : result (request B) :=
  match r with
  | RegisteredRequest fc b =>
      let! b' := decode_body fc b data in Ok (RegisteredRequest fc b')
  | IllegalFunctionRequest fc => Ok (IllegalFunctionRequest fc)
  end.

Definition request_subtype (r : request B) : request B :=
  match r with
  | RegisteredRequest fc b => RegisteredRequest fc (rewrap fc b)
  | IllegalFunctionRequest fc => IllegalFunctionRequest fc
  end.

Definition server_helper (data : bytes) : result (request B) :=
  let! function_code := getitem data 0 in
  let request0 := server_lookup function_code in
  let request1 :=
    match request0 with
    | Some r => r
    | None => IllegalFunctionRequest function_code
    end in
  let! decoded := request_decode request1 (slice_from data 1) in
  Ok (request_subtype decoded).

Definition server_decode (message : bytes) : result (option (request B)) :=
  match server_helper message with
  | Ok r => Ok (Some r)
  | Raise ModbusException => Ok None
  | Raise e => Raise e
  end.

End ServerDecoder.

End Factory.

(** ** transaction.py *)

Module Transaction.

(** Methods that mutate [self] and may raise: the object is threaded
    through, and is kept as it was left when the exception was raised. *)
Definition M (S A : Type) : Type := S -> result A * S.

Definition ret {S A : Type} (a : A) : M S A := fun s => (Ok a, s).
Definition raise {S A : Type} (e : exn) : M S A := fun s => (Raise e, s).
Definition lift {S A : Type} (r : result A) : M S A := fun s => (r, s).
Definition get {S : Type} : M S S := fun s => (Ok s, s).
Definition modify {S : Type} (f : S -> S) : M S unit := fun s => (Ok tt, f s).

Definition mbind {S A B : Type} (m : M S A) (k : A -> M S B) : M S B :=
  fun s =>
    match m s with
    | (Ok a, s') => k a s'
    | (Raise e, s') => (Raise e, s')
    end.

(** [try: m  except <handled>: h] *)
Definition try_except {S A : Type} (m : M S A) (handled : exn -> bool) (h : M S A)
  : M S A :=
  fun s =>
    match m s with
    | (Ok a, s') => (Ok a, s')
    | (Raise e, s') => if handled e then h s' else (Raise e, s')
    end.

Declare Scope m_scope.
Notation "'do!' x ':=' m 'in' k" := (mbind m (fun x => k))
  (at level 10, x pattern, m at level 200, k at level 200) : m_scope.
Notation "m1 ';;;' m2" := (mbind m1 (fun _ => m2))
  (at level 100, right associativity) : m_scope.
Local Open Scope m_scope.

(** Modelled from the spec: [Defaults.TransactionId] of constants.py,
    which is not among the sources; [reset] restores this initial value
    and the tests expect the first identifier after it to be 1. *)
Definition Defaults_TransactionId : Z := 0.

Module DictTransactionManager.
Section Handles.
Context {H : Type}.
(** [request.transaction_id], read when no [tid] is supplied. *)
Variable request_transaction_id : H -> result Z.

Record t : Type := { tid : Z; transactions : gmap Z H }.

Definition init : t := {| tid := Defaults_TransactionId; transactions := ∅ |}.

Definition get_next_tid : M t Z :=
  fun m =>
    let tid' := Z.land (tid m + 1) 0xffff in
    (Ok tid', {| tid := tid'; transactions := transactions m |}).

Definition reset : M t unit :=
  fun m => (Ok tt, {| tid := Defaults_TransactionId; transactions := ∅ |}).

(** [return self.transactions.keys()] *)
Definition __iter__ (m : t) : iter_value Z :=
  DictKeysView (map_to_list (transactions m)).*1.

Definition add_transaction (request : H) (tid_arg : option Z) : M t unit :=
  fun m =>
    let tid_r := match tid_arg with
                 | None => request_transaction_id request
                 | Some tid => Ok tid
                 end in
    match tid_r with
    | Raise e => (Raise e, m)
    | Ok k => (Ok tt, {| tid := tid m; transactions := <[k := request]> (transactions m) |})
    end.

(** [return self.transactions.pop(tid, None)] *)
Definition get_transaction (k : Z) : M t (option H) :=
  fun m =>
    (Ok (transactions m !! k),
     {| tid := tid m; transactions := delete k (transactions m) |}).

(** [self.transactions.pop(tid, None)] *)
Definition del_transaction (k : Z) : M t unit :=
  fun m => (Ok tt, {| tid := tid m; transactions := delete k (transactions m) |}).

End Handles.
Arguments t H : clear implicits.
End DictTransactionManager.

Module FifoTransactionManager.
Section Handles.
Context {H : Type}.
(** [request.transaction_id], read when no [tid] is supplied. *)
Variable request_transaction_id : H -> result Z.

Record t : Type := { tid : Z; transactions : list H }.

Definition init : t := {| tid := Defaults_TransactionId; transactions := [] |}.

(** [return iter(self.transactions)] *)
Definition __iter__ (m : t) : iter_value H :=
  ListIterator (transactions m).

(** The identifier is worked out as in the keyed manager (reading
    [request.transaction_id] may raise) and then only logged. *)
Definition add_transaction (request : H) (tid_arg : option Z) : M t unit :=
  fun m =>
    let tid_r := match tid_arg with
                 | None => request_transaction_id request
                 | Some tid => Ok tid
                 end in
    match tid_r with
    | Raise e => (Raise e, m)
    | Ok _ => (Ok tt, {| tid := tid m; transactions := transactions m ++ [request] |})
    end.

(** [return self.transactions.pop(0) if self.transactions else None] *)
Definition get_transaction (k : Z) : M t (option H) :=
  fun m =>
    match transactions m with
    | [] => (Ok None, m)
    | h :: rest => (Ok (Some h), {| tid := tid m; transactions := rest |})
    end.

Definition del_transaction (k : Z) : M t unit :=
  fun m =>
    match transactions m with
    | [] => (Ok tt, m)
    | _ :: rest => (Ok tt, {| tid := tid m; transactions := rest |})
    end.

End Handles.
Arguments t H : clear implicits.
End FifoTransactionManager.

(** *** The MBAP (TCP) framer *)

Module ModbusSocketFramer.

Record header_t : Type := { h_tid : Z; h_pid : Z; h_len : Z; h_uid : Z }.
Record t : Type := { buffer : bytes; header : header_t }.

Definition header_size : Z := 0x07.
Definition empty_header : header_t :=
  {| h_tid := 0; h_pid := 0; h_len := 0; h_uid := 0 |}.
Definition init : t := {| buffer := []; header := empty_header |}.

Definition get_frame_size (f : t) : Z :=
  header_size + Z.max 0 (h_len (header f) - 1).

Definition advance_frame : M t unit :=
  modify (fun f =>
    let length := get_frame_size f in
    {| buffer := slice_from (buffer f) length; header := empty_header |}).

Definition reset_frame : M t unit := advance_frame.

Definition add_to_frame (message : bytes) : M t unit :=
  modify (fun f => {| buffer := buffer f ++ message; header := header f |}).

Definition is_frame_ready (f : t) : bool := len (buffer f) >? header_size.

Definition check_frame : M t bool :=
  do! f := get in
  if len (buffer f) >=? header_size then
    do! (tid, pid, length, uid) := lift (unpack_HHHB (slice (buffer f) 0 header_size)) in
    modify (fun f => {| buffer := buffer f;
                        header := {| h_tid := tid; h_pid := pid;
                                     h_len := length; h_uid := uid |} |}) ;;;
    do! f := get in
    if h_len (header f) <? 2 then
      advance_frame ;;; ret false
    else if len (buffer f) - header_size + 1 >=? h_len (header f) then
      ret true
    else ret false
  else ret false.

Definition get_frame (f : t) : bytes :=
  let length := get_frame_size f in
  slice (buffer f) header_size length.

Definition populate_result (f : t) (result : ModbusPDU) : ModbusPDU :=
  {| transaction_id := h_tid (header f);
     protocol_id := h_pid (header f);
     unit_id := Int (h_uid (header f)) |}.

(** [struct.pack('>HHHBB', tid, pid, len(data) + 2, uid, function_code) + data] *)
Definition build_packet (message : Message) : result bytes :=
  let! data := encode message in
  let! t := pack_H (transaction_id (pdu message)) in
  let! p := pack_H (protocol_id (pdu message)) in
  let! l := pack_H (len data + 2) in
  let! u := pack_B_value (unit_id (pdu message)) in
  let! c := pack_B (function_code message) in
  Ok (t ++ p ++ l ++ u ++ c ++ data).

End ModbusSocketFramer.

(** *** The RTU framer *)

Module ModbusRtuFramer.

(** The ['crc'] key is absent until [populate_header] stores it. *)
Record header_t : Type := {
  h_lrc : value; h_len : Z; h_uid : Z; h_crc : option bytes
}.
Record t : Type := { buffer : bytes; header : header_t }.

Definition header_size : Z := 0x01.
Definition empty_header : header_t :=
  {| h_lrc := Text [48; 48; 48; 48]; h_len := 0; h_uid := 0; h_crc := None |}.
Definition init : t := {| buffer := []; header := empty_header |}.

Definition set_uid (u : Z) (f : t) : t :=
  {| buffer := buffer f;
     header := {| h_lrc := h_lrc (header f); h_len := h_len (header f);
                  h_uid := u; h_crc := h_crc (header f) |} |}.
Definition set_len (n : Z) (f : t) : t :=
  {| buffer := buffer f;
     header := {| h_lrc := h_lrc (header f); h_len := n;
                  h_uid := h_uid (header f); h_crc := h_crc (header f) |} |}.
Definition set_crc (c : bytes) (f : t) : t :=
  {| buffer := buffer f;
     header := {| h_lrc := h_lrc (header f); h_len := h_len (header f);
                  h_uid := h_uid (header f); h_crc := Some c |} |}.

Definition advance_frame : M t unit :=
  modify (fun f =>
    {| buffer := slice_from (buffer f) (h_len (header f)); header := empty_header |}).

Definition reset_frame : M t unit :=
  modify (fun f => {| buffer := []; header := empty_header |}).

Definition add_to_frame (message : bytes) : M t unit :=
  modify (fun f => {| buffer := buffer f ++ message; header := header f |}).

Definition is_frame_ready (f : t) : bool := len (buffer f) >? header_size.

Definition get_frame_size (f : t) : Z :=
  let size := h_len (header f) in
  if negb (size =? 0) then size else len (buffer f) + 1.

Definition get_frame : M t bytes :=
  do! f := get in
  let start := header_size in
  let end_ := h_len (header f) - 2 in
  let buffer := slice (buffer f) start end_ in
  if end_ >? 0 then ret buffer else ret [].

Definition populate_result (f : t) (result : ModbusPDU) : ModbusPDU :=
  set_unit_id (Int (h_uid (header f))) result.

Definition build_packet (message : Message) : result bytes :=
  let! data := encode message in
  let! u := pack_B_value (unit_id (pdu message)) in
  let! c := pack_B (function_code message) in
  let packet := u ++ c ++ data in
  let! k := pack_H (compute_crc packet) in
  Ok (packet ++ k).

Section Decoder.

(** [self.decoder.lookup_pdu_class(func_code).calculate_rtu_frame_size(buffer)] *)
Variable calculate_rtu_frame_size : Z -> bytes -> result Z.

Definition populate_header : M t unit :=
  do! f := get in
  do! uid := lift (getitem (buffer f) 0) in
  modify (set_uid uid) ;;;
  do! func_code := lift (getitem (buffer f) 1) in
  do! size := lift (calculate_rtu_frame_size func_code (buffer f)) in
  modify (set_len size) ;;;
  modify (set_crc (slice (buffer f) (size - 2) size)).

Definition check_frame : M t bool :=
  try_except
    (populate_header ;;;
     do! f := get in
     let frame_size := h_len (header f) in
     let data := slice (buffer f) 0 (frame_size - 2) in
     let crc := slice (buffer f) (frame_size - 2) frame_size in
     do! c0 := lift (getitem crc 0) in
     do! c1 := lift (getitem crc 1) in
     let crc_val := Z.shiftl c0 8 + c1 in
     ret (check_crc data crc_val))
    (fun e => match e with IndexError | KeyError => true | _ => false end)
    (ret false).

End Decoder.

End ModbusRtuFramer.

(** *** The ASCII framer *)

Module ModbusAsciiFramer.

Record header_t : Type := { h_lrc : value; h_len : Z; h_uid : Z }.
Record t : Type := { buffer : bytes; header : header_t }.

Definition header_size : Z := 0x02.
Definition _start : bytes := [58].          (* b':' *)
Definition _end : bytes := [13; 10].        (* b"\r\n" *)
Definition empty_header : header_t :=
  {| h_lrc := Text [48; 48; 48; 48]; h_len := 0; h_uid := 0 |}.
Definition init : t := {| buffer := []; header := empty_header |}.

Definition set_buffer (b : bytes) (f : t) : t :=
  {| buffer := b; header := header f |}.
Definition set_len (n : Z) (f : t) : t :=
  {| buffer := buffer f;
     header := {| h_lrc := h_lrc (header f); h_len := n; h_uid := h_uid (header f) |} |}.
Definition set_uid (u : Z) (f : t) : t :=
  {| buffer := buffer f;
     header := {| h_lrc := h_lrc (header f); h_len := h_len (header f); h_uid := u |} |}.
Definition set_lrc (c : value) (f : t) : t :=
  {| buffer := buffer f;
     header := {| h_lrc := c; h_len := h_len (header f); h_uid := h_uid (header f) |} |}.

Definition check_frame : M t bool :=
  do! f := get in
  let start := find (buffer f) _start in
  if start =? -1 then ret false
  else
    (if start >? 0 then modify (set_buffer (slice_from (buffer f) start)) else ret tt) ;;;
    let start := if start >? 0 then 0 else start in
    do! f := get in
    let end_ := find (buffer f) _end in
    if negb (end_ =? -1) then
      modify (set_len end_) ;;;
      do! uid := lift (int16 (slice (buffer f) 1 3)) in
      modify (set_uid uid) ;;;
      do! lrc := lift (int16 (slice (buffer f) (end_ - 2) end_)) in
      modify (set_lrc (Int lrc)) ;;;
      do! data := lift (a2b_hex (slice (buffer f) (start + 1) (end_ - 2))) in
      ret (check_lrc data lrc)
    else ret false.

Definition advance_frame : M t unit :=
  modify (fun f =>
    {| buffer := slice_from (buffer f) (h_len (header f) + 2);
       header := empty_header |}).

Definition reset_frame : M t unit := advance_frame.

Definition add_to_frame (message : bytes) : M t unit :=
  modify (fun f => {| buffer := buffer f ++ message; header := header f |}).

Definition is_frame_ready (f : t) : bool := len (buffer f) >? header_size.

Definition get_frame_size (f : t) : Z :=
  let size := h_len (header f) in
  if negb (size =? 0) then size else len (buffer f) + 1.

Definition get_frame : M t bytes :=
  do! f := get in
  let start := header_size + 1 in
  let end_ := h_len (header f) - 2 in
  let data := slice (buffer f) start end_ in
  if end_ >? 0 then lift (a2b_hex data) else ret [].

Definition populate_result (f : t) (result : ModbusPDU) : ModbusPDU :=
  set_unit_id (Int (h_uid (header f))) result.

(** [build_packet]: the two header values are formatted after
    [struct.pack('>BB', ...)] has accepted them, hence as bytes. *)
Definition build_packet (message : Message) : result bytes :=
  let! encoded := encode message in
  let! u := pack_B_value (unit_id (pdu message)) in
  let! c := pack_B (function_code message) in
  let data := u ++ c in
  let checksum := compute_lrc (encoded ++ data) in
  let packet :=
    _start ++ flat_map format_02x data ++ b2a_hex encoded
           ++ format_02x checksum ++ _end in
  Ok (upper packet).

End ModbusAsciiFramer.

(** *** The binary framer *)

Module ModbusBinaryFramer.

(** [header['uid']] starts as the integer 0 and is overwritten with
    whatever [struct.unpack] returns. *)
Record header_t : Type := { h_crc : Z; h_len : Z; h_uid : value }.
Record t : Type := { buffer : bytes; header : header_t }.

Definition header_size : Z := 0x02.
Definition _start : bytes := [0x7b].        (* { *)
Definition _end : bytes := [0x7d].          (* } *)
Definition _repeat : list Z := [0x7d; 0x7b].
Definition empty_header : header_t :=
  {| h_crc := 0x0000; h_len := 0; h_uid := Int 0x00 |}.
Definition init : t := {| buffer := []; header := empty_header |}.

Definition set_buffer (b : bytes) (f : t) : t :=
  {| buffer := b; header := header f |}.
Definition set_len (n : Z) (f : t) : t :=
  {| buffer := buffer f;
     header := {| h_crc := h_crc (header f); h_len := n; h_uid := h_uid (header f) |} |}.
Definition set_uid (u : value) (f : t) : t :=
  {| buffer := buffer f;
     header := {| h_crc := h_crc (header f); h_len := h_len (header f); h_uid := u |} |}.
Definition set_crc (c : Z) (f : t) : t :=
  {| buffer := buffer f;
     header := {| h_crc := c; h_len := h_len (header f); h_uid := h_uid (header f) |} |}.

(** [struct.unpack('>B', b)]: the tuple, not its element. *)
Definition unpack_B_tuple (b : bytes) : result value :=
  let! x := unpack_B b in Ok (Tuple [x]).

Definition check_frame : M t bool :=
  do! f := get in
  let start := find (buffer f) _start in
  if start =? -1 then ret false
  else
    (if start >? 0 then modify (set_buffer (slice_from (buffer f) start)) else ret tt) ;;;
    do! f := get in
    let end_ := find (buffer f) _end in
    if negb (end_ =? -1) then
      modify (set_len end_) ;;;
      do! uid := lift (unpack_B_tuple (slice (buffer f) 1 2)) in
      modify (set_uid uid) ;;;
      do! crc := lift (unpack_H (slice (buffer f) (end_ - 2) end_)) in
      modify (set_crc crc) ;;;
      let data := slice (buffer f) (start + 1) (end_ - 2) in
      ret (check_crc data crc)
    else ret false.

Definition advance_frame : M t unit :=
  modify (fun f =>
    {| buffer := slice_from (buffer f) (h_len (header f) + 2);
       header := empty_header |}).

Definition reset_frame : M t unit := advance_frame.

Definition add_to_frame (message : bytes) : M t unit :=
  modify (fun f => {| buffer := buffer f ++ message; header := header f |}).

Definition is_frame_ready (f : t) : bool := len (buffer f) >? header_size.

Definition get_frame_size (f : t) : Z :=
  let size := h_len (header f) in
  if negb (size =? 0) then size else len (buffer f) + 1.

Definition get_frame : M t bytes :=
  do! f := get in
  let start := header_size + 1 in
  let end_ := h_len (header f) - 2 in
  let buffer := slice (buffer f) start end_ in
  if end_ >? 0 then ret buffer else ret [].

Definition populate_result (f : t) (result : ModbusPDU) : ModbusPDU :=
  set_unit_id (h_uid (header f)) result.

Fixpoint _preflight (data : bytes) : bytes :=
  match data with
  | [] => []
  | d :: rest =>
      if contains _repeat d then d :: d :: _preflight rest
      else d :: _preflight rest
  end.

Definition build_packet (message : Message) : result bytes :=
  let! encoded := encode message in
  let data := _preflight encoded in
  let! u := pack_B_value (unit_id (pdu message)) in
  let! c := pack_B (function_code message) in
  let packet := u ++ c ++ data in
  let! k := pack_H (compute_crc packet) in
  let packet := packet ++ k in
  Ok (_start ++ packet ++ _end).

End ModbusBinaryFramer.

End Transaction.

(** ** interfaces.py: the packet processing loop of the framers *)

Module Interfaces.
Import Transaction.
Local Open Scope m_scope.

(** The methods of [IModbusFramer] that [process_incoming_packet] calls. *)
Record IModbusFramer (F : Type) : Type := {
  add_to_frame : bytes -> M F unit;
  is_frame_ready : F -> bool;
  check_frame : M F bool;
  get_frame : M F bytes;
  populate_result : F -> ModbusPDU -> ModbusPDU;
  advance_frame : M F unit;
}.
Arguments add_to_frame {F} _ _ _.
Arguments is_frame_ready {F} _ _.
Arguments check_frame {F} _ _.
Arguments get_frame {F} _ _.
Arguments populate_result {F} _ _ _.
Arguments advance_frame {F} _ _.

Definition socket_framer : IModbusFramer ModbusSocketFramer.t :=
  {| add_to_frame := ModbusSocketFramer.add_to_frame;
     is_frame_ready := ModbusSocketFramer.is_frame_ready;
     check_frame := ModbusSocketFramer.check_frame;
     get_frame := fun f => (Ok (ModbusSocketFramer.get_frame f), f);
     populate_result := ModbusSocketFramer.populate_result;
     advance_frame := ModbusSocketFramer.advance_frame |}.

Definition rtu_framer (calculate_rtu_frame_size : Z -> bytes -> result Z)
  : IModbusFramer ModbusRtuFramer.t :=
  {| add_to_frame := ModbusRtuFramer.add_to_frame;
     is_frame_ready := ModbusRtuFramer.is_frame_ready;
     check_frame := ModbusRtuFramer.check_frame calculate_rtu_frame_size;
     get_frame := ModbusRtuFramer.get_frame;
     populate_result := ModbusRtuFramer.populate_result;
     advance_frame := ModbusRtuFramer.advance_frame |}.

Definition ascii_framer : IModbusFramer ModbusAsciiFramer.t :=
  {| add_to_frame := ModbusAsciiFramer.add_to_frame;
     is_frame_ready := ModbusAsciiFramer.is_frame_ready;
     check_frame := ModbusAsciiFramer.check_frame;
     get_frame := ModbusAsciiFramer.get_frame;
     populate_result := ModbusAsciiFramer.populate_result;
     advance_frame := ModbusAsciiFramer.advance_frame |}.

Definition binary_framer : IModbusFramer ModbusBinaryFramer.t :=
  {| add_to_frame := ModbusBinaryFramer.add_to_frame;
     is_frame_ready := ModbusBinaryFramer.is_frame_ready;
     check_frame := ModbusBinaryFramer.check_frame;
     get_frame := ModbusBinaryFramer.get_frame;
     populate_result := ModbusBinaryFramer.populate_result;
     advance_frame := ModbusBinaryFramer.advance_frame |}.

Section Processing.

(** The framer [F], the object [C] that the callback works on, and the
    decoded messages [R] with their header fields. *)
Context {F C R : Type}.
Variable framer : IModbusFramer F.
Variable decode : bytes -> result (option R).       (* self.decoder.decode *)
Variable header_of : R -> ModbusPDU.
Variable with_header : ModbusPDU -> R -> R.
Variable callback : R -> M C unit.

(** The [while self.is_frame_ready()] loop, at most [fuel] iterations;
    [None] when the iterations did not suffice.  A [None] from the decoder
    raises [ModbusIOException], a [ModbusException]. *)
Fixpoint process_loop (fuel : nat) (s : F * C) : option (result unit * (F * C)) :=
  match fuel with
  | O => None
  | S fuel' =>
      if is_frame_ready framer (fst s) then
        match check_frame framer (fst s) with
        | (Raise e, f1) => Some (Raise e, (f1, snd s))
        | (Ok false, f1) => Some (Ok tt, (f1, snd s))
        | (Ok true, f1) =>
            match get_frame framer f1 with
            | (Raise e, f2) => Some (Raise e, (f2, snd s))
            | (Ok frame, f2) =>
                match decode frame with
                | Raise e => Some (Raise e, (f2, snd s))
                | Ok None => Some (Raise ModbusException, (f2, snd s))
                | Ok (Some result) =>
                    let result :=
                      with_header (populate_result framer f2 (header_of result)) result in
                    match advance_frame framer f2 with
                    | (Raise e, f3) => Some (Raise e, (f3, snd s))
                    | (Ok _, f3) =>
                        match callback result (snd s) with
                        | (Raise e, c') => Some (Raise e, (f3, c'))
                        | (Ok _, c') => process_loop fuel' (f3, c')
                        end
                    end
                end
            end
        end
      else Some (Ok tt, s)
  end.

Definition process_incoming_packet (fuel : nat) (data : bytes) (s : F * C)
  : option (result unit * (F * C)) :=
  match data with
  | [] => process_loop fuel s
  | _ :: _ =>
      match add_to_frame framer data (fst s) with
      | (Raise e, f1) => Some (Raise e, (f1, snd s))
      | (Ok _, f1) => process_loop fuel (f1, snd s)
      end
  end.

End Processing.

End Interfaces.

(** ** client/async.py: the asynchronous client over the keyed table *)

Module ClientAsync.
Import Transaction.
Local Open Scope m_scope.

(** The failure handed to a deferred's [errback]. *)
Inductive failure : Type :=
| ConnectionLost        (* ConnectionException('Connection lost during request') *)
| NotConnected.         (* ConnectionException('Client is not connected') *)

Section Client.

(** The deferreds (pending response handles). *)
Context {H : Type}.

(** [ModbusClientProtocol] with its default framer, a
    [ModbusSocketFramer], hence with a [DictTransactionManager].
    [errbacks] records the calls [handler.errback(failure)] in order. *)
Record ModbusClientProtocol : Type := {
  _connected : bool;
  transaction : DictTransactionManager.t H;
  errbacks : list (H * failure);
}.

Definition init : ModbusClientProtocol :=
  {| _connected := false; transaction := DictTransactionManager.init; errbacks := [] |}.

Definition set_connected (b : bool) (c : ModbusClientProtocol) : ModbusClientProtocol :=
  {| _connected := b; transaction := transaction c; errbacks := errbacks c |}.

(** A method of [self.transaction] run on the client's manager. *)
Definition on_transaction {A : Type} (op : M (DictTransactionManager.t H) A)
  : M ModbusClientProtocol A :=
  fun c =>
    let '(r, m) := op (transaction c) in
    (r, {| _connected := _connected c; transaction := m; errbacks := errbacks c |}).

(** [handler.errback(f)]; [None] has no such attribute. *)
Definition errback (handler : option H) (f : failure) : M ModbusClientProtocol unit :=
  match handler with
  | None => raise AttributeError
  | Some d =>
      modify (fun c => {| _connected := _connected c; transaction := transaction c;
                          errbacks := errbacks c ++ [(d, f)] |})
  end.

Fixpoint for_each {S A : Type} (l : list A) (body : A -> M S unit) : M S unit :=
  match l with
  | [] => ret tt
  | x :: rest => body x ;;; for_each rest body
  end.

Definition connection_made : M ModbusClientProtocol unit :=
  modify (set_connected true).

Definition connection_lost : M ModbusClientProtocol unit :=
  modify (set_connected false) ;;;
  do! c := get in
  do! tids := lift (list_of_dunder_iter (DictTransactionManager.__iter__ (transaction c))) in
  for_each tids (fun tid =>
    do! handler := on_transaction (DictTransactionManager.get_transaction tid) in
    errback handler ConnectionLost).

(** [_build_response(tid)] with [d] the deferred it creates; the
    result is the deferred and whether it was failed at once. *)
Definition _build_response (d : H) (tid : Z) : M ModbusClientProtocol (H * option failure) :=
  do! c := get in
  if negb (_connected c) then ret (d, Some NotConnected)
  else
    on_transaction (DictTransactionManager.add_transaction (fun _ => Raise AttributeError)
                      d (Some tid)) ;;;
    ret (d, None).

(** [_handle_response(reply)]; the result lists the calls
    [handler.callback(reply)] it made. *)
Context {Reply : Type}.
Variable reply_transaction_id : Reply -> Z.

Definition _handle_response (reply : option Reply)
  : M ModbusClientProtocol (list (H * Reply)) :=
  match reply with
  | None => ret []
  | Some r =>
      let tid := reply_transaction_id r in
      do! handler := on_transaction (DictTransactionManager.get_transaction tid) in
      match handler with
      | Some d => ret [(d, r)]
      | None => ret []
      end
  end.

End Client.
Arguments ModbusClientProtocol H : clear implicits.

End ClientAsync.

(** ** server/async.py: the asynchronous server *)

Module ServerAsync.
Import Transaction.
Local Open Scope m_scope.

Section Server.

(** The slave contexts held by [self.factory.store]. *)
Context {Ctx : Type}.

(** A decoded request as [_execute] uses it. *)
Record Request : Type := {
  req_pdu : ModbusPDU;
  req_function_code : Z;
  execute : Ctx -> result Message;
}.

(** [self.factory.store[unit_id]] and [self.framer.build_packet]. *)
Variable store_getitem : value -> result Ctx.
Variable build_packet : Message -> result bytes.

(** The counter [control.Counter.BusMessage] and what was handed to
    [transport.write]. *)
Record ModbusTcpProtocol : Type := {
  BusMessage : Z;
  written : list bytes;
}.

Definition send (message : Message) : M ModbusTcpProtocol unit :=
  if should_respond message then
    modify (fun s => {| BusMessage := BusMessage s + 1; written := written s |}) ;;;
    do! pdu := lift (build_packet message) in
    modify (fun s => {| BusMessage := BusMessage s; written := written s ++ [pdu] |})
  else ret tt.

Definition _execute (request : Request) : M ModbusTcpProtocol unit :=
  let attempt :=
    let! context := store_getitem (unit_id (req_pdu request)) in
    execute request context in
  let response :=
    match attempt with
    | Ok response => response
    | Raise ex =>
        ExceptionResponse_message
          (do_exception (req_function_code request) ModbusExceptions.SlaveFailure)
    end in
  let response :=
    with_pdu (set_transaction_id (transaction_id (req_pdu request)) (pdu response)) response in
  let response :=
    with_pdu (set_unit_id (unit_id (req_pdu request)) (pdu response)) response in
  send response.

End Server.

End ServerAsync.

(** ** Concrete inputs: the scenarios of the specification and of the test suite *)

Import BitReadMessage Transaction ClientAsync ServerAsync.

(** Scenario S1: a ReadCoils request and its MBAP packet. *)
Definition s1_request : ReadBitsRequestBase :=
  {| rq_pdu := {| transaction_id := 0x1234; protocol_id := 0; unit_id := Int 0xFF |};
     address := 1; count := 1 |}.

Definition s1_packet : bytes := [0x12; 0x34; 0; 0; 0; 6; 0xFF; 1; 0; 1; 0; 1].

(** The 17 bytes of [:F7031389000A60\r\n]. *)
Definition s2_frame : bytes :=
  [58; 70; 55; 48; 51; 49; 51; 56; 57; 48; 48; 48; 65; 54; 48; 13; 10].

Definition s2_fed : ModbusAsciiFramer.t :=
  snd (ModbusAsciiFramer.add_to_frame s2_frame ModbusAsciiFramer.init).

Definition s2_checked : ModbusAsciiFramer.t :=
  snd (ModbusAsciiFramer.check_frame s2_fed).

(** The exception response of a ReadCoils request (function 0x81). *)
Definition read_coils_exception (code : Z) : response :=
  Exception {| er_pdu := default_pdu; original_code := 1;
               er_function_code := 0x81; exception_code := code |}.

(** A datastore that refuses every address. *)
Definition refusing_context : Context :=
  {| validate := fun _ _ _ => Ok false; get_values := fun _ _ _ => Ok [] |}.

(** A connected client with two pending deferreds (here 10 and 20)
    registered under the identifiers 1 and 2. *)
Definition two_pending : ModbusClientProtocol nat :=
  snd ((mbind connection_made (fun _ =>
        mbind (_build_response 10%nat 1) (fun _ => _build_response 20%nat 2))) init).

(** Proof steps for the methods written in [M]. *)
Ltac run_m :=
  unfold mbind, get, modify, lift, ret, raise, try_except in *.

Ltac break_hyp H :=
  repeat (match type of H with
          | context [if ?b then _ else _] => destruct b eqn:?
          | context [match ?x with _ => _ end] => destruct x eqn:?
          end; cbn beta iota in H; try discriminate H).

(** A request whose payload holds the end delimiter, and one whose
    payload holds the start delimiter. *)
Definition request_with_end_delimiter : ReadBitsRequestBase :=
  {| rq_pdu := {| transaction_id := 0; protocol_id := 0; unit_id := Int 1 |};
     address := 0x7D00; count := 1 |}.

Definition request_with_start_delimiter : ReadBitsRequestBase :=
  {| rq_pdu := {| transaction_id := 0; protocol_id := 0; unit_id := Int 1 |};
     address := 0x7B00; count := 1 |}.

Definition binary_feed (packet : bytes) : ModbusBinaryFramer.t :=
  snd (ModbusBinaryFramer.add_to_frame packet ModbusBinaryFramer.init).

(** Scenario S4: uid 1, function 3, payload 00 00 00 05. *)
Definition s4_message : Message :=
  {| pdu := {| transaction_id := 0; protocol_id := 0; unit_id := Int 1 |};
     function_code := 3; should_respond := true; encode := Ok [0; 0; 0; 5] |}.

Definition s4_frame : bytes := [0x7B; 0x01; 0x03; 0; 0; 0; 0x05; 0x85; 0xC9; 0x7D].

(** A request whose [execute] raises. *)
Definition failing_request : Request (Ctx := unit) :=
  {| req_pdu := {| transaction_id := 0x1234; protocol_id := 0; unit_id := Int 0xFF |};
     req_function_code := 1;
     execute := fun _ => Raise OtherError |}.


(** A request whose [execute] returns the response of scenario S4. *)
Definition answering_request : Request (Ctx := unit) :=
  {| req_pdu := {| transaction_id := 0x1234; protocol_id := 0; unit_id := Int 0xFF |};
     req_function_code := 3;
     execute := fun _ => Ok s4_message |}.

(** * Properties *)


(** ** The integrity codes against the vectors of the test suite *)

Example compute_crc_rtu_packet : compute_crc [0xFF; 0x01] = 0x8180.
Proof. reflexivity. Qed.

Example compute_crc_rtu_frame : compute_crc [0; 1; 0; 0; 0; 1] = 0xFC1B.
Proof. reflexivity. Qed.

Example compute_crc_binary_frame : compute_crc [1; 3; 0; 0; 0; 5] = 0x85C9.
Proof. reflexivity. Qed.

Example check_crc_test_data :
  check_crc [0x12; 0x34; 0x23; 0x45; 0x34; 0x56; 0x45; 0x67] 0xe2db = true.
Proof. reflexivity. Qed.

Example check_lrc_test_data :
  check_lrc [0x12; 0x34; 0x23; 0x45; 0x34; 0x56; 0x45; 0x67] 0x1c = true.
Proof. reflexivity. Qed.

(** ** Scenario S1: the MBAP framer *)

(** C1.  For a ReadCoilsRequest with transaction id 0x1234, protocol id 0,
    unit id 0xFF, address 1 and count 1, [build_packet] of the socket
    framer yields the bytes 12 34 00 00 00 06 FF 01 00 01 00 01; a fresh
    framer fed with them has a frame ready, [check_frame] returns true,
    [get_frame] returns 01 00 01 00 01, and once that frame is advanced
    over no further frame is ready. *)
Theorem socket_framer_read_coils_scenario :
  ModbusSocketFramer.build_packet (ReadCoilsRequest.message s1_request) = Ok s1_packet /\
  let fed := snd (ModbusSocketFramer.add_to_frame s1_packet ModbusSocketFramer.init) in
  ModbusSocketFramer.is_frame_ready fed = true /\
  fst (ModbusSocketFramer.check_frame fed) = Ok true /\
  let checked := snd (ModbusSocketFramer.check_frame fed) in
  ModbusSocketFramer.get_frame checked = [0x01; 0x00; 0x01; 0x00; 0x01] /\
  let advanced := snd (ModbusSocketFramer.advance_frame checked) in
  ModbusSocketFramer.buffer advanced = [] /\
  ModbusSocketFramer.is_frame_ready advanced = false.
Proof. vm_compute. repeat split. Qed.

(** ** Scenario S2: the ASCII framer *)

(** C4, as stated, fails: after the frame [:F7031389000A60\r\n]
    [check_frame] does return true, but [get_frame] does not return the
    six bytes F7 03 13 89 00 0A. *)
Lemma ascii_get_frame_not_six_bytes :
  fst (ModbusAsciiFramer.check_frame s2_fed) = Ok true /\
  fst (ModbusAsciiFramer.get_frame s2_checked) <> Ok [0xF7; 0x03; 0x13; 0x89; 0x00; 0x0A].
Proof. split; [reflexivity | vm_compute; discriminate]. Qed.

(** C4, amended.  After the 17 bytes of [:F7031389000A60\r\n] are fed to
    a fresh ASCII framer, [check_frame] returns true, the header holds
    uid 0xF7, length 15 and LRC 0x60, and [get_frame] returns the five
    bytes 03 13 89 00 0A: the function code and the payload, without the
    unit id, leaving the framer as [check_frame] left it. *)
Theorem ascii_framer_scenario :
  Py.len s2_frame = 17 /\
  fst (ModbusAsciiFramer.check_frame s2_fed) = Ok true /\
  ModbusAsciiFramer.header s2_checked =
    {| ModbusAsciiFramer.h_lrc := Int 0x60;
       ModbusAsciiFramer.h_len := 15;
       ModbusAsciiFramer.h_uid := 0xF7 |} /\
  ModbusAsciiFramer.get_frame s2_checked = (Ok [0x03; 0x13; 0x89; 0x00; 0x0A], s2_checked).
Proof. vm_compute. repeat split. Qed.

(** ** The keyed transaction manager *)

(** C8.  In the keyed manager, [add_transaction(h, tid)] followed by
    [get_transaction(tid)] returns [h]; a second [get_transaction(tid)]
    returns [None]; and [del_transaction(tid)] for a [tid] that is not in
    the table leaves the manager as it was. *)
Theorem dict_manager_add_get_del {H : Type} (request_tid : H -> result Z)
    (m : DictTransactionManager.t H) (tid : Z) (h : H) :
  let added := snd (DictTransactionManager.add_transaction request_tid h (Some tid) m) in
  let popped := snd (DictTransactionManager.get_transaction tid added) in
  fst (DictTransactionManager.add_transaction request_tid h (Some tid) m) = Ok tt /\
  fst (DictTransactionManager.get_transaction tid added) = Ok (Some h) /\
  fst (DictTransactionManager.get_transaction tid popped) = Ok None /\
  (DictTransactionManager.transactions m !! tid = None ->
   DictTransactionManager.del_transaction tid m = (Ok tt, m)).
Proof.
  cbn. repeat split.
  - by rewrite lookup_insert_eq.
  - by rewrite lookup_delete_eq.
  - intros Habsent. unfold DictTransactionManager.del_transaction.
    rewrite delete_id by exact Habsent. by destruct m.
Qed.

Lemma dict_manager_add_get_del_witness :
  let m : DictTransactionManager.t nat := DictTransactionManager.init in
  DictTransactionManager.transactions m !! 7 = None /\
  DictTransactionManager.del_transaction 7 m = (Ok tt, m).
Proof.
  split; [reflexivity |].
  apply (dict_manager_add_get_del (fun _ => Raise AttributeError)
           DictTransactionManager.init 7 5%nat).
  reflexivity.
Defined.

(** ** The RTU framer on short headers *)

(** C9.  Whenever the header length of the RTU framer is at most 2 (the
    end offset [len - 2] is not positive), as it is initially with
    [len = 0], [get_frame] returns the empty frame without raising and
    leaves buffer and header as they were. *)
Theorem rtu_get_frame_nonpositive_end (f : ModbusRtuFramer.t) :
  ModbusRtuFramer.h_len (ModbusRtuFramer.header f) <= 2 ->
  ModbusRtuFramer.get_frame f = (Ok [], f).
Proof.
  intros Hlen. unfold ModbusRtuFramer.get_frame, mbind, get, ret.
  destruct (ModbusRtuFramer.h_len (ModbusRtuFramer.header f) - 2 >? 0) eqn:Hend.
  - apply Z.gtb_lt in Hend. lia.
  - reflexivity.
Qed.

Lemma rtu_get_frame_nonpositive_end_witness :
  let f := snd (ModbusRtuFramer.add_to_frame [0; 1; 0] ModbusRtuFramer.init) in
  ModbusRtuFramer.h_len (ModbusRtuFramer.header f) <= 2 /\
  ModbusRtuFramer.get_frame f = (Ok [], f).
Proof.
  split; [vm_compute; discriminate |].
  apply rtu_get_frame_nonpositive_end. vm_compute. discriminate.
Defined.

(** ** ReadCoilsRequest.execute: the order of the range checks *)

(** C2.  For every ReadCoilsRequest and every datastore: when [count] is
    outside [1, 0x7D0], [execute] returns the exception response 0x81
    with code IllegalValue (3) and makes no datastore call at all; when
    [count] is in range, the first datastore call is [validate] with the
    function code 1 and the request's address and count, and if that
    call returns false the result is the exception response 0x81 with
    code IllegalAddress (2). *)
Theorem read_coils_execute_range_policy (r : ReadBitsRequestBase) (context : Context) :
  (~ (1 <= count r <= 0x7D0) ->
     ReadCoilsRequest.execute r context = (Ok (read_coils_exception 3), [])) /\
  (1 <= count r <= 0x7D0 ->
     (exists rest,
        snd (ReadCoilsRequest.execute r context) =
          Validate 1 (address r) (count r) :: rest) /\
     (validate context 1 (address r) (count r) = Ok false ->
        ReadCoilsRequest.execute r context =
          (Ok (read_coils_exception 2), [Validate 1 (address r) (count r)]))).
Proof.
  unfold ReadCoilsRequest.execute, ReadCoilsRequest.function_code.
  split.
  - intros Hout.
    destruct ((1 <=? count r) && (count r <=? 0x7d0)) eqn:Hrange; [| reflexivity].
    apply andb_true_iff in Hrange as [H1 H2].
    apply Z.leb_le in H1, H2. lia.
  - intros [H1 H2].
    apply Z.leb_le in H1, H2. rewrite H1, H2. cbn [andb negb].
    split.
    + destruct (validate context 1 (address r) (count r)) as [[|]|e].
      * destruct (get_values context 1 (address r) (count r)); cbn; eauto.
      * cbn; eauto.
      * cbn; eauto.
    + intros Hfalse. rewrite Hfalse. reflexivity.
Qed.

Lemma read_coils_execute_range_policy_witness :
  let too_many := {| rq_pdu := default_pdu; address := 1; count := 0x801 |} in
  let in_range := {| rq_pdu := default_pdu; address := 1; count := 5 |} in
  ReadCoilsRequest.execute too_many refusing_context = (Ok (read_coils_exception 3), []) /\
  ReadCoilsRequest.execute in_range refusing_context =
    (Ok (read_coils_exception 2), [Validate 1 1 5]).
Proof.
  split.
  - apply (read_coils_execute_range_policy
             {| rq_pdu := default_pdu; address := 1; count := 0x801 |} refusing_context).
    simpl. lia.
  - apply (read_coils_execute_range_policy
             {| rq_pdu := default_pdu; address := 1; count := 5 |} refusing_context).
    + simpl. lia.
    + reflexivity.
Defined.

(** ** The client decoder on exception function codes *)

(** C3, as stated, fails at the function code 0x80: its high bit is set,
    yet [_helper] does not build an exception response for it; the code
    is looked up like any other, is not registered, and the decoder
    raises its decode error. *)
Lemma client_decoder_0x80_decode_error :
  Z.testbit 0x80 7 = true /\
  Factory._helper (fun _ => tt) (fun _ b _ => Ok b) (fun _ b => b) [0x80; 0x02]
    = Raise ModbusException.
Proof. split; reflexivity. Qed.

(** C3, amended.  For every response packet whose first byte is in
    [0x81, 0xFF] and which carries at least one payload byte, whatever
    the registered classes are, the client decoder returns an
    ExceptionResponse built for the first byte with its high bit stripped
    ([original_code = code & 0x7F]; its own function code is the first
    byte again), whose exception code is the first payload byte; it does
    not raise. *)
Theorem client_decoder_exception_response {B : Type}
    (construct : Z -> B) (decode_body : Z -> B -> bytes -> result B) (rewrap : Z -> B -> B)
    (function_code code : Z) (rest : bytes) :
  0x80 < function_code <= 0xFF ->
  Factory._helper construct decode_body rewrap (function_code :: code :: rest) =
    Ok (Factory.Exceptional
          {| er_pdu := default_pdu;
             original_code := Z.land function_code 0x7F;
             er_function_code := function_code;
             exception_code := code |}).
Proof.
  intros [Hlo Hhi].
  unfold Factory._helper.
  assert (Hget : getitem (function_code :: code :: rest) 0 = Ok function_code).
  { unfold getitem, Py.len. cbn [length Z.ltb Z.compare].
    replace (0 <? 0) with false by reflexivity.
    replace (Z.of_nat (S (S (length rest))) <=? 0) with false
      by (symmetry; apply Z.leb_gt; lia).
    reflexivity. }
  rewrite Hget. cbn [bind].
  replace (function_code >? 0x80) with true by (symmetry; apply Z.gtb_lt; lia).
  assert (Htail : slice_from (function_code :: code :: rest) 1 = code :: rest).
  { unfold slice_from, clamp, Py.len. cbn [length].
    replace (1 <? 0) with false by reflexivity.
    rewrite Z.min_l by lia. reflexivity. }
  rewrite Htail.
  assert (Hcode : getitem (code :: rest) 0 = Ok code).
  { unfold getitem, Py.len. cbn [length].
    replace (0 <? 0) with false by reflexivity.
    replace (Z.of_nat (S (length rest)) <=? 0) with false
      by (symmetry; apply Z.leb_gt; lia).
    reflexivity. }
  unfold Factory.response_decode, ExceptionResponse_decode.
  rewrite Hcode. cbn [bind Factory.subtype].
  unfold new_ExceptionResponse, ExceptionOffset. cbn [er_pdu original_code er_function_code].
  do 3 f_equal.
  (* (fc & 0x7F) | 0x80 = fc on [0x81, 0xFF] *)
  change 0x7f with (Z.ones 7). rewrite Z.land_ones by lia.
  assert (Hdm := Z.div_mod function_code (2 ^ 7) ltac:(lia)).
  assert (Hq : function_code / 2 ^ 7 = 1).
  { symmetry. apply Z.div_unique with (r := function_code - 128); lia. }
  rewrite Hq in Hdm.
  assert (Hr : 0 <= function_code mod 2 ^ 7 < 2 ^ 7) by (apply Z.mod_pos_bound; lia).
  rewrite Z.lor_comm.
  change 128 with (Z.shiftl 1 7) at 1.
  rewrite <- Z.add_nocarry_lor; [change (Z.shiftl 1 7) with 128; lia |].
  apply Z.bits_inj'. intros n Hn. rewrite Z.land_spec, Z.bits_0.
  destruct (Z.ltb_spec n 7).
  - rewrite Z.shiftl_spec_low by lia. reflexivity.
  - rewrite (Z.mod_pow2_bits_high function_code 7 n) by lia. apply andb_false_r.
Qed.

Lemma client_decoder_exception_response_witness :
  0x80 < 0x81 <= 0xFF /\
  Factory._helper (fun _ => tt) (fun _ b _ => Ok b) (fun _ b => b) [0x81; 0x03] =
    Ok (Factory.Exceptional
          {| er_pdu := default_pdu; original_code := 1;
             er_function_code := 0x81; exception_code := 3 |}).
Proof.
  split; [lia |].
  apply (client_decoder_exception_response
           (fun _ => tt) (fun _ b _ => Ok b) (fun _ b => b) 0x81 0x03 []).
  lia.
Defined.

(** ** Connection loss in the asynchronous client *)

(** The FIFO manager hands [iter()] a real iterator, so [list(manager)]
    enumerates its handles. *)
Lemma fifo_manager_is_iterable {H : Type} (m : FifoTransactionManager.t H) :
  list_of_dunder_iter (FifoTransactionManager.__iter__ m)
    = Ok (FifoTransactionManager.transactions m).
Proof. reflexivity. Qed.

(** The keyed manager returns the keys view of its table, which is not
    an iterator: [list(manager)] raises [TypeError] whatever the table
    holds. *)
Lemma dict_manager_is_not_iterable {H : Type} (m : DictTransactionManager.t H) :
  list_of_dunder_iter (DictTransactionManager.__iter__ m) = Raise TypeError.
Proof. reflexivity. Qed.

(** C6 (the code departs from the claim).  For every state of the
    asynchronous client over the keyed table, [connection_lost] clears
    [_connected] and then raises [TypeError] while enumerating the
    manager: no [errback] is called and the table keeps every pending
    handle. *)
Theorem connection_lost_keyed_raises {H : Type} (c : ModbusClientProtocol H) :
  connection_lost c = (Raise TypeError, set_connected false c) /\
  errbacks (snd (connection_lost c)) = errbacks c /\
  transaction (snd (connection_lost c)) = transaction c.
Proof. repeat split. Qed.

Lemma connection_lost_two_pending :
  DictTransactionManager.transactions (transaction two_pending)
    = <[2 := 20%nat]> (<[1 := 10%nat]> ∅) /\
  fst (connection_lost two_pending) = Raise TypeError /\
  errbacks (snd (connection_lost two_pending)) = [] /\
  DictTransactionManager.transactions (transaction (snd (connection_lost two_pending))) !! 1
    = Some 10%nat /\
  DictTransactionManager.transactions (transaction (snd (connection_lost two_pending))) !! 2
    = Some 20%nat.
Proof. repeat split. Qed.

(** ** Identifiers of the responses of the asynchronous server *)

(** C7.  For every request, store, framer and server state, [_execute]
    sends one response whose transaction id and unit id are those of the
    request.  On the normal path the rest of it is what [execute]
    returned (a response or an in-band exception response); when the
    store lookup or [execute] raises, it is the exception response for
    the request's function code with code SlaveFailure (4). *)
Theorem server_execute_keeps_ids {Ctx : Type}
    (store_getitem : value -> result Ctx) (build_packet : Message -> result bytes)
    (request : Request (Ctx := Ctx)) (s : ModbusTcpProtocol) :
  exists response : Message,
    _execute store_getitem build_packet request s = send build_packet response s /\
    transaction_id (pdu response) = transaction_id (req_pdu request) /\
    unit_id (pdu response) = unit_id (req_pdu request) /\
    match (let! context := store_getitem (unit_id (req_pdu request)) in
           execute request context) with
    | Ok returned =>
        function_code response = function_code returned /\
        encode response = encode returned /\
        should_respond response = should_respond returned /\
        protocol_id (pdu response) = protocol_id (pdu returned)
    | Raise _ =>
        function_code response = Z.lor (req_function_code request) 0x80 /\
        encode response = Ok [4] /\
        should_respond response = true
    end.
Proof.
  unfold _execute.
  destruct (let! context := store_getitem (unit_id (req_pdu request)) in
            execute request context) as [returned | ex];
    eexists; (split; [reflexivity |]); cbn; repeat split.
Qed.

(** On the MBAP wire the two identifiers are the first two bytes and the
    seventh byte of the packet. *)
Lemma pack_H_unpack_H (v : Z) (b : bytes) :
  pack_H v = Ok b -> unpack_H b = Ok v.
Proof.
  unfold pack_H. destruct ((0 <=? v) && (v <=? 0xFFFF)) eqn:Hrange; [| discriminate].
  intros [= <-]. cbn [unpack_H]. f_equal.
  rewrite Z.shiftl_mul_pow2, Z.shiftr_div_pow2 by lia.
  change 0xFF with (Z.ones 8). rewrite Z.land_ones by lia.
  pose proof (Z.div_mod v (2 ^ 8) ltac:(lia)). lia.
Qed.

Lemma socket_build_packet_header (m : Message) (uid : Z) (p : bytes) :
  unit_id (pdu m) = Int uid ->
  ModbusSocketFramer.build_packet m = Ok p ->
  exists length,
    unpack_HHHB (slice p 0 7) =
      Ok (transaction_id (pdu m), protocol_id (pdu m), length, uid).
Proof.
  intros Huid. unfold ModbusSocketFramer.build_packet. rewrite Huid.
  destruct (encode m) as [data |]; [cbn [bind] | discriminate].
  destruct (pack_H (transaction_id (pdu m))) as [t |] eqn:Ht; [cbn [bind] | discriminate].
  destruct (pack_H (protocol_id (pdu m))) as [q |] eqn:Hq; [cbn [bind] | discriminate].
  destruct (pack_H (Py.len data + 2)) as [l |] eqn:Hl; [cbn [bind] | discriminate].
  destruct (pack_B_value (Int uid)) as [u |] eqn:Hu; [cbn [bind] | discriminate].
  destruct (pack_B (function_code m)) as [c |] eqn:Hc; [cbn [bind] | discriminate].
  intros [= <-]. exists (Py.len data + 2).
  pose proof (pack_H_unpack_H _ _ Ht) as Ht'.
  pose proof (pack_H_unpack_H _ _ Hq) as Hq'.
  pose proof (pack_H_unpack_H _ _ Hl) as Hl'.
  unfold pack_H in Ht, Hq, Hl. unfold pack_B_value, pack_B in Hu, Hc.
  repeat match goal with
         | H : (if ?b then _ else _) = Ok _ |- _ => destruct b; [| discriminate]
         end.
  injection Ht as <-. injection Hq as <-. injection Hl as <-.
  injection Hu as <-. injection Hc as <-.
  cbn [unpack_H] in Ht', Hq', Hl'.
  injection Ht' as Ht'. injection Hq' as Hq'. injection Hl' as Hl'.
  unfold slice, clamp, Py.len. cbn [app length].
  replace (0 <? 0) with false by reflexivity.
  replace (7 <? 0) with false by reflexivity.
  rewrite Z.min_l by lia. rewrite Z.min_l by lia.
  change (Z.to_nat (7 - 0)) with 7%nat. change (Z.to_nat 0) with 0%nat.
  cbn [firstn skipn unpack_HHHB].
  unfold Py.len in Hl'. rewrite Ht', Hq', Hl'. reflexivity.
Qed.

(** ** What the framers store as the unit id *)

Lemma unpack_B_slice_getitem (b : bytes) (x : Z) :
  unpack_B (slice b 1 2) = Ok x -> getitem b 1 = Ok x.
Proof.
  destruct b as [| a [| y rest]]; [discriminate | discriminate |].
  unfold slice, getitem, clamp, Py.len. cbn [length].
  replace (1 <? 0) with false by reflexivity.
  replace (2 <? 0) with false by reflexivity.
  rewrite !Z.min_l by lia.
  replace (Z.of_nat (S (S (length rest))) <=? 1) with false
    by (symmetry; apply Z.leb_gt; lia).
  intros H. exact H.
Qed.

Lemma binary_check_frame_uid (f f' : ModbusBinaryFramer.t) :
  ModbusBinaryFramer.check_frame f = (Ok true, f') ->
  exists uid,
    getitem (ModbusBinaryFramer.buffer f') 1 = Ok uid /\
    ModbusBinaryFramer.h_uid (ModbusBinaryFramer.header f') = Tuple [uid].
Proof.
  unfold ModbusBinaryFramer.check_frame. run_m.
  intros Hcheck. break_hyp Hcheck.
  all: injection Hcheck as _ <-.
  all: unfold ModbusBinaryFramer.unpack_B_tuple in *.
  all: match goal with
       | H : (let! x := unpack_B ?s in _) = Ok _ |- _ =>
           destruct (unpack_B s) as [x |] eqn:Hx; [| discriminate H];
           cbn [bind] in H; injection H as <-; exists x
       end.
  all: split; [apply unpack_B_slice_getitem; exact Hx | reflexivity].
Qed.

Lemma ascii_check_frame_uid (f f' : ModbusAsciiFramer.t) :
  ModbusAsciiFramer.check_frame f = (Ok true, f') ->
  exists uid,
    int16 (slice (ModbusAsciiFramer.buffer f') 1 3) = Ok uid /\
    ModbusAsciiFramer.h_uid (ModbusAsciiFramer.header f') = uid.
Proof.
  unfold ModbusAsciiFramer.check_frame. run_m.
  intros Hcheck. break_hyp Hcheck.
  all: injection Hcheck as _ <-.
  all: eexists; split; [eassumption | reflexivity].
Qed.

Lemma rtu_check_frame_uid (size : Z -> bytes -> result Z) (f f' : ModbusRtuFramer.t) :
  ModbusRtuFramer.check_frame size f = (Ok true, f') ->
  exists uid,
    getitem (ModbusRtuFramer.buffer f') 0 = Ok uid /\
    ModbusRtuFramer.h_uid (ModbusRtuFramer.header f') = uid.
Proof.
  unfold ModbusRtuFramer.check_frame, ModbusRtuFramer.populate_header. run_m.
  intros Hcheck. break_hyp Hcheck.
  all: try (injection Hcheck as Hb _; discriminate Hb).
  injection Hcheck as -> ->.
  match goal with H : _ = (Ok true, f') |- _ => rename H into Hbody end.
  break_hyp Hbody.
  injection Hbody as _ <-.
  match goal with H : _ = (Ok _, _) |- _ => rename H into Hheader end.
  break_hyp Hheader.
  injection Hheader as _ <-.
  eexists; split; [cbn; eassumption | reflexivity].
Qed.

(** C10.  Whenever the binary framer's [check_frame] accepts a frame,
    [populate_result] sets the result's unit id to the one-element tuple
    holding the uid byte (the byte at index 1 of the buffer), not to that
    integer; the RTU and ASCII framers store the integer itself after
    their [check_frame] accepts. *)
Theorem binary_populate_result_unit_id_tuple
    (f f' : ModbusBinaryFramer.t) (result : ModbusPDU) :
  ModbusBinaryFramer.check_frame f = (Ok true, f') ->
  (exists uid,
     getitem (ModbusBinaryFramer.buffer f') 1 = Ok uid /\
     unit_id (ModbusBinaryFramer.populate_result f' result) = Tuple [uid] /\
     unit_id (ModbusBinaryFramer.populate_result f' result) <> Int uid) /\
  (forall size g g',
     ModbusRtuFramer.check_frame size g = (Ok true, g') ->
     exists uid,
       getitem (ModbusRtuFramer.buffer g') 0 = Ok uid /\
       unit_id (ModbusRtuFramer.populate_result g' result) = Int uid) /\
  (forall g g',
     ModbusAsciiFramer.check_frame g = (Ok true, g') ->
     exists uid,
       int16 (slice (ModbusAsciiFramer.buffer g') 1 3) = Ok uid /\
       unit_id (ModbusAsciiFramer.populate_result g' result) = Int uid).
Proof.
  intros Hcheck. split; [| split].
  - destruct (binary_check_frame_uid f f' Hcheck) as (uid & Hbyte & Huid).
    exists uid. unfold ModbusBinaryFramer.populate_result. cbn [unit_id set_unit_id].
    rewrite Huid. repeat split; [exact Hbyte | discriminate].
  - intros size g g' Hg.
    destruct (rtu_check_frame_uid size g g' Hg) as (uid & Hbyte & Huid).
    exists uid. unfold ModbusRtuFramer.populate_result. cbn [unit_id set_unit_id].
    rewrite Huid. split; [exact Hbyte | reflexivity].
  - intros g g' Hg.
    destruct (ascii_check_frame_uid g g' Hg) as (uid & Hbyte & Huid).
    exists uid. unfold ModbusAsciiFramer.populate_result. cbn [unit_id set_unit_id].
    rewrite Huid. split; [exact Hbyte | reflexivity].
Qed.

(** ** The binary framer: what build_packet emits and what ingest accepts *)

Lemma compute_crc_range (data : bytes) : 0 <= compute_crc data <= 0xFFFF.
Proof.
  unfold compute_crc.
  set (crc := fold_left crc_byte data 0xFFFF).
  set (hi := Z.land (Z.shiftl crc 8) 0xFF00).
  set (lo := Z.land (Z.shiftr crc 8) 0x00FF).
  assert (Hhi : Z.land hi (Z.ones 16) = hi).
  { unfold hi. rewrite <- Z.land_assoc. reflexivity. }
  assert (Hlo : Z.land lo (Z.ones 16) = lo).
  { unfold lo. rewrite <- Z.land_assoc. reflexivity. }
  assert (Hboth : Z.land (Z.lor hi lo) (Z.ones 16) = Z.lor hi lo).
  { rewrite Z.land_lor_distr_l, Hhi, Hlo. reflexivity. }
  rewrite Z.land_ones in Hboth by lia.
  pose proof (Z.mod_pos_bound (Z.lor hi lo) (2 ^ 16) ltac:(lia)). lia.
Qed.

Lemma len_app (a b : bytes) : Py.len (a ++ b) = Py.len a + Py.len b.
Proof. unfold Py.len. rewrite length_app. lia. Qed.

Lemma len_nonneg (a : bytes) : 0 <= Py.len a.
Proof. unfold Py.len. lia. Qed.

Lemma slice_middle (a b c : bytes) (i j : Z) :
  i = Py.len a -> j = Py.len a + Py.len b -> slice (a ++ b ++ c) i j = b.
Proof.
  intros -> ->. unfold slice, clamp.
  pose proof (len_nonneg a). pose proof (len_nonneg b). pose proof (len_nonneg c).
  rewrite !len_app.
  replace (Py.len a <? 0) with false by (symmetry; apply Z.ltb_ge; lia).
  replace (Py.len a + Py.len b <? 0) with false by (symmetry; apply Z.ltb_ge; lia).
  rewrite !Z.min_l by lia.
  replace (Py.len a + Py.len b - Py.len a) with (Py.len b) by lia.
  unfold Py.len. rewrite !Nat2Z.id.
  rewrite drop_app_length. apply take_app_length.
Qed.

Lemma find_from_single (d : Z) (pre post : bytes) (i : Z) :
  Forall (fun x => x <> d) pre ->
  find_from [d] (pre ++ d :: post) i = i + Py.len pre.
Proof.
  intros Hpre. revert i. induction Hpre as [| x pre Hx Hpre IH]; intros i.
  - cbn [app find_from startswith]. rewrite Z.eqb_refl. cbn. unfold Py.len. cbn. lia.
  - cbn [app find_from startswith].
    replace (d =? x) with false by (symmetry; apply Z.eqb_neq; congruence).
    cbn [andb]. rewrite IH. unfold Py.len. cbn [length]. lia.
Qed.

Lemma preflight_plain (data : bytes) :
  Forall (fun d => d <> 0x7B /\ d <> 0x7D) data ->
  ModbusBinaryFramer._preflight data = data.
Proof.
  induction 1 as [| d data [Hb Hd] _ IH]; [reflexivity |].
  cbn [ModbusBinaryFramer._preflight]. unfold contains, ModbusBinaryFramer._repeat.
  cbn [existsb].
  replace (d =? 0x7d) with false by (symmetry; apply Z.eqb_neq; exact Hd).
  replace (d =? 0x7b) with false by (symmetry; apply Z.eqb_neq; exact Hb).
  cbn [orb]. rewrite IH. reflexivity.
Qed.

Lemma slice_of (buffer a b c : bytes) (i j : Z) :
  buffer = a ++ b ++ c -> i = Py.len a -> j = Py.len a + Py.len b ->
  slice buffer i j = b.
Proof. intros ->. apply slice_middle. Qed.

Lemma binary_ingest (uid fc : Z) (data : bytes) :
  Forall (fun x => x <> 0x7D) (uid :: fc :: data) ->
  let crc := compute_crc (uid :: fc :: data) in
  Z.shiftr crc 8 <> 0x7D -> Z.land crc 0xFF <> 0x7D ->
  let fed := snd (ModbusBinaryFramer.add_to_frame
                    (0x7B :: uid :: fc :: data ++ [Z.shiftr crc 8; Z.land crc 0xFF; 0x7D])
                    ModbusBinaryFramer.init) in
  exists checked,
    ModbusBinaryFramer.check_frame fed = (Ok true, checked) /\
    ModbusBinaryFramer.get_frame checked = (Ok data, checked).
Proof.
  intros Hbody crc Hk1 Hk0 fed.
  set (k1 := Z.shiftr crc 8) in *. set (k0 := Z.land crc 0xFF) in *.
  set (buf := 0x7B :: uid :: fc :: data ++ [k1; k0; 0x7D]).
  assert (Hfed : fed = {| ModbusBinaryFramer.buffer := buf;
                          ModbusBinaryFramer.header := ModbusBinaryFramer.empty_header |})
    by reflexivity.
  pose proof (len_nonneg data) as Hlen.
  assert (Hstart : find buf ModbusBinaryFramer._start = 0).
  { unfold buf, find, ModbusBinaryFramer._start.
    cbn [find_from startswith]. rewrite Z.eqb_refl. reflexivity. }
  assert (Hend : find buf ModbusBinaryFramer._end = Py.len data + 5).
  { unfold find, ModbusBinaryFramer._end.
    replace buf with ((0x7B :: uid :: fc :: data ++ [k1; k0]) ++ 0x7d :: [])
      by (unfold buf; cbn [app]; rewrite <- app_assoc; reflexivity).
    rewrite find_from_single.
    - unfold Py.len. cbn [length]. rewrite length_app. cbn [length]. lia.
    - constructor; [discriminate |].
      inversion Hbody as [| ? ? Hu Hrest]; subst.
      inversion Hrest as [| ? ? Hf Hdata]; subst.
      constructor; [exact Hu |]. constructor; [exact Hf |].
      apply Forall_app. split; [exact Hdata |].
      constructor; [exact Hk1 |]. constructor; [exact Hk0 | constructor]. }
  assert (Huid : slice buf 1 2 = [uid]).
  { apply (slice_of buf [0x7B] [uid] (fc :: data ++ [k1; k0; 0x7D])); reflexivity. }
  assert (Hcrc : slice buf (Py.len data + 5 - 2) (Py.len data + 5) = [k1; k0]).
  { apply (slice_of buf (0x7B :: uid :: fc :: data) [k1; k0] [0x7D]).
    - unfold buf. cbn [app]. reflexivity.
    - unfold Py.len. cbn [length]. lia.
    - unfold Py.len. cbn [length]. lia. }
  assert (Hdata : slice buf (0 + 1) (Py.len data + 5 - 2) = uid :: fc :: data).
  { apply (slice_of buf [0x7B] (uid :: fc :: data) [k1; k0; 0x7D]).
    - reflexivity.
    - reflexivity.
    - unfold Py.len. cbn [length]. lia. }
  assert (Hframe : slice buf (ModbusBinaryFramer.header_size + 1) (Py.len data + 5 - 2) = data).
  { apply (slice_of buf [0x7B; uid; fc] data [k1; k0; 0x7D]).
    - reflexivity.
    - reflexivity.
    - unfold Py.len. cbn [length]. lia. }
  assert (Hunpack : unpack_H [k1; k0] = Ok crc).
  { apply pack_H_unpack_H. unfold pack_H.
    pose proof (compute_crc_range (uid :: fc :: data)) as Hr. fold crc in Hr.
    replace ((0 <=? crc) && (crc <=? 0xFFFF)) with true; [reflexivity |].
    symmetry. apply andb_true_iff. split; apply Z.leb_le; lia. }
  eexists. split.
  - rewrite Hfed. unfold ModbusBinaryFramer.check_frame. run_m.
    cbn [ModbusBinaryFramer.buffer]. rewrite Hstart.
    replace (0 =? -1) with false by reflexivity.
    replace (0 >? 0) with false by reflexivity.
    cbn [ModbusBinaryFramer.buffer]. rewrite Hend.
    replace (Py.len data + 5 =? -1) with false by (symmetry; apply Z.eqb_neq; lia).
    cbn [negb]. unfold ModbusBinaryFramer.unpack_B_tuple.
    rewrite Huid. cbn [unpack_B bind]. rewrite Hcrc, Hunpack, Hdata.
    unfold check_crc. fold crc. rewrite Z.eqb_refl. reflexivity.
  - unfold ModbusBinaryFramer.get_frame. run_m.
    cbn [ModbusBinaryFramer.buffer ModbusBinaryFramer.header ModbusBinaryFramer.h_len
         ModbusBinaryFramer.set_crc ModbusBinaryFramer.set_uid ModbusBinaryFramer.set_len].
    rewrite Hframe.
    replace (Py.len data + 5 - 2 >? 0) with true by (symmetry; apply Z.gtb_lt; lia).
    reflexivity.
Qed.

(** C5 (the code departs from the claim).  [build_packet] doubles the
    delimiter bytes of the payload, but nothing on the ingest side halves
    them again.  The request ReadCoils(address 0x7D00, count 1) has the
    payload 7D 00 00 01; [build_packet] emits 7B 01 01 7D 7D 00 00 01 BF
    B7 7D, and a fresh framer fed with that packet rejects it:
    [check_frame] stops at the first 0x7D and returns false.  With the
    payload 7B 00 00 01 the packet is accepted, but [get_frame] returns
    the still doubled 7B 7B 00 00 01, which is neither the payload nor
    the function code followed by the payload. *)
Theorem binary_escaping_does_not_round_trip :
  encode (ReadCoilsRequest.message request_with_end_delimiter) = Ok [0x7D; 0; 0; 1] /\
  ModbusBinaryFramer.build_packet (ReadCoilsRequest.message request_with_end_delimiter)
    = Ok [0x7B; 1; 1; 0x7D; 0x7D; 0; 0; 1; 0xBF; 0xB7; 0x7D] /\
  fst (ModbusBinaryFramer.check_frame
         (binary_feed [0x7B; 1; 1; 0x7D; 0x7D; 0; 0; 1; 0xBF; 0xB7; 0x7D])) = Ok false /\
  encode (ReadCoilsRequest.message request_with_start_delimiter) = Ok [0x7B; 0; 0; 1] /\
  ModbusBinaryFramer.build_packet (ReadCoilsRequest.message request_with_start_delimiter)
    = Ok [0x7B; 1; 1; 0x7B; 0x7B; 0; 0; 1; 0x37; 0x3F; 0x7D] /\
  fst (ModbusBinaryFramer.check_frame
         (binary_feed [0x7B; 1; 1; 0x7B; 0x7B; 0; 0; 1; 0x37; 0x3F; 0x7D])) = Ok true /\
  fst (ModbusBinaryFramer.get_frame
         (snd (ModbusBinaryFramer.check_frame
                 (binary_feed [0x7B; 1; 1; 0x7B; 0x7B; 0; 0; 1; 0x37; 0x3F; 0x7D]))))
    = Ok [0x7B; 0x7B; 0; 0; 1].
Proof. vm_compute. repeat split. Qed.

Lemma binary_populate_result_unit_id_tuple_witness :
  ModbusBinaryFramer.check_frame (binary_feed s4_frame)
    = (Ok true, snd (ModbusBinaryFramer.check_frame (binary_feed s4_frame))) /\
  unit_id (ModbusBinaryFramer.populate_result
             (snd (ModbusBinaryFramer.check_frame (binary_feed s4_frame))) default_pdu)
    = Tuple [1].
Proof.
  split; [reflexivity |].
  destruct (binary_populate_result_unit_id_tuple
              (binary_feed s4_frame)
              (snd (ModbusBinaryFramer.check_frame (binary_feed s4_frame)))
              default_pdu eq_refl) as [(uid & Hbyte & Htuple & _) _].
  rewrite Htuple. vm_compute in Hbyte. injection Hbyte as <-. reflexivity.
Defined.

(** * Further properties of the modelled code *)

(** ** Transaction identifiers *)

Lemma get_next_tid_iter {H : Type} (m : DictTransactionManager.t H) (n : nat) :
  DictTransactionManager.tid
    (Nat.iter n (fun s => snd (DictTransactionManager.get_next_tid s)) m)
  = (if n is O then DictTransactionManager.tid m
     else (DictTransactionManager.tid m + Z.of_nat n) mod 0x10000) /\
  DictTransactionManager.transactions
    (Nat.iter n (fun s => snd (DictTransactionManager.get_next_tid s)) m)
  = DictTransactionManager.transactions m.
Proof.
  induction n as [| n [IHt IHm]]; [split; reflexivity |].
  rewrite Nat.iter_succ.
  set (s := Nat.iter n _ m) in *.
  unfold DictTransactionManager.get_next_tid.
  cbn [snd DictTransactionManager.tid DictTransactionManager.transactions].
  split; [| exact IHm].
  rewrite IHt. change 0xffff with (Z.ones 16). rewrite Z.land_ones by lia.
  change (2 ^ 16) with 0x10000.
  destruct n as [| n].
  - f_equal.
  - rewrite Zplus_mod_idemp_l. f_equal. lia.
Qed.

(** X1.  The identifiers handed out by [get_next_tid] are the successors of
    the current one modulo 0x10000: the [k]-th call returns
    [(tid + k) mod 0x10000], so after [reset] the calls return 1, 2, ...,
    0xFFFF, 0, 1, ...; any two calls fewer than 0x10000 apart return
    different identifiers, and the table is never touched. *)
Theorem get_next_tid_sequence {H : Type} (m : DictTransactionManager.t H) (i j : nat) :
  let nth k := DictTransactionManager.get_next_tid
                 (Nat.iter k (fun s => snd (DictTransactionManager.get_next_tid s)) m) in
  fst (nth i) = Ok ((DictTransactionManager.tid m + Z.of_nat i + 1) mod 0x10000) /\
  DictTransactionManager.transactions (snd (nth i)) = DictTransactionManager.transactions m /\
  (Z.of_nat i < Z.of_nat j < Z.of_nat i + 0x10000 -> fst (nth i) <> fst (nth j)).
Proof.
  intros nth.
  assert (Hnth : forall k,
             fst (nth k) = Ok ((DictTransactionManager.tid m + Z.of_nat k + 1) mod 0x10000)).
  { intros k. unfold nth. destruct (get_next_tid_iter m k) as [Ht _].
    set (s := Nat.iter k _ m) in *.
    unfold DictTransactionManager.get_next_tid. cbn [fst]. rewrite Ht.
    change 0xffff with (Z.ones 16). rewrite Z.land_ones by lia.
    change (2 ^ 16) with 0x10000. f_equal.
    destruct k as [| k]; [f_equal; lia |].
    rewrite Zplus_mod_idemp_l. f_equal. }
  split; [apply Hnth | split].
  - unfold nth. destruct (get_next_tid_iter m i) as [_ Hm].
    set (s := Nat.iter i _ m) in *.
    unfold DictTransactionManager.get_next_tid.
    cbn [snd DictTransactionManager.transactions]. exact Hm.
  - intros Hij. rewrite !Hnth. intros [= Heq].
    set (t := DictTransactionManager.tid m) in *.
    pose proof (Z.div_mod (t + Z.of_nat i + 1) 0x10000 ltac:(lia)) as Hi.
    pose proof (Z.div_mod (t + Z.of_nat j + 1) 0x10000 ltac:(lia)) as Hj.
    rewrite Heq in Hi.
    assert (Hdiff : Z.of_nat j - Z.of_nat i
                    = 0x10000 * ((t + Z.of_nat j + 1) / 0x10000
                                 - (t + Z.of_nat i + 1) / 0x10000)) by lia.
    set (q := (t + Z.of_nat j + 1) / 0x10000 - (t + Z.of_nat i + 1) / 0x10000) in *.
    assert (q <= 0 \/ 1 <= q) as [Hq | Hq] by lia; lia.
Qed.

Lemma get_next_tid_sequence_witness :
  let m : DictTransactionManager.t nat := DictTransactionManager.init in
  let nth k := DictTransactionManager.get_next_tid
                 (Nat.iter k (fun s => snd (DictTransactionManager.get_next_tid s)) m) in
  Z.of_nat 0 < Z.of_nat 3 < Z.of_nat 0 + 0x10000 /\ fst (nth 0%nat) <> fst (nth 3%nat).
Proof.
  split; [lia |].
  apply (get_next_tid_sequence (DictTransactionManager.init (H := nat)) 0 3). lia.
Defined.

(** ** The keyed table: isolation and replacement *)

(** X2.  In the keyed manager an [add_transaction] under one identifier
    does not disturb another: a later [get_transaction] of a different
    identifier returns what the table held for it before, and the added
    handle is still delivered afterwards.  Adding twice under the same
    identifier replaces the handle: only the later one is ever returned.
    After [del_transaction] the identifier yields [None]. *)
Theorem dict_manager_isolation {H : Type} (request_tid : H -> result Z)
    (m : DictTransactionManager.t H) (t1 t2 : Z) (h1 h2 : H) :
  let add h t s := snd (DictTransactionManager.add_transaction request_tid h (Some t) s) in
  let get t s := DictTransactionManager.get_transaction t s in
  (t1 <> t2 ->
     fst (get t2 (add h1 t1 m)) = Ok (DictTransactionManager.transactions m !! t2) /\
     fst (get t1 (snd (get t2 (add h1 t1 m)))) = Ok (Some h1)) /\
  fst (get t1 (add h2 t1 (add h1 t1 m))) = Ok (Some h2) /\
  fst (get t1 (snd (get t1 (add h2 t1 (add h1 t1 m))))) = Ok None /\
  fst (get t1 (snd (DictTransactionManager.del_transaction t1 (add h1 t1 m)))) = Ok None.
Proof.
  cbn. repeat split.
  - by rewrite lookup_insert_ne.
  - rewrite lookup_delete_ne by congruence. by rewrite lookup_insert_eq.
  - by rewrite lookup_insert_eq.
  - by rewrite lookup_delete_eq.
  - by rewrite lookup_delete_eq.
Qed.

Lemma dict_manager_isolation_witness :
  let m : DictTransactionManager.t nat := DictTransactionManager.init in
  let add h t s := snd (DictTransactionManager.add_transaction
                          (fun _ => Raise AttributeError) h (Some t) s) in
  (1:Z) <> 2 /\
  fst (DictTransactionManager.get_transaction 1
         (snd (DictTransactionManager.get_transaction 2 (add 10%nat 1 m)))) = Ok (Some 10%nat).
Proof.
  split; [lia |].
  apply (dict_manager_isolation (fun _ => Raise AttributeError)
           DictTransactionManager.init 1 2 10%nat 20%nat).
  lia.
Defined.

(** ** The FIFO table *)

Lemma fifo_drain {H : Type} (ks : list Z) (l : list H) (t : Z) :
  FifoTransactionManager.transactions
    (fold_left (fun s k => snd (FifoTransactionManager.get_transaction k s)) ks
       {| FifoTransactionManager.tid := t; FifoTransactionManager.transactions := l |})
  = drop (length ks) l.
Proof.
  revert l t. induction ks as [| k ks IH]; intros l t; [reflexivity |].
  cbn [fold_left length].
  destruct l as [| x rest]; cbn [FifoTransactionManager.get_transaction
                                 FifoTransactionManager.transactions
                                 FifoTransactionManager.tid snd].
  - rewrite IH. by rewrite !drop_nil.
  - by rewrite IH.
Qed.

(** X3.  The FIFO manager works the identifier out as the keyed manager
    does and then ignores it.  [add_transaction] without a [tid] reads
    [request.transaction_id]: when that read raises, the exception
    escapes and the table is unchanged; with a [tid], or when the read
    succeeds, the handle is appended.  Delivery is in order of insertion
    whatever identifiers are asked for: [get_transaction] returns the
    oldest pending handle and removes it, an added handle is delivered
    only after all those that were pending before it, and on an empty
    table [get_transaction] returns [None] and [del_transaction] does
    nothing. *)
Theorem fifo_manager_order {H : Type} (request_transaction_id : H -> result Z)
    (m : FifoTransactionManager.t H) (h : H) (tid_arg : option Z)
    (ks : list Z) (k : Z) :
  let add := FifoTransactionManager.add_transaction request_transaction_id h tid_arg m in
  let drained :=
    fold_left (fun s k' => snd (FifoTransactionManager.get_transaction k' s)) ks (snd add) in
  (forall e, tid_arg = None -> request_transaction_id h = Raise e ->
     add = (Raise e, m)) /\
  (tid_arg <> None \/ (exists t, request_transaction_id h = Ok t) ->
     fst add = Ok tt /\
     FifoTransactionManager.transactions (snd add)
       = FifoTransactionManager.transactions m ++ [h] /\
     FifoTransactionManager.tid (snd add) = FifoTransactionManager.tid m /\
     fst (FifoTransactionManager.get_transaction k (snd add))
       = Ok (head (FifoTransactionManager.transactions m ++ [h])) /\
     (length ks = length (FifoTransactionManager.transactions m) ->
        fst (FifoTransactionManager.get_transaction k drained) = Ok (Some h) /\
        FifoTransactionManager.transactions
          (snd (FifoTransactionManager.get_transaction k drained)) = [])) /\
  (FifoTransactionManager.transactions m = [] ->
     FifoTransactionManager.get_transaction k m = (Ok None, m) /\
     FifoTransactionManager.del_transaction k m = (Ok tt, m)).
Proof.
  cbn zeta. destruct m as [t l].
  cbn [FifoTransactionManager.transactions FifoTransactionManager.tid].
  split; [| split].
  - intros e -> He. unfold FifoTransactionManager.add_transaction. by rewrite He.
  - intros Hok.
    assert (Hadd : FifoTransactionManager.add_transaction request_transaction_id h tid_arg
                     {| FifoTransactionManager.tid := t;
                        FifoTransactionManager.transactions := l |}
                   = (Ok tt, {| FifoTransactionManager.tid := t;
                                FifoTransactionManager.transactions := l ++ [h] |})).
    { unfold FifoTransactionManager.add_transaction.
      cbn [FifoTransactionManager.transactions FifoTransactionManager.tid].
      destruct tid_arg as [t0 |]; [reflexivity |].
      destruct Hok as [Hne | [t0 Ht0]]; [congruence |]. by rewrite Ht0. }
    rewrite Hadd. cbn [fst snd FifoTransactionManager.transactions
                       FifoTransactionManager.tid].
    split; [reflexivity |]. split; [reflexivity |]. split; [reflexivity |]. split.
    + unfold FifoTransactionManager.get_transaction.
      cbn [FifoTransactionManager.transactions]. by destruct (l ++ [h]).
    + intros Hlen. unfold FifoTransactionManager.get_transaction at 1 3.
      rewrite fifo_drain, Hlen, drop_app_length. split; reflexivity.
  - intros ->. split; reflexivity.
Qed.

Lemma fifo_manager_order_witness :
  let rtid : nat -> result Z := fun n => if Nat.eqb n 0 then Raise AttributeError else Ok 7 in
  let m : FifoTransactionManager.t nat :=
    {| FifoTransactionManager.tid := 0; FifoTransactionManager.transactions := [3%nat; 4%nat] |} in
  FifoTransactionManager.add_transaction rtid 0%nat None m = (Raise AttributeError, m) /\
  fst (FifoTransactionManager.get_transaction 9
         (fold_left (fun s k' => snd (FifoTransactionManager.get_transaction k' s)) [1; 2]
            (snd (FifoTransactionManager.add_transaction rtid 0%nat (Some 5) m))))
    = Ok (Some 0%nat) /\
  fst (FifoTransactionManager.get_transaction 9
         (snd (FifoTransactionManager.add_transaction rtid 5%nat None m)))
    = Ok (Some 3%nat).
Proof.
  cbv zeta.
  pose (rtid := fun n : nat => if Nat.eqb n 0 then Raise AttributeError else Ok 7 : result Z).
  pose (m := {| FifoTransactionManager.tid := 0;
                FifoTransactionManager.transactions := [3%nat; 4%nat] |}).
  split; [| split].
  - apply (fifo_manager_order rtid m 0%nat None [] 9); reflexivity.
  - apply (fifo_manager_order rtid m 0%nat (Some 5) [1; 2] 9);
      [left; discriminate | reflexivity].
  - apply (fifo_manager_order rtid m 5%nat None [] 9). right. by exists 7.
Defined.

(** ** The MBAP framer: packets and the frames cut from the stream *)

Lemma slice_from_app (a b : bytes) (i : Z) :
  i = Py.len a -> slice_from (a ++ b) i = b.
Proof.
  intros ->. unfold slice_from, clamp. pose proof (len_nonneg a). pose proof (len_nonneg b).
  rewrite len_app.
  replace (Py.len a <? 0) with false by (symmetry; apply Z.ltb_ge; lia).
  rewrite Z.min_l by lia. unfold Py.len. rewrite Nat2Z.id. apply drop_app_length.
Qed.

Lemma pack_H_inv (v : Z) (b : bytes) :
  pack_H v = Ok b ->
  0 <= v <= 0xFFFF /\ b = [Z.shiftr v 8; Z.land v 0xFF] /\
  Z.shiftl (Z.shiftr v 8) 8 + Z.land v 0xFF = v.
Proof.
  intros Hp. pose proof (pack_H_unpack_H v b Hp) as Hu. unfold pack_H in Hp.
  destruct ((0 <=? v) && (v <=? 0xFFFF)) eqn:Hr; [| discriminate].
  apply andb_true_iff in Hr as [H1 H2]. apply Z.leb_le in H1, H2.
  injection Hp as <-. cbn [unpack_H] in Hu. injection Hu as Hu. auto.
Qed.

Lemma pack_B_inv (v : Z) (b : bytes) :
  pack_B v = Ok b -> 0 <= v <= 0xFF /\ b = [v].
Proof.
  unfold pack_B. destruct ((0 <=? v) && (v <=? 0xFF)) eqn:Hr; [| discriminate].
  apply andb_true_iff in Hr as [H1 H2]. apply Z.leb_le in H1, H2.
  intros [= <-]. auto.
Qed.

Lemma socket_build_packet_inv (m : Message) (packet : bytes) :
  ModbusSocketFramer.build_packet m = Ok packet ->
  exists data uid,
    encode m = Ok data /\ unit_id (pdu m) = Int uid /\
    2 <= Py.len data + 2 <= 0xFFFF /\
    unpack_HHHB (take 7 packet)
      = Ok (transaction_id (pdu m), protocol_id (pdu m), Py.len data + 2, uid) /\
    packet = take 7 packet ++ function_code m :: data /\
    length (take 7 packet) = 7%nat.
Proof.
  unfold ModbusSocketFramer.build_packet.
  destruct (encode m) as [data |]; [cbn [bind] | discriminate].
  destruct (pack_H (transaction_id (pdu m))) as [t |] eqn:Ht; [cbn [bind] | discriminate].
  destruct (pack_H (protocol_id (pdu m))) as [q |] eqn:Hq; [cbn [bind] | discriminate].
  destruct (pack_H (Py.len data + 2)) as [l |] eqn:Hl; [cbn [bind] | discriminate].
  destruct (unit_id (pdu m)) as [uid | |] eqn:Huid; cbn [pack_B_value bind]; try discriminate.
  destruct (pack_B uid) as [u |] eqn:Hu; [cbn [bind] | discriminate].
  destruct (pack_B (function_code m)) as [c |] eqn:Hc; [cbn [bind] | discriminate].
  intros [= <-].
  apply pack_H_inv in Ht as (_ & -> & Ht), Hq as (_ & -> & Hq), Hl as (Hlr & -> & Hl).
  apply pack_B_inv in Hu as (_ & ->), Hc as (_ & ->).
  exists data, uid. pose proof (len_nonneg data).
  cbn [app take unpack_HHHB length]. rewrite Ht, Hq, Hl.
  repeat split; lia || reflexivity.
Qed.

Lemma slice_prefix (a b : bytes) (j : Z) :
  j = Py.len a -> slice (a ++ b) 0 j = a.
Proof.
  intros ->. apply (slice_of (a ++ b) [] a b); [reflexivity | reflexivity |].
  change (Py.len []) with 0. lia.
Qed.

Lemma socket_frame_cycle (m : Message) (packet rest : bytes) (r : ModbusPDU)
    (h : ModbusSocketFramer.header_t) :
  ModbusSocketFramer.build_packet m = Ok packet ->
  let fed := {| ModbusSocketFramer.buffer := packet ++ rest;
                ModbusSocketFramer.header := h |} in
  exists data checked,
    encode m = Ok data /\
    ModbusSocketFramer.is_frame_ready fed = true /\
    ModbusSocketFramer.check_frame fed = (Ok true, checked) /\
    ModbusSocketFramer.get_frame checked = function_code m :: data /\
    ModbusSocketFramer.populate_result checked r = pdu m /\
    ModbusSocketFramer.advance_frame checked
      = (Ok tt, {| ModbusSocketFramer.buffer := rest;
                   ModbusSocketFramer.header := ModbusSocketFramer.empty_header |}).
Proof.
  intros Hbuild fed.
  destruct (socket_build_packet_inv m packet Hbuild)
    as (data & uid & Henc & Huid & Hlen & Hhdr & Hpacket & H7).
  set (hdr := take 7 packet) in *.
  assert (Hfed : fed = {| ModbusSocketFramer.buffer := hdr ++ (function_code m :: data) ++ rest;
                          ModbusSocketFramer.header := h |}).
  { unfold fed. rewrite Hpacket at 1. rewrite <- app_assoc. reflexivity. }
  set (buf := hdr ++ (function_code m :: data) ++ rest) in *.
  assert (Hlenhdr : Py.len hdr = 7) by (unfold Py.len; rewrite H7; reflexivity).
  assert (Hbuflen : Py.len buf = 8 + Py.len data + Py.len rest).
  { unfold buf. rewrite !len_app, Hlenhdr. unfold Py.len. cbn [length]. lia. }
  pose proof (len_nonneg data) as Hd. pose proof (len_nonneg rest) as Hr.
  exists data,
    {| ModbusSocketFramer.buffer := buf;
       ModbusSocketFramer.header :=
         {| ModbusSocketFramer.h_tid := transaction_id (pdu m);
            ModbusSocketFramer.h_pid := protocol_id (pdu m);
            ModbusSocketFramer.h_len := Py.len data + 2;
            ModbusSocketFramer.h_uid := uid |} |}.
  rewrite Hfed.
  split; [exact Henc |]. split; [| split; [| split; [| split]]].
  - unfold ModbusSocketFramer.is_frame_ready, ModbusSocketFramer.header_size.
    cbn [ModbusSocketFramer.buffer]. apply Z.gtb_lt. lia.
  - unfold ModbusSocketFramer.check_frame. run_m. cbn [ModbusSocketFramer.buffer].
    unfold ModbusSocketFramer.header_size.
    replace (Py.len buf >=? 7) with true by (symmetry; apply Z.geb_le; lia).
    replace (slice buf 0 7) with hdr
      by (symmetry; unfold buf; apply slice_prefix; lia).
    rewrite Hhdr. cbn [ModbusSocketFramer.header ModbusSocketFramer.h_len
                       ModbusSocketFramer.buffer].
    replace (Py.len data + 2 <? 2) with false by (symmetry; apply Z.ltb_ge; lia).
    replace (Py.len buf - 7 + 1 >=? Py.len data + 2) with true
      by (symmetry; apply Z.geb_le; lia).
    reflexivity.
  - unfold ModbusSocketFramer.get_frame, ModbusSocketFramer.get_frame_size,
      ModbusSocketFramer.header_size.
    cbn [ModbusSocketFramer.buffer ModbusSocketFramer.header ModbusSocketFramer.h_len].
    apply (slice_of buf hdr (function_code m :: data) rest); [reflexivity | lia |].
    rewrite Hlenhdr. unfold Py.len. cbn [length]. lia.
  - unfold ModbusSocketFramer.populate_result.
    cbn [ModbusSocketFramer.header ModbusSocketFramer.h_tid ModbusSocketFramer.h_pid
         ModbusSocketFramer.h_uid].
    rewrite <- Huid. by destruct (pdu m).
  - unfold ModbusSocketFramer.advance_frame, modify, ModbusSocketFramer.get_frame_size,
      ModbusSocketFramer.header_size.
    cbn [ModbusSocketFramer.buffer ModbusSocketFramer.header ModbusSocketFramer.h_len].
    do 2 f_equal. unfold buf. rewrite app_assoc. apply slice_from_app.
    rewrite len_app, Hlenhdr. unfold Py.len. cbn [length]. lia.
Qed.

(** X4.  Whenever [build_packet] of the socket framer succeeds on a
    message, a fresh framer fed with the packet followed by any further
    bytes reports a ready frame, [check_frame] accepts it, [get_frame]
    returns the function code followed by the encoded payload,
    [populate_result] restores the message's transaction id, protocol id
    and unit id, and [advance_frame] leaves exactly the further bytes in
    the buffer with a cleared header. *)
Theorem socket_framer_round_trip (m : Message) (packet rest : bytes) (r : ModbusPDU) :
  ModbusSocketFramer.build_packet m = Ok packet ->
  let fed := snd (ModbusSocketFramer.add_to_frame (packet ++ rest) ModbusSocketFramer.init) in
  exists data checked,
    encode m = Ok data /\
    ModbusSocketFramer.is_frame_ready fed = true /\
    ModbusSocketFramer.check_frame fed = (Ok true, checked) /\
    ModbusSocketFramer.get_frame checked = function_code m :: data /\
    ModbusSocketFramer.populate_result checked r = pdu m /\
    ModbusSocketFramer.advance_frame checked
      = (Ok tt, {| ModbusSocketFramer.buffer := rest;
                   ModbusSocketFramer.header := ModbusSocketFramer.empty_header |}).
Proof. exact (socket_frame_cycle m packet rest r ModbusSocketFramer.empty_header). Qed.

Lemma socket_framer_round_trip_witness :
  ModbusSocketFramer.build_packet (ReadCoilsRequest.message s1_request) = Ok s1_packet /\
  exists data checked,
    encode (ReadCoilsRequest.message s1_request) = Ok data /\
    ModbusSocketFramer.is_frame_ready
      (snd (ModbusSocketFramer.add_to_frame (s1_packet ++ [9; 9]) ModbusSocketFramer.init))
      = true /\
    ModbusSocketFramer.check_frame
      (snd (ModbusSocketFramer.add_to_frame (s1_packet ++ [9; 9]) ModbusSocketFramer.init))
      = (Ok true, checked) /\
    ModbusSocketFramer.get_frame checked = 1 :: data /\
    ModbusSocketFramer.populate_result checked default_pdu = rq_pdu s1_request /\
    ModbusSocketFramer.advance_frame checked
      = (Ok tt, {| ModbusSocketFramer.buffer := [9; 9];
                   ModbusSocketFramer.header := ModbusSocketFramer.empty_header |}).
Proof.
  split; [reflexivity |].
  apply (socket_framer_round_trip (ReadCoilsRequest.message s1_request)
           s1_packet [9; 9] default_pdu).
  reflexivity.
Defined.

Lemma socket_prefix_rejected (m : Message) (packet : bytes) (n : nat)
    (h : ModbusSocketFramer.header_t) :
  ModbusSocketFramer.build_packet m = Ok packet ->
  (n < length packet)%nat ->
  let fed := {| ModbusSocketFramer.buffer := take n packet;
                ModbusSocketFramer.header := h |} in
  fst (ModbusSocketFramer.check_frame fed) = Ok false /\
  ModbusSocketFramer.buffer (snd (ModbusSocketFramer.check_frame fed)) = take n packet.
Proof.
  intros Hbuild Hn fed.
  destruct (socket_build_packet_inv m packet Hbuild)
    as (data & uid & Henc & Huid & Hlen & Hhdr & Hpacket & H7).
  set (hdr := take 7 packet) in *.
  unfold fed, ModbusSocketFramer.check_frame. run_m.
  cbn [ModbusSocketFramer.buffer]. unfold ModbusSocketFramer.header_size.
  assert (Hlen_take : Py.len (take n packet) = Z.of_nat n).
  { unfold Py.len. rewrite length_take. lia. }
  assert (Hpl : length packet = (8 + length data)%nat).
  { rewrite Hpacket, length_app, H7. cbn [length]. lia. }
  destruct (Z.geb_spec (Py.len (take n packet)) 7) as [Hge | Hlt]; [| split; reflexivity].
  assert (Hshape : take n packet = hdr ++ take (n - 7) (function_code m :: data)).
  { rewrite Hpacket at 1. rewrite take_app, H7. f_equal. apply take_ge. lia. }
  replace (slice (take n packet) 0 7) with hdr.
  2:{ symmetry. rewrite Hshape. apply slice_prefix. unfold Py.len. rewrite H7. reflexivity. }
  rewrite Hhdr. cbn [ModbusSocketFramer.header ModbusSocketFramer.h_len
                     ModbusSocketFramer.buffer fst snd].
  replace (Py.len data + 2 <? 2) with false by (symmetry; apply Z.ltb_ge; lia).
  replace (Py.len (take n packet) - 7 + 1 >=? Py.len data + 2) with false.
  2:{ symmetry. destruct (Z.geb_spec (Py.len (take n packet) - 7 + 1) (Py.len data + 2));
        [| reflexivity]. unfold Py.len in *. lia. }
  split; reflexivity.
Qed.

(** X5.  The socket framer never accepts an incomplete packet: for every
    proper prefix of a packet built by [build_packet], [check_frame] on a
    fresh framer fed with that prefix returns false and keeps the bytes
    in the buffer. *)
Theorem socket_framer_rejects_proper_prefix (m : Message) (packet : bytes) (n : nat) :
  ModbusSocketFramer.build_packet m = Ok packet ->
  (n < length packet)%nat ->
  let fed := snd (ModbusSocketFramer.add_to_frame (take n packet) ModbusSocketFramer.init) in
  fst (ModbusSocketFramer.check_frame fed) = Ok false /\
  ModbusSocketFramer.buffer (snd (ModbusSocketFramer.check_frame fed)) = take n packet.
Proof.
  intros Hbuild Hn.
  exact (socket_prefix_rejected m packet n ModbusSocketFramer.empty_header Hbuild Hn).
Qed.

Lemma socket_framer_rejects_proper_prefix_witness :
  (9 < length s1_packet)%nat /\
  fst (ModbusSocketFramer.check_frame
         (snd (ModbusSocketFramer.add_to_frame (take 9 s1_packet) ModbusSocketFramer.init)))
    = Ok false.
Proof.
  split; [vm_compute; lia |].
  apply (socket_framer_rejects_proper_prefix (ReadCoilsRequest.message s1_request)
           s1_packet 9); [reflexivity | vm_compute; lia].
Defined.

(** X6.  A header whose length field is below 2 is skipped: whatever the
    framer's header was, [check_frame] on a buffer of at least seven
    bytes whose fifth and sixth bytes encode a length of 0 or 1 returns
    false, drops exactly the seven header bytes and clears the header. *)
Theorem socket_framer_skips_short_length
    (t1 t0 p1 p0 l1 l0 u : Z) (rest : bytes) (h : ModbusSocketFramer.header_t) :
  Z.shiftl l1 8 + l0 < 2 ->
  ModbusSocketFramer.check_frame
    {| ModbusSocketFramer.buffer := [t1; t0; p1; p0; l1; l0; u] ++ rest;
       ModbusSocketFramer.header := h |}
  = (Ok false, {| ModbusSocketFramer.buffer := rest;
                  ModbusSocketFramer.header := ModbusSocketFramer.empty_header |}).
Proof.
  intros Hshort. pose proof (len_nonneg rest) as Hr.
  set (hdr := [t1; t0; p1; p0; l1; l0; u]).
  unfold ModbusSocketFramer.check_frame. run_m.
  cbn [ModbusSocketFramer.buffer]. unfold ModbusSocketFramer.header_size.
  assert (Hl : Py.len (hdr ++ rest) = 7 + Py.len rest) by (rewrite len_app; reflexivity).
  replace (Py.len (hdr ++ rest) >=? 7) with true by (symmetry; apply Z.geb_le; lia).
  replace (slice (hdr ++ rest) 0 7) with hdr by (symmetry; apply slice_prefix; reflexivity).
  cbn [unpack_HHHB hdr ModbusSocketFramer.header ModbusSocketFramer.h_len
       ModbusSocketFramer.buffer].
  replace (Z.shiftl l1 8 + l0 <? 2) with true by (symmetry; apply Z.ltb_lt; lia).
  unfold ModbusSocketFramer.advance_frame, modify, ModbusSocketFramer.get_frame_size,
    ModbusSocketFramer.header_size.
  cbn [ModbusSocketFramer.buffer ModbusSocketFramer.header ModbusSocketFramer.h_len].
  do 2 f_equal. apply slice_from_app. rewrite Z.max_l by lia. reflexivity.
Qed.

Lemma socket_framer_skips_short_length_witness :
  Z.shiftl 0 8 + 1 < 2 /\
  ModbusSocketFramer.check_frame
    {| ModbusSocketFramer.buffer := [0x99; 0x99; 0x99; 0x99; 0; 1; 0] ++ [1];
       ModbusSocketFramer.header := ModbusSocketFramer.empty_header |}
  = (Ok false, {| ModbusSocketFramer.buffer := [1];
                  ModbusSocketFramer.header := ModbusSocketFramer.empty_header |}).
Proof.
  split; [vm_compute; reflexivity |].
  apply socket_framer_skips_short_length. vm_compute. reflexivity.
Defined.

(** ** The RTU framer *)

Lemma rtu_build_packet_inv (m : Message) (packet : bytes) :
  ModbusRtuFramer.build_packet m = Ok packet ->
  exists data uid,
    encode m = Ok data /\ unit_id (pdu m) = Int uid /\
    let crc := compute_crc (uid :: function_code m :: data) in
    packet = [uid] ++ (function_code m :: data) ++ [Z.shiftr crc 8; Z.land crc 0xFF] /\
    Z.shiftl (Z.shiftr crc 8) 8 + Z.land crc 0xFF = crc.
Proof.
  unfold ModbusRtuFramer.build_packet.
  destruct (encode m) as [data |]; [cbn [bind] | discriminate].
  destruct (unit_id (pdu m)) as [uid | |] eqn:Huid; cbn [pack_B_value bind]; try discriminate.
  destruct (pack_B uid) as [u |] eqn:Hu; [cbn [bind] | discriminate].
  destruct (pack_B (function_code m)) as [c |] eqn:Hc; [cbn [bind] | discriminate].
  apply pack_B_inv in Hu as (_ & ->), Hc as (_ & ->). cbn [app].
  destruct (pack_H (compute_crc (uid :: function_code m :: data))) as [k |] eqn:Hk;
    [cbn [bind] | discriminate].
  apply pack_H_inv in Hk as (_ & -> & Hk).
  intros [= <-]. exists data, uid. repeat split; assumption || reflexivity.
Qed.

Lemma rtu_frame_cycle (size : Z -> bytes -> result Z)
    (m : Message) (packet rest : bytes) (r : ModbusPDU) :
  ModbusRtuFramer.build_packet m = Ok packet ->
  size (function_code m) (packet ++ rest) = Ok (Py.len packet) ->
  let fed := snd (ModbusRtuFramer.add_to_frame (packet ++ rest) ModbusRtuFramer.init) in
  exists data checked,
    encode m = Ok data /\
    ModbusRtuFramer.check_frame size fed = (Ok true, checked) /\
    ModbusRtuFramer.get_frame checked = (Ok (function_code m :: data), checked) /\
    unit_id (ModbusRtuFramer.populate_result checked r) = unit_id (pdu m) /\
    ModbusRtuFramer.buffer (snd (ModbusRtuFramer.advance_frame checked)) = rest.
Proof.
  intros Hbuild Hsize fed.
  destruct (rtu_build_packet_inv m packet Hbuild) as (data & uid & Henc & Huid & Hpacket & Hk).
  cbn zeta in Hpacket, Hk.
  set (crc := compute_crc (uid :: function_code m :: data)) in *.
  set (k1 := Z.shiftr crc 8) in *. set (k0 := Z.land crc 0xFF) in *.
  set (body := function_code m :: data) in *.
  pose proof (len_nonneg data) as Hd. pose proof (len_nonneg rest) as Hr.
  assert (Hlb : Py.len body = 1 + Py.len data)
    by (unfold body, Py.len; cbn [length]; lia).
  assert (Hlp : Py.len packet = Py.len data + 4).
  { rewrite Hpacket, !len_app, Hlb. unfold Py.len. cbn [length]. lia. }
  set (buf := packet ++ rest) in *.
  assert (Hfed : fed = {| ModbusRtuFramer.buffer := buf;
                          ModbusRtuFramer.header := ModbusRtuFramer.empty_header |})
    by reflexivity.
  assert (Hbuf : buf = [uid] ++ body ++ [k1; k0] ++ rest).
  { unfold buf. rewrite Hpacket. rewrite <- !app_assoc. reflexivity. }
  assert (H0 : getitem buf 0 = Ok uid).
  { rewrite Hbuf. cbn [app]. unfold body, getitem, Py.len. cbn [length].
    replace (0 <? 0) with false by reflexivity.
    match goal with |- context [Z.of_nat ?n <=? 0] =>
      replace (Z.of_nat n <=? 0) with false by (symmetry; apply Z.leb_gt; lia) end.
    reflexivity. }
  assert (H1 : getitem buf 1 = Ok (function_code m)).
  { rewrite Hbuf. cbn [app]. unfold body, getitem, Py.len. cbn [length app].
    replace (1 <? 0) with false by reflexivity.
    match goal with |- context [Z.of_nat ?n <=? 1] =>
      replace (Z.of_nat n <=? 1) with false by (symmetry; apply Z.leb_gt; lia) end.
    reflexivity. }
  assert (Hcrc : slice buf (Py.len packet - 2) (Py.len packet) = [k1; k0]).
  { apply (slice_of buf ([uid] ++ body) [k1; k0] rest).
    - rewrite Hbuf, <- !app_assoc. reflexivity.
    - rewrite Hlp, len_app, Hlb. unfold Py.len. cbn [length]. lia.
    - rewrite Hlp, len_app, Hlb. unfold Py.len. cbn [length]. lia. }
  assert (Hdata : slice buf 0 (Py.len packet - 2) = uid :: function_code m :: data).
  { apply (slice_of buf [] ([uid] ++ body) ([k1; k0] ++ rest)).
    - rewrite Hbuf, <- !app_assoc. reflexivity.
    - reflexivity.
    - rewrite Hlp, len_app, Hlb. unfold Py.len. cbn [length]. lia. }
  assert (Hframe : slice buf ModbusRtuFramer.header_size (Py.len packet - 2) = body).
  { apply (slice_of buf [uid] body ([k1; k0] ++ rest)).
    - exact Hbuf.
    - reflexivity.
    - rewrite Hlp, Hlb. unfold Py.len. cbn [length]. lia. }
  set (checked :=
         ModbusRtuFramer.set_crc [k1; k0]
           (ModbusRtuFramer.set_len (Py.len packet) (ModbusRtuFramer.set_uid uid fed))).
  exists data, checked. split; [exact Henc |]. split; [| split; [| split]].
  - unfold ModbusRtuFramer.check_frame, ModbusRtuFramer.populate_header. run_m.
    rewrite Hfed. cbn [ModbusRtuFramer.buffer]. rewrite H0, H1.
    cbn [ModbusRtuFramer.buffer ModbusRtuFramer.set_uid]. rewrite Hsize.
    cbn [ModbusRtuFramer.buffer ModbusRtuFramer.header ModbusRtuFramer.h_len
         ModbusRtuFramer.set_uid ModbusRtuFramer.set_len ModbusRtuFramer.set_crc].
    rewrite Hcrc, Hdata.
    assert (G0 : getitem [k1; k0] 0 = Ok k1) by reflexivity.
    assert (G1 : getitem [k1; k0] 1 = Ok k0) by reflexivity.
    rewrite G0, G1. unfold check_crc. fold crc. rewrite Hk, Z.eqb_refl.
    unfold checked. rewrite Hfed. reflexivity.
  - unfold ModbusRtuFramer.get_frame. run_m. unfold checked. rewrite Hfed.
    cbn [ModbusRtuFramer.buffer ModbusRtuFramer.header ModbusRtuFramer.h_len
         ModbusRtuFramer.set_uid ModbusRtuFramer.set_len ModbusRtuFramer.set_crc].
    rewrite Hframe.
    replace (Py.len packet - 2 >? 0) with true by (symmetry; apply Z.gtb_lt; lia).
    reflexivity.
  - rewrite Huid. reflexivity.
  - unfold ModbusRtuFramer.advance_frame, modify, checked. rewrite Hfed.
    cbn [snd ModbusRtuFramer.buffer ModbusRtuFramer.header ModbusRtuFramer.h_len
         ModbusRtuFramer.set_uid ModbusRtuFramer.set_len ModbusRtuFramer.set_crc].
    unfold buf. apply slice_from_app. reflexivity.
Qed.

(** X7.  Whenever [build_packet] of the RTU framer succeeds and the PDU
    class computes the packet's length as the frame size, a fresh framer
    fed with the packet followed by any further bytes accepts it:
    [check_frame] returns true, [get_frame] returns the function code and
    the payload (between the unit id and the CRC), [populate_result]
    restores the unit id, and [advance_frame] leaves exactly the further
    bytes. *)
Theorem rtu_framer_round_trip (size : Z -> bytes -> result Z)
    (m : Message) (packet rest : bytes) (r : ModbusPDU) :
  ModbusRtuFramer.build_packet m = Ok packet ->
  size (function_code m) (packet ++ rest) = Ok (Py.len packet) ->
  let fed := snd (ModbusRtuFramer.add_to_frame (packet ++ rest) ModbusRtuFramer.init) in
  exists data checked,
    encode m = Ok data /\
    ModbusRtuFramer.check_frame size fed = (Ok true, checked) /\
    ModbusRtuFramer.get_frame checked = (Ok (function_code m :: data), checked) /\
    unit_id (ModbusRtuFramer.populate_result checked r) = unit_id (pdu m) /\
    ModbusRtuFramer.buffer (snd (ModbusRtuFramer.advance_frame checked)) = rest.
Proof. exact (rtu_frame_cycle size m packet rest r). Qed.

Lemma rtu_framer_round_trip_witness :
  let m := ReadCoilsRequest.message
             {| rq_pdu := default_pdu; address := 0; count := 1 |} in
  ModbusRtuFramer.build_packet m = Ok [0; 1; 0; 0; 0; 1; 0xFC; 0x1B] /\
  exists data checked,
    encode m = Ok data /\
    ModbusRtuFramer.check_frame (fun _ _ => Ok 8)
      (snd (ModbusRtuFramer.add_to_frame ([0; 1; 0; 0; 0; 1; 0xFC; 0x1B] ++ [7])
              ModbusRtuFramer.init)) = (Ok true, checked) /\
    ModbusRtuFramer.get_frame checked = (Ok (1 :: data), checked) /\
    unit_id (ModbusRtuFramer.populate_result checked default_pdu) = Int 0 /\
    ModbusRtuFramer.buffer (snd (ModbusRtuFramer.advance_frame checked)) = [7].
Proof.
  split; [reflexivity |].
  apply (rtu_framer_round_trip (fun _ _ => Ok 8)
           (ReadCoilsRequest.message {| rq_pdu := default_pdu; address := 0; count := 1 |})
           [0; 1; 0; 0; 0; 1; 0xFC; 0x1B] [7] default_pdu); reflexivity.
Defined.

Lemma getitem_out_of_range (b : bytes) (i : Z) :
  Py.len b <= i -> getitem b i = Raise IndexError.
Proof.
  intros Hi. pose proof (len_nonneg b). unfold getitem.
  replace (i <? 0) with false by (symmetry; apply Z.ltb_ge; lia).
  replace (Py.len b <=? i) with true by (symmetry; apply Z.leb_le; lia).
  rewrite orb_true_r. reflexivity.
Qed.

Lemma getitem_raises_index_error (b : bytes) (i : Z) (e : exn) :
  getitem b i = Raise e -> e = IndexError.
Proof.
  unfold getitem.
  destruct (_ || _); [congruence |]. destruct (nth_error _ _); congruence.
Qed.

Lemma len_slice_tail (b : bytes) (n : Z) :
  2 <= n -> Py.len b < n -> Py.len (slice b (n - 2) n) <= 1.
Proof.
  intros Hn Hb. pose proof (len_nonneg b). unfold slice, clamp.
  replace (n - 2 <? 0) with false by (symmetry; apply Z.ltb_ge; lia).
  replace (n <? 0) with false by (symmetry; apply Z.ltb_ge; lia).
  unfold Py.len at 1. rewrite length_take, length_drop. fold (Py.len b). lia.
Qed.

(** X8.  The RTU framer treats an incomplete frame as "not yet": when the
    buffer holds fewer than two bytes, or the frame size computed by the
    PDU class (at least 2) exceeds the buffered length, [check_frame]
    returns false without raising and keeps the buffer. *)
Theorem rtu_framer_incomplete_frame (size : Z -> bytes -> result Z)
    (f : ModbusRtuFramer.t) :
  (Py.len (ModbusRtuFramer.buffer f) < 2 \/
   exists function_code n,
     getitem (ModbusRtuFramer.buffer f) 1 = Ok function_code /\
     size function_code (ModbusRtuFramer.buffer f) = Ok n /\
     2 <= n /\ Py.len (ModbusRtuFramer.buffer f) < n) ->
  fst (ModbusRtuFramer.check_frame size f) = Ok false /\
  ModbusRtuFramer.buffer (snd (ModbusRtuFramer.check_frame size f))
    = ModbusRtuFramer.buffer f.
Proof.
  destruct f as [buf hdr]. cbn [ModbusRtuFramer.buffer].
  unfold ModbusRtuFramer.check_frame, ModbusRtuFramer.populate_header. run_m.
  cbn [ModbusRtuFramer.buffer].
  intros [Hshort | (fc & n & Hfc & Hsize & Hn & Hlen)].
  - destruct (getitem buf 0) as [u |] eqn:H0.
    + rewrite (getitem_out_of_range buf 1) by lia. split; reflexivity.
    + apply getitem_raises_index_error in H0 as ->. split; reflexivity.
  - destruct (getitem buf 0) as [u |] eqn:H0.
    2:{ apply getitem_raises_index_error in H0 as ->. split; reflexivity. }
    cbn [ModbusRtuFramer.buffer ModbusRtuFramer.set_uid]. rewrite Hfc, Hsize.
    cbn [ModbusRtuFramer.buffer ModbusRtuFramer.header ModbusRtuFramer.h_len
         ModbusRtuFramer.set_uid ModbusRtuFramer.set_len ModbusRtuFramer.set_crc].
    pose proof (len_slice_tail buf n Hn Hlen) as Htail.
    destruct (getitem (slice buf (n - 2) n) 0) as [c0 |] eqn:Hc0.
    + rewrite (getitem_out_of_range _ 1) by lia. split; reflexivity.
    + apply getitem_raises_index_error in Hc0 as ->. split; reflexivity.
Qed.

Lemma rtu_framer_incomplete_frame_witness :
  let f := snd (ModbusRtuFramer.add_to_frame [0; 1; 0] ModbusRtuFramer.init) in
  fst (ModbusRtuFramer.check_frame (fun _ _ => Ok 8) f) = Ok false.
Proof.
  apply (rtu_framer_incomplete_frame (fun _ _ => Ok 8)
           (snd (ModbusRtuFramer.add_to_frame [0; 1; 0] ModbusRtuFramer.init))).
  right. exists 1, 8. repeat split; vm_compute; congruence.
Defined.

(** ** The ASCII framer *)

Lemma byte_cases (P : Z -> bool) :
  forallb P (map Z.of_nat (seq 0 256)) = true ->
  forall v, 0 <= v <= 255 -> P v = true.
Proof.
  intros Hall v Hv. rewrite forallb_forall in Hall. apply Hall.
  apply in_map_iff. exists (Z.to_nat v). split; [lia |]. apply in_seq. lia.
Qed.

Lemma format_02x_upper (v : Z) :
  0 <= v <= 255 ->
  exists d1 d0,
    upper (format_02x v) = [d1; d0] /\
    hex_value d1 = Some (v / 16) /\ hex_value d0 = Some (v mod 16) /\
    d1 <> 13 /\ d0 <> 13 /\ d1 <> 58 /\ d0 <> 58.
Proof.
  intros Hv.
  pose proof (byte_cases
    (fun v => match upper (format_02x v) with
              | [d1; d0] =>
                  match hex_value d1, hex_value d0 with
                  | Some x, Some y =>
                      (x =? v / 16) && (y =? v mod 16) && negb (d1 =? 13) && negb (d0 =? 13)
                      && negb (d1 =? 58) && negb (d0 =? 58)
                  | _, _ => false
                  end
              | _ => false
              end) ltac:(vm_compute; reflexivity) v Hv) as Hcheck.
  cbv beta in Hcheck.
  destruct (upper (format_02x v)) as [| d1 [| d0 [| ? ?]]]; try discriminate.
  destruct (hex_value d1) as [x |] eqn:Hx; [| discriminate].
  destruct (hex_value d0) as [y |] eqn:Hy; [| discriminate].
  repeat (apply andb_true_iff in Hcheck as [Hcheck ?]).
  exists d1, d0.
  repeat match goal with
         | H : negb (_ =? _) = true |- _ => apply negb_true_iff, Z.eqb_neq in H
         | H : (_ =? _) = true |- _ => apply Z.eqb_eq in H
         end.
  subst. repeat split; assumption || reflexivity.
Qed.

Lemma upper_app (a b : bytes) : upper (a ++ b) = upper a ++ upper b.
Proof. apply map_app. Qed.

Lemma hex_text (data : bytes) :
  Forall (fun v => 0 <= v <= 255) data ->
  a2b_hex (upper (b2a_hex data)) = Ok data /\
  Forall (fun c => c <> 13) (upper (b2a_hex data)) /\
  Py.len (upper (b2a_hex data)) = 2 * Py.len data.
Proof.
  induction 1 as [| v data Hv _ (IHa & IHf & IHl)]; [repeat split; constructor |].
  unfold b2a_hex in *. cbn [flat_map]. rewrite upper_app.
  destruct (format_02x_upper v Hv) as (d1 & d0 & -> & H1 & H0 & N1 & N0 & _).
  cbn [app a2b_hex]. rewrite H1, H0, IHa. cbn [bind].
  repeat split.
  - do 2 f_equal. pose proof (Z.div_mod v 16 ltac:(lia)). lia.
  - constructor; [exact N1 |]. constructor; [exact N0 | exact IHf].
  - unfold Py.len in *. cbn [length]. lia.
Qed.

Lemma int16_format (v : Z) :
  0 <= v <= 255 -> int16 (upper (format_02x v)) = Ok v.
Proof.
  intros Hv.
  pose proof (byte_cases
    (fun v => match int16 (upper (format_02x v)) with
              | Ok x => x =? v
              | Raise _ => false
              end) ltac:(vm_compute; reflexivity) v Hv) as Hcheck.
  cbv beta in Hcheck.
  destruct (int16 (upper (format_02x v))) as [x | e]; [| discriminate].
  apply Z.eqb_eq in Hcheck. by subst.
Qed.

Lemma find_from_crlf (pre post : bytes) (i : Z) :
  Forall (fun c => c <> 13) pre ->
  find_from [13; 10] (pre ++ 13 :: 10 :: post) i = i + Py.len pre.
Proof.
  intros Hpre. revert i. induction Hpre as [| x pre Hx Hpre IH]; intros i.
  - cbn [app find_from startswith]. rewrite !Z.eqb_refl. cbn. unfold Py.len. cbn. lia.
  - cbn [app find_from startswith].
    replace (13 =? x) with false by (symmetry; apply Z.eqb_neq; congruence).
    cbn [andb]. rewrite IH. unfold Py.len. cbn [length]. lia.
Qed.

Lemma fold_left_add (l : list Z) (a : Z) :
  fold_left Z.add l a = a + fold_left Z.add l 0.
Proof.
  revert a. induction l as [| x l IH]; intros a; cbn [fold_left]; [lia |].
  rewrite (IH (a + x)), (IH (0 + x)). lia.
Qed.

Lemma compute_lrc_app_comm (a b : bytes) : compute_lrc (a ++ b) = compute_lrc (b ++ a).
Proof.
  unfold compute_lrc. rewrite !fold_left_app.
  replace (fold_left Z.add b (fold_left Z.add a 0))
    with (fold_left Z.add a (fold_left Z.add b 0)); [reflexivity |].
  rewrite (fold_left_add a (fold_left Z.add b 0)), (fold_left_add b (fold_left Z.add a 0)).
  lia.
Qed.

Lemma compute_lrc_range (data : bytes) : 0 <= compute_lrc data <= 255.
Proof.
  unfold compute_lrc.
  set (x := Z.lxor (Z.land (fold_left Z.add data 0) 0xFF) 0xFF + 1).
  change (Z.land x 0xFF) with (Z.land x (Z.ones 8)).
  rewrite Z.land_ones by lia.
  pose proof (Z.mod_pos_bound x (2 ^ 8) ltac:(lia)). lia.
Qed.

Lemma ascii_build_packet_inv (m : Message) (packet : bytes) :
  ModbusAsciiFramer.build_packet m = Ok packet ->
  exists data uid,
    encode m = Ok data /\ unit_id (pdu m) = Int uid /\
    0 <= uid <= 255 /\ 0 <= function_code m <= 255 /\
    packet = [58] ++ upper (b2a_hex (uid :: function_code m :: data))
                  ++ upper (format_02x (compute_lrc (uid :: function_code m :: data)))
                  ++ [13; 10].
Proof.
  unfold ModbusAsciiFramer.build_packet.
  destruct (encode m) as [data |]; [cbn [bind] | discriminate].
  destruct (unit_id (pdu m)) as [uid | |] eqn:Huid; cbn [pack_B_value bind]; try discriminate.
  destruct (pack_B uid) as [u |] eqn:Hu; [cbn [bind] | discriminate].
  destruct (pack_B (function_code m)) as [c |] eqn:Hc; [cbn [bind] | discriminate].
  apply pack_B_inv in Hu as (Hur & ->), Hc as (Hcr & ->).
  intros [= <-]. exists data, uid. repeat split; try lia.
  rewrite (compute_lrc_app_comm data).
  unfold ModbusAsciiFramer._start, ModbusAsciiFramer._end, b2a_hex.
  rewrite !upper_app. cbn [app flat_map]. rewrite !upper_app.
  rewrite <- !app_assoc. reflexivity.
Qed.

(** X9.  Whenever [build_packet] of the ASCII framer succeeds on a
    message whose payload consists of bytes, a fresh framer fed with the
    packet followed by any further bytes accepts it: [check_frame]
    returns true (the LRC, computed on emit over payload then header,
    matches the one checked over header then payload), [get_frame]
    returns the function code and the payload, [populate_result] restores
    the unit id, and [advance_frame] leaves exactly the further bytes. *)
Theorem ascii_framer_round_trip (m : Message) (packet data rest : bytes) (r : ModbusPDU) :
  ModbusAsciiFramer.build_packet m = Ok packet ->
  encode m = Ok data ->
  Forall (fun v => 0 <= v <= 255) data ->
  let fed := snd (ModbusAsciiFramer.add_to_frame (packet ++ rest) ModbusAsciiFramer.init) in
  exists checked,
    ModbusAsciiFramer.check_frame fed = (Ok true, checked) /\
    ModbusAsciiFramer.get_frame checked = (Ok (function_code m :: data), checked) /\
    unit_id (ModbusAsciiFramer.populate_result checked r) = unit_id (pdu m) /\
    ModbusAsciiFramer.buffer (snd (ModbusAsciiFramer.advance_frame checked)) = rest.
Proof.
  intros Hbuild Henc Hbytes fed.
  destruct (ascii_build_packet_inv m packet Hbuild)
    as (data' & uid & Henc' & Huid & Hur & Hfr & Hpacket).
  rewrite Henc in Henc'. injection Henc' as <-.
  set (fc := function_code m) in *.
  set (lrc := compute_lrc (uid :: fc :: data)) in *.
  pose proof (compute_lrc_range (uid :: fc :: data)) as Hlr. fold lrc in Hlr.
  set (U := upper (format_02x uid)) in *.
  set (body := upper (b2a_hex (fc :: data))) in *.
  set (L := upper (format_02x lrc)) in *.
  assert (Hall : Forall (fun v => 0 <= v <= 255) (uid :: fc :: data))
    by (repeat constructor; lia || assumption).
  assert (Hfcdata : Forall (fun v => 0 <= v <= 255) (fc :: data))
    by (constructor; lia || assumption).
  destruct (hex_text _ Hall) as (Hhex & Hno13 & Hhexlen).
  destruct (hex_text _ Hfcdata) as (Hbodyhex & _ & Hbodylen). fold body in Hbodyhex, Hbodylen.
  assert (Hsplit : upper (b2a_hex (uid :: fc :: data)) = U ++ body).
  { unfold b2a_hex. cbn [flat_map]. rewrite upper_app. reflexivity. }
  rewrite Hsplit in *.
  destruct (format_02x_upper uid Hur) as (u1 & u0 & HU & _).
  destruct (format_02x_upper lrc Hlr) as (k1 & k0 & HL & _ & _ & Nk1 & Nk0 & _).
  fold U in HU. fold L in HL.
  assert (HlenU : Py.len U = 2) by (rewrite HU; reflexivity).
  assert (HlenL : Py.len L = 2) by (rewrite HL; reflexivity).
  pose proof (len_nonneg data) as Hd. pose proof (len_nonneg rest) as Hr.
  assert (Hlenbody : Py.len body = 2 + 2 * Py.len data).
  { rewrite Hbodylen. unfold Py.len. cbn [length]. lia. }
  set (buf := packet ++ rest) in *.
  assert (Hbuf : buf = [58] ++ U ++ body ++ L ++ [13; 10] ++ rest).
  { unfold buf. rewrite Hpacket. rewrite <- !app_assoc. reflexivity. }
  set (end_ := 5 + Py.len body).
  assert (Hstart : find buf ModbusAsciiFramer._start = 0).
  { rewrite Hbuf. unfold find, ModbusAsciiFramer._start. cbn [app find_from startswith].
    rewrite Z.eqb_refl. reflexivity. }
  assert (Hend : find buf ModbusAsciiFramer._end = end_).
  { rewrite Hbuf. unfold find, ModbusAsciiFramer._end.
    replace ([58] ++ U ++ body ++ L ++ [13; 10] ++ rest)
      with (([58] ++ (U ++ body) ++ L) ++ 13 :: 10 :: rest)
      by (rewrite <- !app_assoc; reflexivity).
    rewrite find_from_crlf.
    - rewrite !len_app, HlenU, HlenL. change (Py.len [58]) with 1. unfold end_. lia.
    - apply Forall_app. split; [repeat constructor; discriminate |].
      apply Forall_app. split; [exact Hno13 |].
      rewrite HL. repeat constructor; assumption. }
  assert (Huidslice : slice buf 1 3 = U).
  { apply (slice_of buf [58] U (body ++ L ++ [13; 10] ++ rest)); [exact Hbuf | reflexivity |].
    rewrite HlenU. reflexivity. }
  assert (Hlrcslice : slice buf (end_ - 2) end_ = L).
  { apply (slice_of buf ([58] ++ U ++ body) L ([13; 10] ++ rest)).
    - rewrite Hbuf, <- !app_assoc. reflexivity.
    - rewrite !len_app, HlenU. change (Py.len [58]) with 1. unfold end_. lia.
    - rewrite !len_app, HlenU, HlenL. change (Py.len [58]) with 1. unfold end_. lia. }
  assert (Hdataslice : slice buf (0 + 1) (end_ - 2) = U ++ body).
  { apply (slice_of buf [58] (U ++ body) (L ++ [13; 10] ++ rest)).
    - rewrite Hbuf, <- !app_assoc. reflexivity.
    - reflexivity.
    - rewrite !len_app, HlenU. change (Py.len [58]) with 1. unfold end_. lia. }
  assert (Hframeslice : slice buf (ModbusAsciiFramer.header_size + 1) (end_ - 2) = body).
  { apply (slice_of buf ([58] ++ U) body (L ++ [13; 10] ++ rest)).
    - rewrite Hbuf, <- !app_assoc. reflexivity.
    - rewrite len_app, HlenU. reflexivity.
    - rewrite len_app, HlenU. change (Py.len [58]) with 1. unfold end_. lia. }
  assert (Hfed : fed = {| ModbusAsciiFramer.buffer := buf;
                          ModbusAsciiFramer.header := ModbusAsciiFramer.empty_header |})
    by reflexivity.
  set (checked :=
         ModbusAsciiFramer.set_lrc (Int lrc)
           (ModbusAsciiFramer.set_uid uid (ModbusAsciiFramer.set_len end_ fed))).
  exists checked. split; [| split; [| split]].
  - unfold ModbusAsciiFramer.check_frame. run_m. rewrite Hfed.
    cbn [ModbusAsciiFramer.buffer]. rewrite Hstart.
    replace (0 =? -1) with false by reflexivity.
    replace (0 >? 0) with false by reflexivity.
    cbn [ModbusAsciiFramer.buffer]. rewrite Hend.
    replace (end_ =? -1) with false by (symmetry; apply Z.eqb_neq; unfold end_; lia).
    cbn [negb]. rewrite Huidslice. unfold U. rewrite (int16_format uid Hur).
    rewrite Hlrcslice. unfold L. rewrite (int16_format lrc Hlr).
    rewrite Hdataslice, Hhex.
    unfold check_lrc. fold lrc. rewrite Z.eqb_refl. reflexivity.
  - unfold ModbusAsciiFramer.get_frame. run_m. unfold checked. rewrite Hfed.
    cbn [ModbusAsciiFramer.buffer ModbusAsciiFramer.header ModbusAsciiFramer.h_len
         ModbusAsciiFramer.set_uid ModbusAsciiFramer.set_len ModbusAsciiFramer.set_lrc].
    rewrite Hframeslice.
    replace (end_ - 2 >? 0) with true by (symmetry; apply Z.gtb_lt; unfold end_; lia).
    rewrite Hbodyhex. reflexivity.
  - rewrite Huid. reflexivity.
  - unfold ModbusAsciiFramer.advance_frame, modify, checked. rewrite Hfed.
    cbn [snd ModbusAsciiFramer.buffer ModbusAsciiFramer.header ModbusAsciiFramer.h_len
         ModbusAsciiFramer.set_uid ModbusAsciiFramer.set_len ModbusAsciiFramer.set_lrc].
    unfold buf. apply slice_from_app.
    rewrite Hpacket, !len_app, HlenU, HlenL. change (Py.len [58]) with 1.
    change (Py.len [13; 10]) with 2. unfold end_. lia.
Qed.

Lemma ascii_framer_round_trip_witness :
  let m := {| pdu := {| transaction_id := 0; protocol_id := 0; unit_id := Int 0xF7 |};
              function_code := 3; should_respond := true;
              encode := Ok [0x13; 0x89; 0x00; 0x0A] |} in
  ModbusAsciiFramer.build_packet m = Ok s2_frame /\
  exists checked,
    ModbusAsciiFramer.check_frame
      (snd (ModbusAsciiFramer.add_to_frame (s2_frame ++ [58]) ModbusAsciiFramer.init))
      = (Ok true, checked) /\
    ModbusAsciiFramer.get_frame checked = (Ok [3; 0x13; 0x89; 0x00; 0x0A], checked) /\
    unit_id (ModbusAsciiFramer.populate_result checked default_pdu) = Int 0xF7 /\
    ModbusAsciiFramer.buffer (snd (ModbusAsciiFramer.advance_frame checked)) = [58].
Proof.
  split; [reflexivity |].
  apply (ascii_framer_round_trip
           {| pdu := {| transaction_id := 0; protocol_id := 0; unit_id := Int 0xF7 |};
              function_code := 3; should_respond := true;
              encode := Ok [0x13; 0x89; 0x00; 0x0A] |}
           s2_frame [0x13; 0x89; 0x00; 0x0A] [58] default_pdu).
  - reflexivity.
  - reflexivity.
  - repeat constructor; lia.
Defined.

Lemma find_from_absent (d : Z) (b : bytes) (i : Z) :
  Forall (fun x => x <> d) b -> find_from [d] b i = -1.
Proof.
  intros Hb. revert i. induction Hb as [| x b Hx Hb IH]; intros i; [reflexivity |].
  cbn [find_from startswith].
  replace (d =? x) with false by (symmetry; apply Z.eqb_neq; congruence).
  cbn [andb]. apply IH.
Qed.

(** X10.  The ASCII framer resynchronises on the start character: bytes
    in front of the first [:] are dropped and [check_frame] then behaves
    exactly as on the buffer that begins at that [:].  A buffer without
    any [:] is rejected and kept whole. *)
Theorem ascii_framer_leading_garbage
    (garbage b : bytes) (h : ModbusAsciiFramer.header_t) :
  Forall (fun c => c <> 58) garbage ->
  ModbusAsciiFramer.check_frame
    {| ModbusAsciiFramer.buffer := garbage ++ 58 :: b; ModbusAsciiFramer.header := h |}
  = ModbusAsciiFramer.check_frame
      {| ModbusAsciiFramer.buffer := 58 :: b; ModbusAsciiFramer.header := h |} /\
  ModbusAsciiFramer.check_frame
    {| ModbusAsciiFramer.buffer := garbage; ModbusAsciiFramer.header := h |}
  = (Ok false, {| ModbusAsciiFramer.buffer := garbage; ModbusAsciiFramer.header := h |}).
Proof.
  intros Hg. split.
  - destruct garbage as [| g garbage]; [reflexivity |].
    unfold ModbusAsciiFramer.check_frame. run_m. cbn [ModbusAsciiFramer.buffer].
    assert (Hfind : find ((g :: garbage) ++ 58 :: b) ModbusAsciiFramer._start
                    = Py.len (g :: garbage)).
    { unfold find, ModbusAsciiFramer._start. rewrite find_from_single by exact Hg. lia. }
    assert (Hfind0 : find (58 :: b) ModbusAsciiFramer._start = 0).
    { unfold find, ModbusAsciiFramer._start. cbn [find_from startswith].
      rewrite Z.eqb_refl. reflexivity. }
    rewrite Hfind, Hfind0.
    assert (Hpos : 0 < Py.len (g :: garbage)) by (unfold Py.len; cbn [length]; lia).
    replace (Py.len (g :: garbage) =? -1) with false by (symmetry; apply Z.eqb_neq; lia).
    replace (Py.len (g :: garbage) >? 0) with true by (symmetry; apply Z.gtb_lt; lia).
    replace (0 =? -1) with false by reflexivity.
    replace (0 >? 0) with false by reflexivity.
    rewrite (slice_from_app (g :: garbage) (58 :: b)) by reflexivity.
    reflexivity.
  - unfold ModbusAsciiFramer.check_frame. run_m. cbn [ModbusAsciiFramer.buffer].
    unfold find, ModbusAsciiFramer._start. rewrite find_from_absent by exact Hg.
    reflexivity.
Qed.

Lemma ascii_framer_leading_garbage_witness :
  Forall (fun c => c <> 58) [115; 115; 115] /\
  ModbusAsciiFramer.check_frame
    {| ModbusAsciiFramer.buffer := [115; 115; 115] ++ s2_frame;
       ModbusAsciiFramer.header := ModbusAsciiFramer.empty_header |}
  = ModbusAsciiFramer.check_frame
      {| ModbusAsciiFramer.buffer := s2_frame;
         ModbusAsciiFramer.header := ModbusAsciiFramer.empty_header |}.
Proof.
  assert (Hg : Forall (fun c => c <> 58) [115; 115; 115])
    by (repeat constructor; discriminate).
  split; [exact Hg |].
  apply (ascii_framer_leading_garbage [115; 115; 115]
           [70; 55; 48; 51; 49; 51; 56; 57; 48; 48; 48; 65; 54; 48; 13; 10]
           ModbusAsciiFramer.empty_header Hg).
Defined.

(** ** The binary framer: escaping and malformed frames *)

(** X11.  [_preflight] loses no information and at most doubles the
    data: two payloads with the same escaped form are equal, and the
    escaped form is longer than the payload by exactly the number of
    delimiter bytes ([{] or [}]) in it. *)
Theorem preflight_injective_and_length (a b : bytes) :
  (ModbusBinaryFramer._preflight a = ModbusBinaryFramer._preflight b -> a = b) /\
  length (ModbusBinaryFramer._preflight a)
    = (length a + length (List.filter (contains ModbusBinaryFramer._repeat) a))%nat.
Proof.
  split.
  - revert b. induction a as [| x a IH]; intros [| y b] Heq.
    + reflexivity.
    + cbn [ModbusBinaryFramer._preflight] in Heq.
      destruct (contains ModbusBinaryFramer._repeat y); discriminate.
    + cbn [ModbusBinaryFramer._preflight] in Heq.
      destruct (contains ModbusBinaryFramer._repeat x); discriminate.
    + cbn [ModbusBinaryFramer._preflight] in Heq.
      destruct (contains ModbusBinaryFramer._repeat x) eqn:Hx;
        destruct (contains ModbusBinaryFramer._repeat y) eqn:Hy;
        inversion Heq; subst; try congruence; f_equal; apply IH; assumption.
  - induction a as [| x a IH]; [reflexivity |].
    cbn [ModbusBinaryFramer._preflight List.filter].
    destruct (contains ModbusBinaryFramer._repeat x); cbn [length]; rewrite IH; lia.
Qed.

(** X12.  A start delimiter immediately followed by an end delimiter is
    not reported as a bad frame: whatever follows and whatever the header
    was, [check_frame] of the binary framer raises [struct.error] (there
    are no two CRC bytes to unpack), after it has recorded the length 1
    and the unit id tuple in the header. *)
Theorem binary_framer_empty_frame_raises (rest : bytes) (h : ModbusBinaryFramer.header_t) :
  ModbusBinaryFramer.check_frame
    {| ModbusBinaryFramer.buffer := [0x7B; 0x7D] ++ rest; ModbusBinaryFramer.header := h |}
  = (Raise StructError,
     {| ModbusBinaryFramer.buffer := [0x7B; 0x7D] ++ rest;
        ModbusBinaryFramer.header :=
          {| ModbusBinaryFramer.h_crc := ModbusBinaryFramer.h_crc h;
             ModbusBinaryFramer.h_len := 1;
             ModbusBinaryFramer.h_uid := Tuple [0x7D] |} |}).
Proof.
  pose proof (len_nonneg rest) as Hr.
  set (buf := [0x7B; 0x7D] ++ rest).
  assert (Hlen : Py.len buf = 2 + Py.len rest) by (unfold buf; rewrite len_app; reflexivity).
  unfold ModbusBinaryFramer.check_frame. run_m. cbn [ModbusBinaryFramer.buffer].
  assert (Hstart : find buf ModbusBinaryFramer._start = 0) by reflexivity.
  assert (Hend : find buf ModbusBinaryFramer._end = 1) by reflexivity.
  rewrite Hstart. replace (0 =? -1) with false by reflexivity.
  replace (0 >? 0) with false by reflexivity.
  cbn [ModbusBinaryFramer.buffer]. rewrite Hend. cbn [Z.eqb negb].
  assert (Huid : slice buf 1 2 = [0x7D]).
  { apply (slice_of buf [0x7B] [0x7D] rest); reflexivity. }
  assert (Hcrc : slice buf (1 - 2) 1 = []).
  { unfold slice, clamp. rewrite Hlen.
    change (1 - 2 <? 0) with true. change (1 <? 0) with false. cbn iota.
    rewrite Z.max_r by lia. rewrite Z.min_l by lia.
    replace (Z.to_nat (1 - (1 - 2 + (2 + Py.len rest)))) with 0%nat by lia. reflexivity. }
  unfold ModbusBinaryFramer.unpack_B_tuple. rewrite Huid. cbn [unpack_B bind].
  rewrite Hcrc. reflexivity.
Qed.

(** X25.  The binary framer round-trips every packet in which no
    delimiter occurs: for every PDU whose unit id and function code are
    bytes, whose encoded payload holds neither 0x7B nor 0x7D, and whose
    unit id, function code and two CRC bytes are not 0x7D, [build_packet]
    succeeds, and a fresh binary framer fed with its output accepts it:
    [check_frame] returns true and [get_frame] returns the payload (the
    function code is not part of the frame), leaving the framer as
    [check_frame] left it. *)
Theorem binary_round_trip_without_delimiters (m : Message) (uid : Z) (payload : bytes) :
  unit_id (pdu m) = Int uid ->
  encode m = Ok payload ->
  0 <= uid <= 0xFF ->
  0 <= function_code m <= 0xFF ->
  Forall (fun d => d <> 0x7B /\ d <> 0x7D) payload ->
  uid <> 0x7D ->
  function_code m <> 0x7D ->
  Z.shiftr (compute_crc (uid :: function_code m :: payload)) 8 <> 0x7D ->
  Z.land (compute_crc (uid :: function_code m :: payload)) 0xFF <> 0x7D ->
  exists packet checked,
    ModbusBinaryFramer.build_packet m = Ok packet /\
    ModbusBinaryFramer.check_frame (binary_feed packet) = (Ok true, checked) /\
    ModbusBinaryFramer.get_frame checked = (Ok payload, checked).
Proof.
  intros Huid Henc Hu Hf Hplain Hu' Hf' Hk1 Hk0.
  set (crc := compute_crc (uid :: function_code m :: payload)) in *.
  assert (Hbody : Forall (fun x => x <> 0x7D) (uid :: function_code m :: payload)).
  { constructor; [exact Hu' |]. constructor; [exact Hf' |].
    eapply Forall_impl; [exact Hplain |]. intros d [_ Hd]. exact Hd. }
  destruct (binary_ingest uid (function_code m) payload Hbody Hk1 Hk0)
    as (checked & Hcheck & Hframe).
  exists (0x7B :: uid :: function_code m :: payload
            ++ [Z.shiftr crc 8; Z.land crc 0xFF; 0x7D]), checked.
  split; [| split; [exact Hcheck | exact Hframe]].
  unfold ModbusBinaryFramer.build_packet.
  rewrite Henc, Huid. cbn [bind]. rewrite preflight_plain by exact Hplain.
  unfold pack_B_value, pack_B, pack_H.
  replace ((0 <=? uid) && (uid <=? 0xFF)) with true
    by (symmetry; apply andb_true_iff; split; apply Z.leb_le; lia).
  replace ((0 <=? function_code m) && (function_code m <=? 0xFF)) with true
    by (symmetry; apply andb_true_iff; split; apply Z.leb_le; lia).
  cbn [bind app]. fold crc.
  pose proof (compute_crc_range (uid :: function_code m :: payload)) as Hr. fold crc in Hr.
  replace ((0 <=? crc) && (crc <=? 0xFFFF)) with true
    by (symmetry; apply andb_true_iff; split; apply Z.leb_le; lia).
  cbn [bind]. unfold ModbusBinaryFramer._start, ModbusBinaryFramer._end.
  cbn [app]. rewrite <- app_assoc. reflexivity.
Qed.

Lemma binary_round_trip_without_delimiters_witness :
  Forall (fun d => d <> 0x7B /\ d <> 0x7D) [0; 0; 0; 5] /\
  exists packet checked,
    ModbusBinaryFramer.build_packet s4_message = Ok packet /\
    ModbusBinaryFramer.check_frame (binary_feed packet) = (Ok true, checked) /\
    ModbusBinaryFramer.get_frame checked = (Ok [0; 0; 0; 5], checked).
Proof.
  assert (Hplain : Forall (fun d => d <> 0x7B /\ d <> 0x7D) [0; 0; 0; 5])
    by (repeat constructor; discriminate).
  split; [exact Hplain |].
  apply (binary_round_trip_without_delimiters s4_message 1 [0; 0; 0; 5]).
  - reflexivity.
  - reflexivity.
  - simpl. lia.
  - simpl. lia.
  - exact Hplain.
  - discriminate.
  - discriminate.
  - vm_compute. discriminate.
  - vm_compute. discriminate.
Defined.

(** ** The bit-read PDUs *)

Lemma read_bits_encode_then_decode (r r0 : ReadBitsRequestBase) :
  0 <= address r <= 0xFFFF -> 0 <= count r <= 0xFFFF ->
  exists data,
    ReadBitsRequestBase_encode r = Ok data /\ Py.len data = 4 /\
    ReadBitsRequestBase_decode r0 data
      = Ok {| rq_pdu := rq_pdu r0; address := address r; count := count r |}.
Proof.
  intros Ha Hc. unfold ReadBitsRequestBase_encode.
  destruct (pack_H (address r)) as [a |] eqn:Hpa.
  2:{ unfold pack_H in Hpa.
      replace ((0 <=? address r) && (address r <=? 0xFFFF)) with true in Hpa
        by (symmetry; apply andb_true_iff; split; apply Z.leb_le; lia).
      discriminate. }
  destruct (pack_H (count r)) as [c |] eqn:Hpc.
  2:{ unfold pack_H in Hpc.
      replace ((0 <=? count r) && (count r <=? 0xFFFF)) with true in Hpc
        by (symmetry; apply andb_true_iff; split; apply Z.leb_le; lia).
      discriminate. }
  apply pack_H_inv in Hpa as (_ & -> & Hpa), Hpc as (_ & -> & Hpc).
  eexists. split; [reflexivity |]. split; [reflexivity |].
  cbn [app ReadBitsRequestBase_decode]. rewrite Hpa, Hpc. reflexivity.
Qed.

(** X13.  A bit-read request whose address and count fit 16 bits encodes
    to four bytes from which [decode] recovers exactly that address and
    count; with a field outside [0, 0xFFFF], [encode] raises
    [struct.error]. *)
Theorem read_bits_request_encode_decode (r r0 : ReadBitsRequestBase) :
  (0 <= address r <= 0xFFFF /\ 0 <= count r <= 0xFFFF ->
   exists data,
     ReadBitsRequestBase_encode r = Ok data /\ Py.len data = 4 /\
     ReadBitsRequestBase_decode r0 data
       = Ok {| rq_pdu := rq_pdu r0; address := address r; count := count r |}) /\
  (~ (0 <= address r <= 0xFFFF /\ 0 <= count r <= 0xFFFF) ->
   ReadBitsRequestBase_encode r = Raise StructError).
Proof.
  split.
  - intros [Ha Hc]. exact (read_bits_encode_then_decode r r0 Ha Hc).
  - intros Hout. unfold ReadBitsRequestBase_encode, pack_H.
    destruct ((0 <=? address r) && (address r <=? 0xFFFF)) eqn:Ha; [| reflexivity].
    destruct ((0 <=? count r) && (count r <=? 0xFFFF)) eqn:Hc; [| reflexivity].
    apply andb_true_iff in Ha as [Ha1 Ha2], Hc as [Hc1 Hc2].
    apply Z.leb_le in Ha1, Ha2, Hc1, Hc2. lia.
Qed.

Lemma read_bits_request_encode_decode_witness :
  exists data,
    ReadBitsRequestBase_encode s1_request = Ok data /\ Py.len data = 4 /\
    ReadBitsRequestBase_decode {| rq_pdu := default_pdu; address := 0; count := 0 |} data
      = Ok {| rq_pdu := default_pdu; address := 1; count := 1 |}.
Proof.
  apply (read_bits_request_encode_decode s1_request
           {| rq_pdu := default_pdu; address := 0; count := 0 |}).
  simpl. lia.
Defined.

(** X14.  A ReadCoils or ReadDiscreteInputs request with 16-bit fields
    and a byte as unit id survives the RTU wire: [build_packet] yields
    exactly [_rtu_frame_size] (8) bytes, a fresh RTU framer using that
    fixed frame size accepts them, and decoding what follows the function
    code in [get_frame] returns the request's address and count. *)
Theorem read_bits_request_over_rtu (r r0 : ReadBitsRequestBase) (uid function_code : Z) :
  function_code = ReadCoilsRequest.function_code \/
  function_code = ReadDiscreteInputsRequest.function_code ->
  unit_id (rq_pdu r) = Int uid -> 0 <= uid <= 0xFF ->
  0 <= address r <= 0xFFFF -> 0 <= count r <= 0xFFFF ->
  let m := {| pdu := rq_pdu r; Pdu.function_code := function_code;
              should_respond := true; encode := ReadBitsRequestBase_encode r |} in
  exists packet checked frame,
    ModbusRtuFramer.build_packet m = Ok packet /\
    Py.len packet = _rtu_frame_size /\
    ModbusRtuFramer.check_frame
      (fun _ => calculate_rtu_frame_size (FixedSize _rtu_frame_size))
      (snd (ModbusRtuFramer.add_to_frame packet ModbusRtuFramer.init))
      = (Ok true, checked) /\
    ModbusRtuFramer.get_frame checked = (Ok frame, checked) /\
    getitem frame 0 = Ok function_code /\
    ReadBitsRequestBase_decode r0 (slice_from frame 1)
      = Ok {| rq_pdu := rq_pdu r0; address := address r; count := count r |}.
Proof.
  intros Hfc Huid Hu Ha Hc m.
  destruct (read_bits_encode_then_decode r r0 Ha Hc) as (data & Henc & Hlen & Hdec).
  assert (Hfcr : 0 <= function_code <= 0xFF).
  { destruct Hfc as [-> | ->]; vm_compute; split; discriminate. }
  assert (Hbuild : exists packet, ModbusRtuFramer.build_packet m = Ok packet /\
                                  Py.len packet = 8).
  { unfold ModbusRtuFramer.build_packet, m. cbn [encode pdu Pdu.function_code].
    rewrite Henc, Huid. cbn [bind pack_B_value]. unfold pack_B.
    replace ((0 <=? uid) && (uid <=? 0xFF)) with true
      by (symmetry; apply andb_true_iff; split; apply Z.leb_le; lia).
    replace ((0 <=? function_code) && (function_code <=? 0xFF)) with true
      by (symmetry; apply andb_true_iff; split; apply Z.leb_le; lia).
    cbn [bind app]. unfold pack_H.
    pose proof (compute_crc_range (uid :: function_code :: data)) as Hr.
    replace ((0 <=? compute_crc (uid :: function_code :: data))
             && (compute_crc (uid :: function_code :: data) <=? 0xFFFF)) with true
      by (symmetry; apply andb_true_iff; split; apply Z.leb_le; lia).
    cbn [bind]. eexists. split; [reflexivity |].
    unfold Py.len in *. cbn [length]. rewrite length_app. cbn [length]. lia. }
  destruct Hbuild as (packet & Hbuild & Hplen).
  assert (Hsize : (fun _ => calculate_rtu_frame_size (FixedSize _rtu_frame_size))
                    (Pdu.function_code m) (packet ++ []) = Ok (Py.len packet)).
  { cbn [calculate_rtu_frame_size]. rewrite Hplen. reflexivity. }
  destruct (rtu_frame_cycle
              (fun _ => calculate_rtu_frame_size (FixedSize _rtu_frame_size))
              m packet [] default_pdu Hbuild Hsize)
    as (data' & checked & Henc' & Hcheck & Hframe & _).
  cbn [encode m] in Henc'. rewrite Henc in Henc'. injection Henc' as <-.
  rewrite app_nil_r in Hcheck.
  exists packet, checked, (function_code :: data).
  split; [exact Hbuild |]. split; [exact Hplen |]. split; [exact Hcheck |].
  split; [exact Hframe |]. split.
  - pose proof (len_nonneg data). unfold getitem, Py.len. cbn [length].
    replace (0 <? 0) with false by reflexivity.
    replace (Z.of_nat (S (length data)) <=? 0) with false
      by (symmetry; apply Z.leb_gt; lia).
    reflexivity.
  - replace (slice_from (function_code :: data) 1) with data; [exact Hdec |].
    symmetry. apply (slice_from_app [function_code] data). reflexivity.
Qed.

Lemma read_bits_request_over_rtu_witness :
  exists packet checked frame,
    ModbusRtuFramer.build_packet
      {| pdu := default_pdu; function_code := 2; should_respond := true;
         encode := ReadBitsRequestBase_encode
                     {| rq_pdu := default_pdu; address := 7; count := 9 |} |} = Ok packet /\
    Py.len packet = _rtu_frame_size /\
    ModbusRtuFramer.check_frame
      (fun _ => calculate_rtu_frame_size (FixedSize _rtu_frame_size))
      (snd (ModbusRtuFramer.add_to_frame packet ModbusRtuFramer.init))
      = (Ok true, checked) /\
    ModbusRtuFramer.get_frame checked = (Ok frame, checked) /\
    getitem frame 0 = Ok 2 /\
    ReadBitsRequestBase_decode {| rq_pdu := default_pdu; address := 0; count := 0 |}
      (slice_from frame 1)
      = Ok {| rq_pdu := default_pdu; address := 7; count := 9 |}.
Proof.
  apply (read_bits_request_over_rtu
           {| rq_pdu := default_pdu; address := 7; count := 9 |}
           {| rq_pdu := default_pdu; address := 0; count := 0 |} 0 2).
  - right. reflexivity.
  - reflexivity.
  - lia.
  - simpl. lia.
  - simpl. lia.
Defined.

(** X15.  [ReadDiscreteInputsRequest.execute] follows the same order of
    checks as the coil request with function code 2, and never reads the
    datastore on its own authority: [get_values] is called only for the
    request's own address and count, only with the count in
    [1, 0x7D0], and only after [validate] returned true; a normal
    response carries exactly the values [get_values] returned; an
    exception raised by the datastore propagates. *)
Theorem read_discrete_inputs_execute_discipline (r : ReadBitsRequestBase) (context : Context) :
  let outcome := fst (ReadDiscreteInputsRequest.execute r context) in
  let log := snd (ReadDiscreteInputsRequest.execute r context) in
  (forall fx a c, In (GetValues fx a c) log ->
     (fx, a, c) = (2, address r, count r) /\
     1 <= count r <= 0x7D0 /\
     validate context 2 (address r) (count r) = Ok true) /\
  (forall b, outcome = Ok (Bits b) ->
     get_values context 2 (address r) (count r) = Ok (bits b) /\
     log = [Validate 2 (address r) (count r); GetValues 2 (address r) (count r)]) /\
  (forall e, outcome = Ok (Exception e) ->
     er_function_code e = 0x82 /\
     (exception_code e = 3 /\ ~ (1 <= count r <= 0x7D0) /\ log = [] \/
      exception_code e = 2 /\ validate context 2 (address r) (count r) = Ok false)) /\
  (forall e, outcome = Raise e ->
     validate context 2 (address r) (count r) = Raise e \/
     get_values context 2 (address r) (count r) = Raise e).
Proof.
  unfold ReadDiscreteInputsRequest.execute, ReadDiscreteInputsRequest.function_code.
  destruct ((1 <=? count r) && (count r <=? 0x7d0)) eqn:Hrange; cbn [negb].
  - apply andb_true_iff in Hrange as [H1 H2]. apply Z.leb_le in H1, H2.
    destruct (validate context 2 (address r) (count r)) as [[|] | ev] eqn:Hv;
      [destruct (get_values context 2 (address r) (count r)) as [values | eg] eqn:Hg | |];
      cbn [fst snd app]; (split; [| split; [| split]]).
    all: try (intros fx a c [Hin | [Hin | []]]; inversion Hin; subst; repeat split; lia).
    all: try (intros fx a c [Hin | []]; inversion Hin).
    all: try (intros b [= <-]; split; reflexivity).
    all: try (intros b Hb; discriminate Hb).
    all: try (intros e [= <-]; split; [reflexivity |]; right; split; reflexivity).
    all: try (intros e [= <-]; (left; reflexivity) || (right; reflexivity)).
  - cbn [fst snd]. split; [| split; [| split]].
    + intros fx a c [].
    + intros b Hb. discriminate Hb.
    + intros e [= <-]. split; [reflexivity |]. left. split; [reflexivity |].
      split; [| reflexivity].
      intros [H1 H2]. apply Z.leb_le in H1, H2. rewrite H1, H2 in Hrange. discriminate.
    + intros e He. discriminate He.
Qed.

Lemma nth_error_lookup_list {A : Type} (l : list A) (k : nat) : nth_error l k = l !! k.
Proof.
  revert k. induction l as [| x l IH]; intros [| k]; cbn; auto.
Qed.

Lemma list_setitem_getitem {A : Type} (l : list A) (a : Z) (x : A) :
  - Z.of_nat (length l) <= a < Z.of_nat (length l) ->
  exists l',
    list_setitem l a x = Ok l' /\ length l' = length l /\ list_getitem l' a = Ok x.
Proof.
  intros Ha. unfold list_setitem, list_getitem, list_index.
  set (n := Z.of_nat (length l)) in *.
  set (k := if a <? 0 then a + n else a).
  assert (Hk : 0 <= k < n) by (unfold k; destruct (Z.ltb_spec a 0); lia).
  assert (Hin : (k <? 0) || (n <=? k) = false).
  { apply orb_false_iff. split; [apply Z.ltb_ge | apply Z.leb_gt]; lia. }
  rewrite Hin. cbn [bind]. exists (<[Z.to_nat k := x]> l).
  split; [reflexivity |]. split; [apply length_insert |].
  rewrite length_insert. fold n. fold k. rewrite Hin. cbn [bind].
  rewrite nth_error_lookup_list, list_lookup_insert_eq by (unfold n in Hk; lia).
  reflexivity.
Qed.

(** X16.  On a bit response, for an address that denotes a position of
    [bits] (from [-len] to [len - 1], negative ones counting from the
    end), [set_bit] succeeds, keeps the number of bits, and [get_bit] at
    that address then returns whether the value was non-zero, [reset_bit]
    making it false; for any other address both [set_bit] and [get_bit]
    raise [IndexError] and nothing is extended. *)
Theorem read_bits_response_set_get (r : ReadBitsResponseBase) (a v : Z) :
  let n := Z.of_nat (length (bits r)) in
  (- n <= a < n ->
   exists r' r'',
     set_bit r a v = Ok r' /\
     length (bits r') = length (bits r) /\
     get_bit r' a = Ok (negb (v =? 0)) /\
     reset_bit r a = Ok r'' /\
     get_bit r'' a = Ok false) /\
  (a < - n \/ n <= a ->
   set_bit r a v = Raise IndexError /\ get_bit r a = Raise IndexError).
Proof.
  intros n. split.
  - intros Ha.
    destruct (list_setitem_getitem (bits r) a (negb (v =? 0)) Ha) as (l1 & Hs1 & Hl1 & Hg1).
    destruct (list_setitem_getitem (bits r) a (negb (0 =? 0)) Ha) as (l2 & Hs2 & Hl2 & Hg2).
    exists {| rs_pdu := rs_pdu r; bits := l1 |}, {| rs_pdu := rs_pdu r; bits := l2 |}.
    unfold reset_bit, set_bit, get_bit. rewrite Hs1, Hs2. cbn [bind bits].
    repeat split; assumption.
  - intros Ha. unfold set_bit, get_bit, list_setitem, list_getitem, list_index. fold n.
    set (k := if a <? 0 then a + n else a).
    assert (Hk : k < 0 \/ n <= k) by (unfold k; destruct (Z.ltb_spec a 0); lia).
    replace ((k <? 0) || (n <=? k)) with true.
    2:{ symmetry. apply orb_true_iff. destruct Hk; [left; apply Z.ltb_lt | right; apply Z.leb_le]; lia. }
    split; reflexivity.
Qed.

Lemma read_bits_response_set_get_witness :
  let r := {| rs_pdu := default_pdu; bits := [false; false; false] |} in
  exists r' r'',
    set_bit r (-1) 5 = Ok r' /\
    length (bits r') = length (bits r) /\
    get_bit r' (-1) = Ok (negb (5 =? 0)) /\
    reset_bit r (-1) = Ok r'' /\
    get_bit r'' (-1) = Ok false.
Proof.
  apply (read_bits_response_set_get
           {| rs_pdu := default_pdu; bits := [false; false; false] |} (-1) 5).
  simpl. lia.
Defined.

(** ** The decoders on codes they do not know and on short packets *)

Lemma getitem_head (x : Z) (l : bytes) : getitem (x :: l) 0 = Ok x.
Proof.
  unfold getitem, Py.len. cbn [length].
  replace (0 <? 0) with false by reflexivity.
  replace (Z.of_nat (S (length l)) <=? 0) with false by (symmetry; apply Z.leb_gt; lia).
  reflexivity.
Qed.

Lemma slice_from_tail (x : Z) (l : bytes) : slice_from (x :: l) 1 = l.
Proof. apply (slice_from_app [x] l). reflexivity. Qed.

(** X17.  The client decoder turns an unknown function code into "no
    message", not into an error: for every packet whose first byte is at
    most 0x80 and is not a registered function code, whatever the
    registered classes do, [_helper] raises [ModbusException] and
    [decode] returns [None]. *)
Theorem client_decode_unknown_code {B : Type}
    (construct : Z -> B) (decode_body : Z -> B -> bytes -> result B) (rewrap : Z -> B -> B)
    (function_code : Z) (payload : bytes) :
  function_code <= 0x80 ->
  contains Factory.function_table function_code = false ->
  Factory._helper construct decode_body rewrap (function_code :: payload)
    = Raise ModbusException /\
  Factory.decode construct decode_body rewrap (function_code :: payload) = Ok None.
Proof.
  intros Hle Hunknown.
  assert (Hhelper : Factory._helper construct decode_body rewrap (function_code :: payload)
                    = Raise ModbusException).
  { unfold Factory._helper. rewrite getitem_head. cbn [bind].
    replace (function_code >? 0x80) with false
      by (symmetry; destruct (Z.gtb_spec function_code 0x80); [lia | reflexivity]).
    unfold Factory.lookup. rewrite Hunknown. reflexivity. }
  split; [exact Hhelper |]. unfold Factory.decode. rewrite Hhelper. reflexivity.
Qed.

Lemma client_decode_unknown_code_witness :
  0x80 <= 0x80 /\
  contains Factory.function_table 0x80 = false /\
  Factory.decode (fun _ => tt) (fun _ b _ => Ok b) (fun _ b => b) [0x80; 0x02] = Ok None.
Proof.
  split; [lia |]. split; [reflexivity |].
  apply (client_decode_unknown_code (fun _ => tt) (fun _ b _ => Ok b) (fun _ b => b)
           0x80 [0x02]); [lia | reflexivity].
Defined.

Lemma registered_code_below_0x80 (function_code : Z) :
  contains Factory.function_table function_code = true -> function_code < 0x80.
Proof.
  unfold contains, Factory.function_table. cbn [existsb].
  rewrite !orb_true_iff, !Z.eqb_eq. intros H.
  repeat destruct H as [H | H]; lia || discriminate.
Qed.

(** X18.  [decode] of the client decoder absorbs [ModbusException] and
    nothing else.  For a packet that starts with a registered function
    code, the outcome follows the registered class's own [decode] of the
    payload: its result comes back (after the sub-function step), a
    [ModbusException] it raises is turned into [None], and any other
    exception it raises escapes from [decode].  On the empty packet the
    read of the function code raises [IndexError], which escapes as
    well. *)
Theorem client_decode_absorbs_only_modbus_exception {B : Type}
    (construct : Z -> B) (decode_body : Z -> B -> bytes -> result B) (rewrap : Z -> B -> B)
    (function_code : Z) (payload : bytes) :
  contains Factory.function_table function_code = true ->
  let body := decode_body function_code (construct function_code) payload in
  let decoded := Factory.decode construct decode_body rewrap (function_code :: payload) in
  (forall b, body = Ok b ->
     decoded = Ok (Some (Factory.Registered function_code (rewrap function_code b)))) /\
  (body = Raise ModbusException -> decoded = Ok None) /\
  (forall e, body = Raise e -> e <> ModbusException -> decoded = Raise e) /\
  Factory.decode construct decode_body rewrap [] = Raise IndexError.
Proof.
  intros Hreg. cbn zeta.
  pose proof (registered_code_below_0x80 function_code Hreg) as Hlt.
  assert (Hhelper : Factory._helper construct decode_body rewrap (function_code :: payload)
                    = let! b := decode_body function_code (construct function_code) payload in
                      Ok (Factory.Registered function_code (rewrap function_code b))).
  { unfold Factory._helper. rewrite getitem_head. cbn [bind].
    replace (function_code >? 0x80) with false
      by (symmetry; destruct (Z.gtb_spec function_code 0x80); [lia | reflexivity]).
    unfold Factory.lookup. rewrite Hreg. rewrite slice_from_tail.
    cbn [Factory.response_decode].
    destruct (decode_body function_code (construct function_code) payload); reflexivity. }
  unfold Factory.decode. rewrite Hhelper.
  repeat split.
  - intros b ->. reflexivity.
  - intros ->. reflexivity.
  - intros e -> He. destruct e; try reflexivity. congruence.
Qed.

Lemma client_decode_absorbs_only_modbus_exception_witness :
  let decode_body : Z -> bytes -> bytes -> result bytes :=
    fun _ _ data =>
      match data with
      | [] => Raise StructError
      | 0 :: _ => Raise ModbusException
      | _ => Ok data
      end in
  contains Factory.function_table 1 = true /\
  Factory.decode (fun _ => []) decode_body (fun _ b => b) [1; 1; 5]
    = Ok (Some (Factory.Registered 1 [1; 5])) /\
  Factory.decode (fun _ => []) decode_body (fun _ b => b) [1; 0] = Ok None /\
  Factory.decode (fun _ => []) decode_body (fun _ b => b) [1] = Raise StructError.
Proof.
  cbv zeta.
  pose (decode_body := fun (_ : Z) (_ data : bytes) =>
                         match data with
                         | [] => Raise StructError
                         | 0 :: _ => Raise ModbusException
                         | _ => Ok data
                         end : result bytes).
  split; [reflexivity |]. split; [| split].
  - apply (client_decode_absorbs_only_modbus_exception
             (fun _ => []) decode_body (fun _ b => b) 1 [1; 5]); reflexivity.
  - apply (client_decode_absorbs_only_modbus_exception
             (fun _ => []) decode_body (fun _ b => b) 1 [0]); reflexivity.
  - apply (client_decode_absorbs_only_modbus_exception
             (fun _ => []) decode_body (fun _ b => b) 1 []); [reflexivity .. | discriminate].
Defined.

(** X19.  The server decoder never rejects a function code: for every
    non-empty packet whose first byte is not a registered function code,
    whatever the payload and the registered classes, [_helper] and
    [decode] return an [IllegalFunctionRequest] for that code; only the
    empty packet makes it raise ([IndexError], which [decode] lets
    through). *)
Theorem server_decode_unknown_code {B : Type}
    (construct : Z -> B) (decode_body : Z -> B -> bytes -> result B) (rewrap : Z -> B -> B)
    (function_code : Z) (payload : bytes) :
  (contains Factory.server_function_table function_code = false ->
   Factory.server_helper construct decode_body rewrap (function_code :: payload)
     = Ok (Factory.IllegalFunctionRequest function_code) /\
   Factory.server_decode construct decode_body rewrap (function_code :: payload)
     = Ok (Some (Factory.IllegalFunctionRequest function_code))) /\
  Factory.server_decode construct decode_body rewrap [] = Raise IndexError.
Proof.
  split; [| reflexivity].
  intros Hunknown.
  assert (Hhelper : Factory.server_helper construct decode_body rewrap
                      (function_code :: payload)
                    = Ok (Factory.IllegalFunctionRequest function_code)).
  { unfold Factory.server_helper. rewrite getitem_head. cbn [bind].
    unfold Factory.server_lookup. rewrite Hunknown. reflexivity. }
  split; [exact Hhelper |]. unfold Factory.server_decode. rewrite Hhelper. reflexivity.
Qed.

(** ** The packet processing loop over the MBAP framer *)

Lemma socket_packet_nonempty (m : Message) (packet : bytes) :
  ModbusSocketFramer.build_packet m = Ok packet -> (8 <= length packet)%nat.
Proof.
  intros Hbuild.
  destruct (socket_build_packet_inv m packet Hbuild) as (data & uid & _ & _ & _ & _ & Hp & H7).
  rewrite Hp, length_app, H7. cbn [length]. lia.
Qed.

(** One turn of the loop on a buffer that begins with a whole packet:
    the decoded message gets the header of the packet, the frame is
    consumed, the callback runs, and the loop goes on with the rest. *)
Lemma process_loop_frame {C R : Type}
    (decode : bytes -> result (option R)) (header_of : R -> ModbusPDU)
    (with_header : ModbusPDU -> R -> R) (callback : R -> M C unit)
    (m : Message) (packet data rest : bytes) (decoded : R)
    (h : ModbusSocketFramer.header_t) (c c' : C) (fuel : nat) :
  ModbusSocketFramer.build_packet m = Ok packet ->
  encode m = Ok data ->
  decode (function_code m :: data) = Ok (Some decoded) ->
  callback (with_header (pdu m) decoded) c = (Ok tt, c') ->
  Interfaces.process_loop Interfaces.socket_framer decode header_of with_header callback
    (S fuel)
    ({| ModbusSocketFramer.buffer := packet ++ rest; ModbusSocketFramer.header := h |}, c)
  = Interfaces.process_loop Interfaces.socket_framer decode header_of with_header callback
      fuel
      ({| ModbusSocketFramer.buffer := rest;
          ModbusSocketFramer.header := ModbusSocketFramer.empty_header |}, c').
Proof.
  intros Hbuild Henc Hdec Hcb.
  destruct (socket_frame_cycle m packet rest (header_of decoded) h Hbuild)
    as (data' & checked & Henc' & Hready & Hcheck & Hframe & Hpop & Hadv).
  rewrite Henc in Henc'. injection Henc' as <-.
  cbn [Interfaces.process_loop fst snd Interfaces.socket_framer Interfaces.is_frame_ready
       Interfaces.check_frame Interfaces.get_frame Interfaces.populate_result
       Interfaces.advance_frame].
  rewrite Hready, Hcheck, Hframe, Hdec, Hpop, Hadv, Hcb. reflexivity.
Qed.

Lemma process_incoming_socket_nonempty {C R : Type}
    (decode : bytes -> result (option R)) (header_of : R -> ModbusPDU)
    (with_header : ModbusPDU -> R -> R) (callback : R -> M C unit)
    (fuel : nat) (data : bytes) (f : ModbusSocketFramer.t) (c : C) :
  (0 < length data)%nat ->
  Interfaces.process_incoming_packet Interfaces.socket_framer decode header_of
    with_header callback fuel data (f, c)
  = Interfaces.process_loop Interfaces.socket_framer decode header_of with_header callback
      fuel ({| ModbusSocketFramer.buffer := ModbusSocketFramer.buffer f ++ data;
               ModbusSocketFramer.header := ModbusSocketFramer.header f |}, c).
Proof.
  intros Hlen. destruct data as [| x l]; [cbn in Hlen; lia | reflexivity].
Qed.

(** X20.  The loop delivers complete packets wherever the stream is cut.
    When two packets built by [build_packet] arrive as the first packet
    plus a proper prefix of the second, [process_incoming_packet] calls
    the callback once, with the first decoded message carrying the first
    packet's header, and keeps exactly the prefix buffered; when the
    remainder arrives, it calls the callback with the second message and
    its header and leaves the buffer empty.  Two loop turns suffice each
    time. *)
Theorem socket_stream_split {C R : Type}
    (decode : bytes -> result (option R)) (header_of : R -> ModbusPDU)
    (with_header : ModbusPDU -> R -> R) (callback : R -> M C unit)
    (m1 m2 : Message) (p1 p2 d1 d2 : bytes) (r1 r2 : R) (c c1 c2 : C)
    (n fuel : nat) :
  ModbusSocketFramer.build_packet m1 = Ok p1 ->
  ModbusSocketFramer.build_packet m2 = Ok p2 ->
  encode m1 = Ok d1 -> encode m2 = Ok d2 ->
  decode (function_code m1 :: d1) = Ok (Some r1) ->
  decode (function_code m2 :: d2) = Ok (Some r2) ->
  callback (with_header (pdu m1) r1) c = (Ok tt, c1) ->
  callback (with_header (pdu m2) r2) c1 = (Ok tt, c2) ->
  (n < length p2)%nat ->
  let process :=
    Interfaces.process_incoming_packet Interfaces.socket_framer decode header_of
      with_header callback (S (S fuel)) in
  exists f1,
    process (p1 ++ take n p2) (ModbusSocketFramer.init, c) = Some (Ok tt, (f1, c1)) /\
    ModbusSocketFramer.buffer f1 = take n p2 /\
    process (drop n p2) (f1, c1)
      = Some (Ok tt, ({| ModbusSocketFramer.buffer := [];
                         ModbusSocketFramer.header := ModbusSocketFramer.empty_header |},
                      c2)).
Proof.
  intros Hb1 Hb2 He1 He2 Hd1 Hd2 Hc1 Hc2 Hn process.
  pose proof (socket_packet_nonempty m1 p1 Hb1) as Hl1.
  set (rest1 := {| ModbusSocketFramer.buffer := take n p2;
                   ModbusSocketFramer.header := ModbusSocketFramer.empty_header |}).
  (* what the loop does with the buffered prefix *)
  assert (Hprefix : exists f1,
            Interfaces.process_loop Interfaces.socket_framer decode header_of with_header
              callback (S fuel) (rest1, c1) = Some (Ok tt, (f1, c1)) /\
            ModbusSocketFramer.buffer f1 = take n p2).
  { cbn [Interfaces.process_loop fst snd Interfaces.socket_framer Interfaces.is_frame_ready
         Interfaces.check_frame].
    destruct (ModbusSocketFramer.is_frame_ready rest1) eqn:Hready.
    - destruct (socket_prefix_rejected m2 p2 n ModbusSocketFramer.empty_header Hb2 Hn)
        as [Hfalse Hbuf]. fold rest1 in Hfalse, Hbuf.
      destruct (ModbusSocketFramer.check_frame rest1) as [res f1].
      cbn [fst snd] in Hfalse, Hbuf. subst res. eauto.
    - eauto. }
  destruct Hprefix as (f1 & Hloop1 & Hbuf1).
  exists f1. split; [| split; [exact Hbuf1 |]].
  - unfold process. rewrite process_incoming_socket_nonempty
      by (rewrite length_app; lia).
    cbn [ModbusSocketFramer.init ModbusSocketFramer.buffer ModbusSocketFramer.header app].
    rewrite (process_loop_frame decode header_of with_header callback m1 p1 d1
               (take n p2) r1 ModbusSocketFramer.empty_header c c1 (S fuel) Hb1 He1 Hd1 Hc1).
    exact Hloop1.
  - unfold process. rewrite process_incoming_socket_nonempty
      by (rewrite length_drop; lia).
    rewrite Hbuf1, take_drop.
    rewrite <- (app_nil_r p2) at 1.
    rewrite (process_loop_frame decode header_of with_header callback m2 p2 d2
               [] r2 (ModbusSocketFramer.header f1) c1 c2 (S fuel) Hb2 He2 Hd2 Hc2).
    reflexivity.
Qed.

Lemma socket_stream_split_witness :
  let decode := fun frame : bytes => Ok (Some (default_pdu, frame)) in
  let callback := fun (r : ModbusPDU * bytes) (log : list (ModbusPDU * bytes)) =>
                    (Ok tt, log ++ [r]) in
  let process :=
    Interfaces.process_incoming_packet Interfaces.socket_framer decode fst
      (fun h r => (h, snd r)) callback 2 in
  exists f1,
    process (s1_packet ++ take 3 s1_packet) (ModbusSocketFramer.init, [])
      = Some (Ok tt, (f1, [(rq_pdu s1_request, [1; 0; 1; 0; 1])])) /\
    ModbusSocketFramer.buffer f1 = take 3 s1_packet /\
    process (drop 3 s1_packet) (f1, [(rq_pdu s1_request, [1; 0; 1; 0; 1])])
      = Some (Ok tt, ({| ModbusSocketFramer.buffer := [];
                         ModbusSocketFramer.header := ModbusSocketFramer.empty_header |},
                      [(rq_pdu s1_request, [1; 0; 1; 0; 1]);
                       (rq_pdu s1_request, [1; 0; 1; 0; 1])])).
Proof.
  apply (socket_stream_split
           (fun frame : bytes => Ok (Some (default_pdu, frame))) fst
           (fun h r => (h, snd r))
           (fun (r : ModbusPDU * bytes) (log : list (ModbusPDU * bytes)) =>
              (Ok tt, log ++ [r]))
           (ReadCoilsRequest.message s1_request) (ReadCoilsRequest.message s1_request)
           s1_packet s1_packet [0; 1; 0; 1] [0; 1; 0; 1]
           (default_pdu, [1; 0; 1; 0; 1]) (default_pdu, [1; 0; 1; 0; 1])
           [] [(rq_pdu s1_request, [1; 0; 1; 0; 1])]
           [(rq_pdu s1_request, [1; 0; 1; 0; 1]); (rq_pdu s1_request, [1; 0; 1; 0; 1])]
           3 0); try reflexivity.
  vm_compute. lia.
Defined.

Lemma socket_check_frame_accepts_in_place (f f' : ModbusSocketFramer.t) :
  ModbusSocketFramer.check_frame f = (Ok true, f') ->
  ModbusSocketFramer.buffer f' = ModbusSocketFramer.buffer f.
Proof.
  unfold ModbusSocketFramer.check_frame. run_m. intros Hcheck.
  break_hyp Hcheck; inversion Hcheck; subst; reflexivity.
Qed.

(** X21.  A frame that the decoder cannot decode stops the loop with the
    I/O error and is not skipped: when the decoder returns [None] for the
    frame of a well-formed packet, [process_incoming_packet] raises, the
    callback is not called, and the whole packet is still at the front of
    the buffer. *)
Theorem socket_undecodable_frame_stays {C R : Type}
    (decode : bytes -> result (option R)) (header_of : R -> ModbusPDU)
    (with_header : ModbusPDU -> R -> R) (callback : R -> M C unit)
    (m : Message) (packet data rest : bytes) (c : C) (fuel : nat) :
  ModbusSocketFramer.build_packet m = Ok packet ->
  encode m = Ok data ->
  decode (function_code m :: data) = Ok None ->
  exists f,
    Interfaces.process_incoming_packet Interfaces.socket_framer decode header_of
      with_header callback (S fuel) (packet ++ rest) (ModbusSocketFramer.init, c)
    = Some (Raise ModbusException, (f, c)) /\
    ModbusSocketFramer.buffer f = packet ++ rest.
Proof.
  intros Hbuild Henc Hdec.
  pose proof (socket_packet_nonempty m packet Hbuild) as Hl.
  destruct (socket_build_packet_inv m packet Hbuild)
    as (data' & uid & Henc' & Huid & Hlen & Hhdr & Hpacket & H7).
  destruct (socket_frame_cycle m packet rest default_pdu ModbusSocketFramer.empty_header Hbuild)
    as (data'' & checked & Henc'' & Hready & Hcheck & Hframe & _).
  rewrite Henc in Henc''. injection Henc'' as <-.
  exists checked. split.
  - rewrite process_incoming_socket_nonempty by (rewrite length_app; lia).
    cbn [ModbusSocketFramer.init ModbusSocketFramer.buffer ModbusSocketFramer.header app
         Interfaces.process_loop fst snd Interfaces.socket_framer Interfaces.is_frame_ready
         Interfaces.check_frame Interfaces.get_frame].
    rewrite Hready, Hcheck, Hframe, Hdec. reflexivity.
  - apply socket_check_frame_accepts_in_place in Hcheck. exact Hcheck.
Qed.

Lemma socket_undecodable_frame_stays_witness :
  exists f,
    Interfaces.process_incoming_packet Interfaces.socket_framer
      (fun _ : bytes => Ok (@None unit)) (fun _ => default_pdu) (fun _ r => r)
      (fun (_ : unit) (c : nat) => (Ok tt, S c)) 1 (s1_packet ++ [7]) (ModbusSocketFramer.init, 0%nat)
    = Some (Raise ModbusException, (f, 0%nat)) /\
    ModbusSocketFramer.buffer f = s1_packet ++ [7].
Proof.
  apply (socket_undecodable_frame_stays
           (fun _ : bytes => Ok (@None unit)) (fun _ => default_pdu) (fun _ r => r)
           (fun (_ : unit) (c : nat) => (Ok tt, S c))
           (ReadCoilsRequest.message s1_request) s1_packet [0; 1; 0; 1] [7] 0%nat 0);
    reflexivity.
Defined.

(** ** The asynchronous client: one callback per registered request *)

(** X22.  On a connected client, a deferred registered by
    [_build_response] under an identifier receives the first reply that
    carries that identifier, and only that one: [_handle_response] calls
    back exactly that deferred with the reply and removes the entry, so a
    second reply with the same identifier calls nothing; a reply for an
    identifier that is not pending, and the reply [None], call nothing
    and leave the client as it was. *)
Theorem client_reply_delivered_once {H Reply : Type} (reply_tid : Reply -> Z)
    (c : ModbusClientProtocol H) (d : H) (tid : Z) (reply : Reply) :
  _connected c = true ->
  reply_tid reply = tid ->
  let registered := snd (_build_response d tid c) in
  let delivered := snd (_handle_response reply_tid (Some reply) registered) in
  fst (_build_response d tid c) = Ok (d, None) /\
  fst (_handle_response reply_tid (Some reply) registered) = Ok [(d, reply)] /\
  DictTransactionManager.transactions (transaction delivered)
    = delete tid (DictTransactionManager.transactions (transaction c)) /\
  _handle_response reply_tid (Some reply) delivered = (Ok [], delivered) /\
  (forall other : Reply,
     DictTransactionManager.transactions (transaction c) !! reply_tid other = None ->
     _handle_response reply_tid (Some other) c = (Ok [], c)) /\
  _handle_response reply_tid None c = (Ok [], c).
Proof.
  intros Hconn Htid. destruct c as [conn [t table] errs]. cbn in Hconn. subst conn.
  unfold _build_response, _handle_response, on_transaction,
    DictTransactionManager.get_transaction, DictTransactionManager.add_transaction.
  run_m. cbn. rewrite Htid. rewrite lookup_insert_eq. cbn.
  rewrite delete_insert_eq, lookup_delete_eq, delete_delete_eq.
  repeat split.
  intros other Habsent. rewrite Habsent. by rewrite delete_id.
Qed.

Lemma client_reply_delivered_once_witness :
  let c := snd (connection_made (init (H := nat))) in
  _connected c = true /\
  fst (_handle_response (fun r : Z => r) (Some 7) (snd (_build_response 10%nat 7 c)))
    = Ok [(10%nat, 7)].
Proof.
  split; [reflexivity |].
  apply (client_reply_delivered_once (fun r : Z => r)
           (snd (connection_made (init (H := nat)))) 10%nat 7 7); reflexivity.
Defined.

(** ** The asynchronous server on the MBAP wire *)

Lemma lor_0x80_byte (v : Z) : 0 <= v <= 255 -> 0 <= Z.lor v 0x80 <= 255.
Proof.
  intros Hv.
  pose proof (byte_cases (fun v => (0 <=? Z.lor v 0x80) && (Z.lor v 0x80 <=? 255))
                ltac:(vm_compute; reflexivity) v Hv) as Hb.
  cbv beta in Hb. apply andb_true_iff in Hb as [H1 H2]. apply Z.leb_le in H1, H2. lia.
Qed.

Lemma pack_H_ok (v : Z) :
  0 <= v <= 0xFFFF -> pack_H v = Ok [Z.shiftr v 8; Z.land v 0xFF].
Proof.
  intros Hv. unfold pack_H.
  replace ((0 <=? v) && (v <=? 0xFFFF)) with true
    by (symmetry; apply andb_true_iff; split; apply Z.leb_le; lia).
  reflexivity.
Qed.

Lemma pack_B_ok (v : Z) : 0 <= v <= 0xFF -> pack_B v = Ok [v].
Proof.
  intros Hv. unfold pack_B.
  replace ((0 <=? v) && (v <=? 0xFF)) with true
    by (symmetry; apply andb_true_iff; split; apply Z.leb_le; lia).
  reflexivity.
Qed.

(** X23.  When the store has no context for the unit or [execute]
    raises, the server over the MBAP framer answers on the wire with the
    nine bytes of a SlaveFailure exception: the request's transaction id,
    protocol id 0, length 3, the request's unit id, the function code
    with 0x80 set, and the code 04; it counts one bus message. *)
Theorem server_slave_failure_packet {Ctx : Type}
    (store_getitem : value -> result Ctx) (request : Request (Ctx := Ctx))
    (s : ModbusTcpProtocol) (uid : Z) (e : exn) :
  (let! context := store_getitem (unit_id (req_pdu request)) in
   execute request context) = Raise e ->
  unit_id (req_pdu request) = Int uid ->
  0 <= uid <= 0xFF ->
  0 <= transaction_id (req_pdu request) <= 0xFFFF ->
  0 <= req_function_code request <= 0xFF ->
  _execute store_getitem ModbusSocketFramer.build_packet request s
  = (Ok tt,
     {| BusMessage := BusMessage s + 1;
        written := written s ++
          [[Z.shiftr (transaction_id (req_pdu request)) 8;
            Z.land (transaction_id (req_pdu request)) 0xFF;
            0; 0; 0; 3; uid; Z.lor (req_function_code request) 0x80; 4]] |}).
Proof.
  intros Hraise Huid Hu Ht Hf.
  unfold _execute. rewrite Hraise.
  unfold send, ExceptionResponse_message, do_exception, new_ExceptionResponse,
    ExceptionResponse_encode, ExceptionOffset, with_pdu, set_unit_id, set_transaction_id.
  cbn [should_respond pdu function_code encode er_pdu er_function_code exception_code
       transaction_id protocol_id unit_id default_pdu]. run_m.
  unfold ModbusSocketFramer.build_packet.
  cbn [should_respond pdu function_code encode transaction_id protocol_id unit_id].
  unfold ModbusExceptions.SlaveFailure. rewrite Huid.
  rewrite (pack_B_ok 4) by lia. cbn [bind].
  rewrite (pack_H_ok (transaction_id (req_pdu request))) by lia. cbn [bind].
  rewrite (pack_H_ok 0) by lia. cbn [bind].
  change (Py.len [4] + 2) with 3. rewrite (pack_H_ok 3) by lia. cbn [bind pack_B_value].
  rewrite (pack_B_ok uid) by lia. cbn [bind].
  rewrite (pack_B_ok (Z.lor (req_function_code request) 128))
    by (apply lor_0x80_byte; lia).
  cbn [bind app]. reflexivity.
Qed.

Lemma server_slave_failure_packet_witness :
  _execute (fun _ => Ok tt) ModbusSocketFramer.build_packet failing_request
    {| BusMessage := 0; written := [] |}
  = (Ok tt, {| BusMessage := 1;
               written := [[0x12; 0x34; 0; 0; 0; 3; 0xFF; 0x81; 4]] |}).
Proof.
  apply (server_slave_failure_packet (fun _ => Ok tt) failing_request
           {| BusMessage := 0; written := [] |} 0xFF OtherError);
    try reflexivity; simpl; lia.
Defined.

(** X24.  On the normal path the server over the MBAP framer writes
    exactly one packet when the response wants an answer and can be
    packed: its MBAP header carries the request's transaction id and unit
    id (whatever the response object held), the response's protocol id
    and the payload length plus 2, followed by the response's function
    code and payload, and one bus message is counted.  A response with
    [should_respond] false writes nothing and counts nothing. *)
Theorem server_response_packet {Ctx : Type}
    (store_getitem : value -> result Ctx) (request : Request (Ctx := Ctx))
    (s : ModbusTcpProtocol) (response : Message) (uid : Z) (data : bytes) :
  (let! context := store_getitem (unit_id (req_pdu request)) in
   execute request context) = Ok response ->
  (should_respond response = false ->
   _execute store_getitem ModbusSocketFramer.build_packet request s = (Ok tt, s)) /\
  (should_respond response = true ->
   encode response = Ok data ->
   unit_id (req_pdu request) = Int uid -> 0 <= uid <= 0xFF ->
   0 <= transaction_id (req_pdu request) <= 0xFFFF ->
   0 <= protocol_id (pdu response) <= 0xFFFF ->
   0 <= function_code response <= 0xFF ->
   Py.len data + 2 <= 0xFFFF ->
   exists header,
     _execute store_getitem ModbusSocketFramer.build_packet request s
     = (Ok tt, {| BusMessage := BusMessage s + 1;
                  written := written s ++ [header ++ function_code response :: data] |}) /\
     unpack_HHHB header
     = Ok (transaction_id (req_pdu request), protocol_id (pdu response),
           Py.len data + 2, uid)).
Proof.
  intros Hok. unfold _execute. rewrite Hok.
  unfold send, with_pdu, set_unit_id, set_transaction_id.
  cbn [should_respond pdu function_code encode transaction_id protocol_id unit_id].
  split.
  - intros ->. reflexivity.
  - intros -> Henc Huid Hu Ht Hp Hf Hl. pose proof (len_nonneg data) as Hd. run_m.
    unfold ModbusSocketFramer.build_packet.
    cbn [should_respond pdu function_code encode transaction_id protocol_id unit_id].
    rewrite Henc, Huid. cbn [bind].
    rewrite (pack_H_ok (transaction_id (req_pdu request))) by lia. cbn [bind].
    rewrite (pack_H_ok (protocol_id (pdu response))) by lia. cbn [bind].
    rewrite (pack_H_ok (Py.len data + 2)) by lia. cbn [bind pack_B_value].
    rewrite (pack_B_ok uid) by lia. cbn [bind].
    rewrite (pack_B_ok (function_code response)) by lia. cbn [bind app].
    eexists [_; _; _; _; _; _; _]. split; [reflexivity |].
    cbn [unpack_HHHB].
    destruct (pack_H_inv _ _ (pack_H_ok _ Ht)) as (_ & _ & ->).
    destruct (pack_H_inv _ _ (pack_H_ok _ Hp)) as (_ & _ & ->).
    assert (Hlr : 0 <= Py.len data + 2 <= 0xFFFF) by lia.
    destruct (pack_H_inv _ _ (pack_H_ok _ Hlr)) as (_ & _ & ->).
    reflexivity.
Qed.

Lemma server_response_packet_witness :
  exists header,
    _execute (fun _ => Ok tt) ModbusSocketFramer.build_packet answering_request
      {| BusMessage := 0; written := [] |}
    = (Ok tt, {| BusMessage := 0 + 1;
                 written := [] ++ [header ++ 3 :: [0; 0; 0; 5]] |}) /\
    unpack_HHHB header = Ok (0x1234, 0, Py.len [0; 0; 0; 5] + 2, 0xFF).
Proof.
  apply (server_response_packet (fun _ => Ok tt) answering_request
           {| BusMessage := 0; written := [] |} s4_message 0xFF [0; 0; 0; 5]);
    try reflexivity; try (vm_compute; split; discriminate); vm_compute; discriminate.
Defined.
